(** * Real-time notification core of the gallery front end

    A shallow embedding of [src/services/websocket.ts] (the transport
    channel with its event dispatcher) and of
    [src/contexts/NotificationsContext.tsx] (the notification store), and
    the properties of the design document checked against them. *)

From Stdlib Require Import Ascii.
From stdpp Require Import gmap strings list fin_maps.

Open Scope Z_scope.

(** ** Data model *)

(** [NotificationData] of websocket.ts.  JavaScript numbers that carry ids
    and counts are integers here. *)
Record Sender := {
  sender_id : Z;
  username : string;
  full_name : string;
  profile_picture : option string
}.

Record NotificationData := {
  id : Z;
  type : string;
  message : string;
  sender : Sender;
  painting_id : option Z;
  comment_id : option Z;
  rating_id : option Z;
  is_read : bool;
  created_at : string
}.

(** The [data] argument handed to listeners ([any] in the source): the
    payload shapes the transport produces. *)
Inductive Payload :=
| PNull
| PNotification (data : NotificationData)
| PUnreadCount (count : Z)
| PNotificationsList (data : list NotificationData)
| PClose (code : Z) (reason : string)
| PError (detail : string)
| PJson (raw : string).

(** Outbound control messages, the argument of [send]. *)
Inductive Message :=
| get_notifications
| mark_read (notification_id : Z)
| mark_all_read.

(** Lines written to the console. *)
Inductive Log :=
| ConsoleLog (text : string)
| ConsoleWarn (text : string)
| ConsoleError (text : string).

(** Outcome of a promise returned by the REST collaborator. *)
Inductive Rest (A : Type) :=
| Resolved (value : A)
| Rejected (error : string).
Arguments Resolved {A} value.
Arguments Rejected {A} error.

(** ** The notification store (NotificationsContext.tsx) *)

(** The three [useState] cells of [NotificationsProvider], together with
    what the arrival handler reads and writes in the browser: whether
    notification permission is granted, and the alerts shown. *)
Record Provider := {
  notifications : list NotificationData;
  unreadCount : Z;
  isConnected : bool;
  granted : bool;
  shown : list string
}.

Definition setNotifications (f : list NotificationData -> list NotificationData)
    (p : Provider) : Provider :=
  {| notifications := f (notifications p); unreadCount := unreadCount p;
     isConnected := isConnected p; granted := granted p; shown := shown p |}.

Definition setUnreadCount (f : Z -> Z) (p : Provider) : Provider :=
  {| notifications := notifications p; unreadCount := f (unreadCount p);
     isConnected := isConnected p; granted := granted p; shown := shown p |}.

Definition setIsConnected (b : bool) (p : Provider) : Provider :=
  {| notifications := notifications p; unreadCount := unreadCount p;
     isConnected := b; granted := granted p; shown := shown p |}.

Definition showAlert (text : string) (p : Provider) : Provider :=
  {| notifications := notifications p; unreadCount := unreadCount p;
     isConnected := isConnected p; granted := granted p;
     shown := shown p ++ [text] |}.

(** [useState([])], [useState(0)], [useState(false)]. *)
Definition initialProvider (perm : bool) : Provider :=
  {| notifications := []; unreadCount := 0; isConnected := false;
     granted := perm; shown := [] |}.

Definition handleConnect (p : Provider) : Provider := setIsConnected true p.

Definition handleDisconnect (p : Provider) : Provider := setIsConnected false p.

Definition handleNotification (data : NotificationData) (p : Provider) : Provider :=
  let p1 := setNotifications (fun prev => data :: prev) p in
  let p2 := setUnreadCount (fun prev => prev + 1) p1 in
  if granted p2 then showAlert (message data) p2 else p2.

Definition handleUnreadCount (count : Z) (p : Provider) : Provider :=
  setUnreadCount (fun _ => count) p.

Definition handleNotificationsList (data : list NotificationData) (p : Provider) : Provider :=
  setNotifications (fun _ => data) p.

Definition handleError (p : Provider) : Provider := setIsConnected false p.

(** [{ ...notif, is_read: true }] *)
Definition with_is_read (notif : NotificationData) : NotificationData :=
  {| id := id notif; type := type notif; message := message notif;
     sender := sender notif; painting_id := painting_id notif;
     comment_id := comment_id notif; rating_id := rating_id notif;
     is_read := true; created_at := created_at notif |}.

(** The state updates of [markAsRead] that follow the awaited REST call. *)
Definition markAsRead_update (notificationId : Z) (p : Provider) : Provider :=
  let p1 := setNotifications
      (fun prev => map (fun notif =>
         if id notif =? notificationId then with_is_read notif else notif) prev) p in
  setUnreadCount (fun prev => Z.max 0 (prev - 1)) p1.

(** The state updates of [markAllAsRead] that follow the awaited REST call. *)
Definition markAllAsRead_update (p : Provider) : Provider :=
  let p1 := setNotifications (fun prev => map with_is_read prev) p in
  setUnreadCount (fun _ => 0) p1.

(** The reset performed when the effect is cleaned up or when there is no
    authenticated user: [setIsConnected(false); setNotifications([]);
    setUnreadCount(0)]. *)
Definition resetProvider (p : Provider) : Provider :=
  setUnreadCount (fun _ => 0) (setNotifications (fun _ => []) (setIsConnected false p)).

(** ** The browser around the service *)

Inductive ReadyState := CONNECTING | OPEN | CLOSING | CLOSED.

(** The connection target [ws://localhost:8000/ws/${userId}?token=${token}]:
    the two values embedded in it. *)
Record WsUrl := { url_user : Z; url_token : string }.

(** A [WebSocket] object: its target, its [readyState], and the messages
    handed to its [send] method. *)
Record WebSocket := {
  url : WsUrl;
  readyState : ReadyState;
  outbox : list Message
}.

(** The [event.data] of a message event, as [JSON.parse] sees it. *)
Inductive Frame :=
| Malformed (raw : string)
| Json (type : string) (data : Payload).

(** What the service reaches in the browser: every socket constructed so
    far (a socket is named by its position), the timeouts that are pending
    (handle and due time in milliseconds), the clock and the console.
    Timer handles are the positive integers [setTimeout] returns. *)
Record Browser := {
  sockets : list WebSocket;
  timers : list (positive * Z);
  next_timer : positive;
  now : Z;
  console : list Log
}.

Definition initialBrowser : Browser :=
  {| sockets := []; timers := []; next_timer := 1%positive; now := 0; console := [] |}.

(** Result of calling a listener: it returns or it throws, and either way it
    may have changed the state it closes over. *)
Inductive Outcome (W : Type) :=
| Returned (w : W)
| Threw (w : W) (error : string).
Arguments Returned {W} w.
Arguments Threw {W} w error.

Definition outcome_world {W : Type} (o : Outcome W) : W :=
  match o with Returned w => w | Threw w _ => w end.

(** ** The transport channel (websocket.ts) *)

(** The private fields of [WebSocketService].  A [Function] stored in
    [listeners] is a value of [Callback], compared by identity. *)
Record WebSocketService (Callback : Type) := {
  ws : option nat;
  reconnectTimer : option positive;
  listeners : gmap string (list Callback);
  userId : option Z;
  token : option string;
  isConnecting : bool
}.
Arguments ws {Callback} _.
Arguments reconnectTimer {Callback} _.
Arguments listeners {Callback} _.
Arguments userId {Callback} _.
Arguments token {Callback} _.
Arguments isConnecting {Callback} _.

(** The whole system: the singleton service, the browser, the state [W] the
    listeners close over, and the record of listener invocations made. *)
Record Sys (W Callback : Type) := {
  svc : WebSocketService Callback;
  env : Browser;
  world : W;
  calls : list (Callback * Payload)
}.
Arguments svc {W Callback} _.
Arguments env {W Callback} _.
Arguments world {W Callback} _.
Arguments calls {W Callback} _.

(** JavaScript truthiness of [number | null] and of [string | null]. *)
Definition truthy_number (v : option Z) : bool :=
  match v with Some n => negb (n =? 0) | None => false end.

Definition truthy_string (v : option string) : bool :=
  match v with Some s => negb (String.eqb s EmptyString) | None => false end.

Definition is_open (r : ReadyState) : bool :=
  match r with OPEN => true | _ => false end.

Definition is_closed (r : ReadyState) : bool :=
  match r with CLOSED => true | _ => false end.

Definition set_readyState (r : ReadyState) (sock : WebSocket) : WebSocket :=
  {| url := url sock; readyState := r; outbox := outbox sock |}.

Definition push_outbox (m : Message) (sock : WebSocket) : WebSocket :=
  {| url := url sock; readyState := readyState sock; outbox := outbox sock ++ [m] |}.

(** [ws.close(code, reason)] in the browser: a socket that is connecting or
    open starts closing; the close event comes later. *)
Definition socket_close (sock : WebSocket) : WebSocket :=
  match readyState sock with
  | CONNECTING | OPEN => set_readyState CLOSING sock
  | CLOSING | CLOSED => sock
  end.

Section Service.
Context {W Callback : Type} `{!EqDecision Callback}.

(** How a registered function behaves when called with [data].  The
    listeners of this program (the six handlers of NotificationsContext)
    only update the state they close over; none calls back into the
    service. *)
Variable call : Callback -> Payload -> W -> Outcome W.

(** Whether [new WebSocket(wsUrl)] accepts the target; it throws
    otherwise. *)
Variable valid_url : WsUrl -> bool.

Local Abbreviation Service := (WebSocketService Callback).
Local Abbreviation System := (Sys W Callback).

(** *** Field assignments *)

Definition with_svc (f : Service -> Service) (s : System) : System :=
  {| svc := f (svc s); env := env s; world := world s; calls := calls s |}.

Definition with_env (f : Browser -> Browser) (s : System) : System :=
  {| svc := svc s; env := f (env s); world := world s; calls := calls s |}.

Definition with_world (f : W -> W) (s : System) : System :=
  {| svc := svc s; env := env s; world := f (world s); calls := calls s |}.

Definition record_call (callback : Callback) (data : Payload) (s : System) : System :=
  {| svc := svc s; env := env s; world := world s;
     calls := calls s ++ [(callback, data)] |}.

Definition set_ws (v : option nat) (c : Service) : Service :=
  {| ws := v; reconnectTimer := reconnectTimer c; listeners := listeners c;
     userId := userId c; token := token c; isConnecting := isConnecting c |}.

Definition set_reconnectTimer (v : option positive) (c : Service) : Service :=
  {| ws := ws c; reconnectTimer := v; listeners := listeners c;
     userId := userId c; token := token c; isConnecting := isConnecting c |}.

Definition set_listeners (v : gmap string (list Callback)) (c : Service) : Service :=
  {| ws := ws c; reconnectTimer := reconnectTimer c; listeners := v;
     userId := userId c; token := token c; isConnecting := isConnecting c |}.

Definition set_userId (v : option Z) (c : Service) : Service :=
  {| ws := ws c; reconnectTimer := reconnectTimer c; listeners := listeners c;
     userId := v; token := token c; isConnecting := isConnecting c |}.

Definition set_token (v : option string) (c : Service) : Service :=
  {| ws := ws c; reconnectTimer := reconnectTimer c; listeners := listeners c;
     userId := userId c; token := v; isConnecting := isConnecting c |}.

Definition set_isConnecting (v : bool) (c : Service) : Service :=
  {| ws := ws c; reconnectTimer := reconnectTimer c; listeners := listeners c;
     userId := userId c; token := token c; isConnecting := v |}.

Definition set_sockets (v : list WebSocket) (b : Browser) : Browser :=
  {| sockets := v; timers := timers b; next_timer := next_timer b;
     now := now b; console := console b |}.

Definition set_timers (v : list (positive * Z)) (b : Browser) : Browser :=
  {| sockets := sockets b; timers := v; next_timer := next_timer b;
     now := now b; console := console b |}.

Definition set_next_timer (v : positive) (b : Browser) : Browser :=
  {| sockets := sockets b; timers := timers b; next_timer := v;
     now := now b; console := console b |}.

Definition set_now (v : Z) (b : Browser) : Browser :=
  {| sockets := sockets b; timers := timers b; next_timer := next_timer b;
     now := v; console := console b |}.

Definition write_console (l : Log) (s : System) : System :=
  with_env (fun b =>
    {| sockets := sockets b; timers := timers b; next_timer := next_timer b;
       now := now b; console := console b ++ [l] |}) s.

(** *** Browser primitives *)

(** [clearTimeout(t)]: the timeout with handle [t] is no longer pending. *)
Definition clearTimeout (t : positive) (s : System) : System :=
  with_env (fun b =>
    set_timers (filter (fun e => e.1 ≠ t) (timers b)) b) s.

(** [setTimeout(callback, delay)]: a fresh handle, due [delay] ms from
    now.  The only callback this program ever arms is the reconnect
    closure of [scheduleReconnect]. *)
Definition setTimeout (delay : Z) (s : System) : positive * System :=
  let t := next_timer (env s) in
  (t, with_env (fun b =>
        set_next_timer (Pos.succ t)
          (set_timers (timers b ++ [(t, now b + delay)]) b)) s).

(** [this.ws && this.ws.readyState === WebSocket.OPEN] *)
Definition ws_is_open (s : System) : bool :=
  match ws (svc s) with
  | Some k =>
      match sockets (env s) !! k with
      | Some sock => is_open (readyState sock)
      | None => false
      end
  | None => false
  end.

(** *** Event dispatcher *)

(** One iteration of the [forEach] in [emit]: [try { callback(data) }
    catch (error) { console.error(...) }]. *)
Definition invoke (data : Payload) (s : System) (callback : Callback) : System :=
  let s1 := record_call callback data s in
  match call callback data (world s1) with
  | Returned w => with_world (fun _ => w) s1
  | Threw w error =>
      write_console (ConsoleError "Error in WebSocket event callback:")
        (with_world (fun _ => w) s1)
  end.

Definition emit (event : string) (data : Payload) (s : System) : System :=
  match listeners (svc s) !! event with
  | Some eventListeners => foldl (invoke data) s eventListeners
  | None => s
  end.

Definition on (event : string) (callback : Callback) (s : System) : System :=
  with_svc (fun c =>
    let m := listeners c in
    let m1 := match m !! event with
              | None => <[event := []]> m
              | Some _ => m
              end in
    set_listeners (alter (fun l => l ++ [callback]) event m1) c) s.

(** [eventListeners.indexOf(callback)]; [None] stands for [-1]. *)
Fixpoint indexOf (callback : Callback) (l : list Callback) : option nat :=
  match l with
  | [] => None
  | x :: l' =>
      if decide (x = callback) then Some 0%nat
      else match indexOf callback l' with
           | Some i => Some (S i)
           | None => None
           end
  end.

Definition off (event : string) (callback : Callback) (s : System) : System :=
  match listeners (svc s) !! event with
  | Some eventListeners =>
      match indexOf callback eventListeners with
      | Some index =>
          with_svc (fun c =>
            set_listeners (<[event := delete index eventListeners]> (listeners c)) c) s
      | None => s
      end
  | None => s
  end.

(** *** Sending *)

Definition send (message : Message) (s : System) : System :=
  match ws (svc s) with
  | Some k =>
      match sockets (env s) !! k with
      | Some sock =>
          if is_open (readyState sock)
          then with_env (fun b =>
                 set_sockets (<[k := push_outbox message sock]> (sockets b)) b) s
          else write_console (ConsoleWarn "WebSocket not connected, cannot send message:") s
      | None => write_console (ConsoleWarn "WebSocket not connected, cannot send message:") s
      end
  | None => write_console (ConsoleWarn "WebSocket not connected, cannot send message:") s
  end.

Definition markNotificationAsRead (notificationId : Z) (s : System) : System :=
  send (mark_read notificationId) s.

Definition markAllNotificationsAsRead (s : System) : System :=
  send mark_all_read s.


(** *** Reconnection timer *)

Definition clearReconnectTimer (s : System) : System :=
  match reconnectTimer (svc s) with
  | Some t => with_svc (set_reconnectTimer None) (clearTimeout t s)
  | None => s
  end.

Definition connect (userId0 : Z) (token0 : string) (s : System) : System :=
  if isConnecting (svc s) || ws_is_open s then
    write_console (ConsoleLog "WebSocket already connected or connecting") s
  else
    let s1 := with_svc (fun c =>
        set_isConnecting true (set_token (Some token0) (set_userId (Some userId0) c))) s in
    let wsUrl := {| url_user := userId0; url_token := token0 |} in
    if valid_url wsUrl then
      (* this.ws = new WebSocket(wsUrl); the four handlers are attached *)
      let k := length (sockets (env s1)) in
      with_svc (set_ws (Some k))
        (with_env (fun b =>
           set_sockets (sockets b ++
             [{| url := wsUrl; readyState := CONNECTING; outbox := [] |}]) b) s1)
    else
      (* catch (error) *)
      let s2 := write_console (ConsoleError "Error creating WebSocket connection:") s1 in
      let s3 := with_svc (set_isConnecting false) s2 in
      emit "error" (PError "SyntaxError") s3.

(** The closure armed by [scheduleReconnect]. *)
Definition reconnect_callback (s : System) : System :=
  if truthy_number (userId (svc s)) && truthy_string (token (svc s)) then
    match userId (svc s), token (svc s) with
    | Some u, Some t =>
        connect u t (write_console (ConsoleLog "Attempting to reconnect WebSocket...") s)
    | _, _ => s
    end
  else s.

Definition scheduleReconnect (s : System) : System :=
  let s1 := clearReconnectTimer s in
  let '(t, s2) := setTimeout 3000 s1 in
  with_svc (set_reconnectTimer (Some t)) s2.

(** *** Socket handlers installed by [connect] *)

Definition onopen (s : System) : System :=
  let s1 := write_console (ConsoleLog "WebSocket connected") s in
  let s2 := with_svc (set_isConnecting false) s1 in
  let s3 := clearReconnectTimer s2 in
  let s4 := emit "connect" PNull s3 in
  send get_notifications s4.

Definition onmessage (frame : Frame) (s : System) : System :=
  match frame with
  | Json type0 data =>
      emit type0 data (write_console (ConsoleLog "WebSocket message received:") s)
  | Malformed _ =>
      write_console (ConsoleError "Error parsing WebSocket message:") s
  end.

Definition onclose (code : Z) (reason : string) (s : System) : System :=
  let s1 := write_console (ConsoleLog "WebSocket disconnected:") s in
  let s2 := with_svc (fun c => set_ws None (set_isConnecting false c)) s1 in
  let s3 := emit "disconnect" (PClose code reason) s2 in
  if negb (code =? 1000) && truthy_number (userId (svc s3))
       && truthy_string (token (svc s3))
  then scheduleReconnect s3
  else s3.

Definition onerror (s : System) : System :=
  let s1 := write_console (ConsoleError "WebSocket error:") s in
  let s2 := with_svc (set_isConnecting false) s1 in
  emit "error" (PError "Event") s2.

Definition disconnect (s : System) : System :=
  let s1 := clearReconnectTimer s in
  let s2 := with_svc (fun c => set_token None (set_userId None c)) s1 in
  match ws (svc s2) with
  | Some k =>
      (* this.ws.close(1000, 'Manual disconnect') *)
      with_svc (set_ws None)
        (with_env (fun b =>
           set_sockets (alter socket_close k (sockets b)) b) s2)
  | None => s2
  end.

(** [isConnected()] of the service. *)
Definition service_isConnected (s : System) : bool := ws_is_open s.

(** *** The service as constructed, and the event loop *)

(** [new WebSocketService()]: six event names registered with no listener. *)
Definition initialService : Service :=
  {| ws := None; reconnectTimer := None;
     listeners :=
       <["error" := []]> (<["disconnect" := []]> (<["connect" := []]>
       (<["notifications_list" := []]> (<["unread_count" := []]>
       (<["notification" := []]> ∅)))));
     userId := None; token := None; isConnecting := false |}.

Definition initialSys (w : W) : System :=
  {| svc := initialService; env := initialBrowser; world := w; calls := [] |}.

(** What can happen to the system: a call of the public interface, an event
    the browser delivers to a socket's handlers, a timeout coming due, or
    time passing. *)
Inductive Event :=
| CallConnect (userId0 : Z) (token0 : string)
| CallDisconnect
| CallSend (message : Message)
| CallOn (event : string) (callback : Callback)
| CallOff (event : string) (callback : Callback)
| SocketOpen (k : nat)
| SocketMessage (k : nat) (frame : Frame)
| SocketError (k : nat)
| SocketClose (k : nat) (code : Z) (reason : string)
| TimerFires (t : positive)
| Elapse (ms : Z).

Definition set_socket_state (k : nat) (r : ReadyState) (s : System) : System :=
  with_env (fun b => set_sockets (alter (set_readyState r) k (sockets b)) b) s.

(** One turn of the event loop.  The browser delivers [open] only to a
    connecting socket, which it marks open first; messages only to a socket
    that is open or closing; [close] once per socket, marking it closed
    first; and it runs a timeout only when it is pending and due, removing
    it from the pending ones. *)
Definition step (e : Event) (s : System) : System :=
  match e with
  | CallConnect u t => connect u t s
  | CallDisconnect => disconnect s
  | CallSend m => send m s
  | CallOn ev cb => on ev cb s
  | CallOff ev cb => off ev cb s
  | SocketOpen k =>
      match sockets (env s) !! k with
      | Some sock =>
          match readyState sock with
          | CONNECTING => onopen (set_socket_state k OPEN s)
          | _ => s
          end
      | None => s
      end
  | SocketMessage k frame =>
      match sockets (env s) !! k with
      | Some sock =>
          match readyState sock with
          | OPEN | CLOSING => onmessage frame s
          | _ => s
          end
      | None => s
      end
  | SocketError k =>
      match sockets (env s) !! k with
      | Some sock => onerror s
      | None => s
      end
  | SocketClose k code reason =>
      match sockets (env s) !! k with
      | Some sock =>
          if is_closed (readyState sock) then s
          else onclose code reason (set_socket_state k CLOSED s)
      | None => s
      end
  | TimerFires t =>
      match list_find (fun e => e.1 = t) (timers (env s)) with
      | Some (_, (_, due)) =>
          if due <=? now (env s) then reconnect_callback (clearTimeout t s)
          else s
      | None => s
      end
  | Elapse ms => with_env (fun b => set_now (now b + Z.max 0 ms) b) s
  end.

Definition run (es : list Event) (s : System) : System :=
  foldl (fun acc e => step e acc) s es.

End Service.

(** Every pending timeout is the one whose handle the service holds: there
    is none, or there is exactly one and [reconnectTimer] names it. *)
Definition timers_tracked {W Callback : Type} (s : Sys W Callback) : Prop :=
  timers (env s) = [] ∨
  ∃ t due, timers (env s) = [(t, due)] ∧ reconnectTimer (svc s) = Some t.

(** The condition under which [onclose] schedules a reconnect:
    [event.code !== 1000 && this.userId && this.token]. *)
Definition will_reconnect {W Callback : Type} (code : Z) (s : Sys W Callback) : bool :=
  negb (code =? 1000) && truthy_number (userId (svc s))
    && truthy_string (token (svc s)).



(** ** The provider on top of the service *)

(** The REST collaborator ([api.notifications] in the API layer): [fetch]
    either fails or yields a response; every endpoint throws when the
    response is not [ok] and returns the decoded body otherwise. *)
Inductive Fetch (A : Type) :=
| FetchFailed (error : string)
| FetchResponse (ok : bool) (statusText : string) (json : A).
Arguments FetchFailed {A} error.
Arguments FetchResponse {A} ok statusText json.

Definition api_call {A : Type} (failure : string) (f : Fetch A) : Rest A :=
  match f with
  | FetchFailed error => Rejected error
  | FetchResponse ok statusText json =>
      if ok then Resolved json else Rejected (failure +:+ statusText)
  end.

Definition api_markAsRead : Fetch unit -> Rest unit :=
  api_call "Failed to mark notification as read: ".

Definition api_markAllAsRead : Fetch unit -> Rest unit :=
  api_call "Failed to mark all notifications as read: ".



(** The six functions an effect run registers.  Each run creates fresh
    closures, so a listener is the run's number and the function's name. *)
Inductive HandlerName :=
| HandleConnect
| HandleDisconnect
| HandleNotification
| HandleUnreadCount
| HandleNotificationsList
| HandleError.

#[global] Instance HandlerName_eq_dec : EqDecision HandlerName.
Proof. solve_decision. Defined.

Definition Closure : Type := nat * HandlerName.

(** Calling a closure.  Payloads are typed as the handlers' signatures
    declare them; a payload of another shape leaves the store alone. *)
Definition run_handler (c : Closure) (data : Payload) (p : Provider) : Outcome Provider :=
  match c.2, data with
  | HandleConnect, _ => Returned (handleConnect p)
  | HandleDisconnect, _ => Returned (handleDisconnect p)
  | HandleNotification, PNotification d => Returned (handleNotification d p)
  | HandleUnreadCount, PUnreadCount count => Returned (handleUnreadCount count p)
  | HandleNotificationsList, PNotificationsList l => Returned (handleNotificationsList l p)
  | HandleError, _ => Returned (handleError p)
  | _, _ => Returned p
  end.

Section Application.
Context {Callback : Type}.

Local Abbreviation App := (Sys Provider Callback).

(** [markAsRead] up to its [await]: the transport send, then the REST call
    is issued. *)
Definition markAsRead_begin (notificationId : Z) (s : App) : App :=
  markNotificationAsRead notificationId s.

(** [markAsRead] from its [await] on, once the REST promise has settled. *)
Definition markAsRead_settle (notificationId : Z) (r : Rest unit) (s : App) : App :=
  match r with
  | Resolved _ => with_world (markAsRead_update notificationId) s
  | Rejected _ => write_console (ConsoleError "Error marking notification as read:") s
  end.

Definition markAsRead (notificationId : Z) (f : Fetch unit) (s : App) : App :=
  markAsRead_settle notificationId (api_markAsRead f) (markAsRead_begin notificationId s).

Definition markAllAsRead_begin (s : App) : App := markAllNotificationsAsRead s.

Definition markAllAsRead_settle (r : Rest unit) (s : App) : App :=
  match r with
  | Resolved _ => with_world markAllAsRead_update s
  | Rejected _ => write_console (ConsoleError "Error marking all notifications as read:") s
  end.

Definition markAllAsRead (f : Fetch unit) (s : App) : App :=
  markAllAsRead_settle (api_markAllAsRead f) (markAllAsRead_begin s).





End Application.

(** What each trigger does to the store, as one transition system: the
    listeners, the settled mutations, the two halves of a refresh, and the
    reset on logout. *)
Inductive StoreOp :=
| OpConnect
| OpDisconnect
| OpError
| OpNotification (data : NotificationData)
| OpUnreadCount (count : Z)
| OpNotificationsList (data : list NotificationData)
| OpMarkAsRead (notificationId : Z) (r : Rest unit)
| OpMarkAllAsRead (r : Rest unit)
| OpRefreshList (r : Rest (list NotificationData))
| OpRefreshCount (r : Rest Z)
| OpReset.

Definition apply_op (o : StoreOp) (p : Provider) : Provider :=
  match o with
  | OpConnect => handleConnect p
  | OpDisconnect => handleDisconnect p
  | OpError => handleError p
  | OpNotification data => handleNotification data p
  | OpUnreadCount count => handleUnreadCount count p
  | OpNotificationsList data => handleNotificationsList data p
  | OpMarkAsRead notificationId (Resolved _) => markAsRead_update notificationId p
  | OpMarkAsRead _ (Rejected _) => p
  | OpMarkAllAsRead (Resolved _) => markAllAsRead_update p
  | OpMarkAllAsRead (Rejected _) => p
  | OpRefreshList (Resolved l) => setNotifications (fun _ => l) p
  | OpRefreshList (Rejected _) => p
  | OpRefreshCount (Resolved count) => setUnreadCount (fun _ => count) p
  | OpRefreshCount (Rejected _) => p
  | OpReset => resetProvider p
  end.

Definition apply_ops (os : list StoreOp) (p : Provider) : Provider :=
  foldl (fun acc o => apply_op o acc) p os.

(** The store operation a closure performs on a payload. *)
Definition op_of (c : Closure) (data : Payload) : list StoreOp :=
  match c.2, data with
  | HandleConnect, _ => [OpConnect]
  | HandleDisconnect, _ => [OpDisconnect]
  | HandleNotification, PNotification d => [OpNotification d]
  | HandleUnreadCount, PUnreadCount count => [OpUnreadCount count]
  | HandleNotificationsList, PNotificationsList l => [OpNotificationsList l]
  | HandleError, _ => [OpError]
  | _, _ => []
  end.

(** Number of unread notifications in a list, and the ids that have an
    unread entry. *)
Definition unread_in (l : list NotificationData) : Z :=
  Z.of_nat (length (filter (fun n => is_read n = false) l)).

Definition has_unread (i : Z) (l : list NotificationData) : Prop :=
  ∃ n, n ∈ l ∧ id n = i ∧ is_read n = false.

(** The effect of [NotificationsProvider] that depends on [[user, token]]:
    its body for run number [g], and the cleanup React runs before the next
    run or on unmount.  [user] is the id of the user object, if there is
    one. *)
Section Effect.
Variable valid_url : WsUrl -> bool.

Local Abbreviation App := (Sys Provider Closure).

Definition registerListeners (g : nat) (s : App) : App :=
  let s1 := on "connect" (g, HandleConnect) s in
  let s2 := on "disconnect" (g, HandleDisconnect) s1 in
  let s3 := on "notification" (g, HandleNotification) s2 in
  let s4 := on "unread_count" (g, HandleUnreadCount) s3 in
  let s5 := on "notifications_list" (g, HandleNotificationsList) s4 in
  on "error" (g, HandleError) s5.

Definition removeListeners (g : nat) (s : App) : App :=
  let s1 := off "connect" (g, HandleConnect) s in
  let s2 := off "disconnect" (g, HandleDisconnect) s1 in
  let s3 := off "notification" (g, HandleNotification) s2 in
  let s4 := off "unread_count" (g, HandleUnreadCount) s3 in
  let s5 := off "notifications_list" (g, HandleNotificationsList) s4 in
  off "error" (g, HandleError) s5.

Definition effect_body (g : nat) (user : option Z) (token0 : option string) (s : App) : App :=
  match user, token0 with
  | Some user_id, Some t =>
      if truthy_string (Some t) then
        registerListeners g (connect run_handler valid_url user_id t s)
      else with_world resetProvider (disconnect s)
  | _, _ => with_world resetProvider (disconnect s)
  end.

Definition effect_cleanup (g : nat) (s : App) : App :=
  with_world resetProvider (disconnect (removeListeners g s)).

End Effect.

(** The console lines [emit] writes for the listeners that throw, when
    [hs] are called in turn on [data] starting from the state [w]. *)
Fixpoint caught {W Callback : Type} (call : Callback -> Payload -> W -> Outcome W)
    (data : Payload) (w : W) (hs : list Callback) : list Log :=
  match hs with
  | [] => []
  | h :: hs' =>
      match call h data w with
      | Returned w' => caught call data w' hs'
      | Threw w' _ =>
          ConsoleError "Error in WebSocket event callback:" :: caught call data w' hs'
      end
  end.

(** Two listeners over a counter: listener 0 throws, any other one counts
    the notifications it is given. *)
Definition flaky (h : nat) (data : Payload) (w : nat) : Outcome nat :=
  match h with
  | O => Threw w "TypeError"
  | _ => Returned (S w)
  end.

(** The browser's check of a connection target: the constructor throws a
    [SyntaxError] for a URL with a fragment, which the target has when the
    token holds a [#]. *)
Fixpoint has_hash (t : string) : bool :=
  match t with
  | EmptyString => false
  | String c t' => Ascii.eqb c "#"%char || has_hash t'
  end.

Definition browser_valid_url (u : WsUrl) : bool := negb (has_hash (url_token u)).

(** The provider's system in a browser: listeners are the closures of the
    effect runs. *)
Definition app_step := step (W := Provider) run_handler browser_valid_url.

Definition app_run := run (W := Provider) run_handler browser_valid_url.

Definition freshApp : Sys Provider Closure := initialSys (initialProvider false).

(** ** Sample data for the scenarios of the design document *)

Definition someone : Sender :=
  {| sender_id := 7; username := "ada"; full_name := "Ada L.";
     profile_picture := None |}.

Definition sample (i : Z) (read : bool) : NotificationData :=
  {| id := i; type := "comment"; message := "New comment on your painting";
     sender := someone; painting_id := Some 3; comment_id := Some 11;
     rating_id := None; is_read := read; created_at := "2024-05-01T10:00:00Z" |}.

(** A store holding five notifications, three of them unread. *)
Definition five_three_unread : Provider :=
  {| notifications :=
       [sample 5 false; sample 4 true; sample 3 false; sample 2 true; sample 1 false];
     unreadCount := 3; isConnected := true; granted := false; shown := [] |}.

(** A store holding one unread notification, with an unread count of 1. *)
Definition one_unread : Provider :=
  {| notifications := [sample 1 false]; unreadCount := 1; isConnected := false;
     granted := false; shown := [] |}.

(** Whether a count an operation brings from the server is non-negative. *)
Definition reports_nonneg (o : StoreOp) : Prop :=
  match o with
  | OpUnreadCount count => 0 <= count
  | OpRefreshCount (Resolved count) => 0 <= count
  | _ => True
  end.

(** Whether the payload of an operation carries an unread entry with id
    [i]. *)
Definition delivers_unread (i : Z) (o : StoreOp) : Prop :=
  match o with
  | OpNotification data => id data = i ∧ is_read data = false
  | OpNotificationsList data => has_unread i data
  | OpRefreshList (Resolved data) => has_unread i data
  | _ => False
  end.

(** ** The notification bell (NotificationBell component) *)



(** The badge on the bell: rendered when [unreadCount > 0], with the text
    [unreadCount > 99 ? '99+' : unreadCount]. *)
Inductive BadgeText :=
| BadgeCount (n : Z)
| Badge99Plus.

Definition badge (count : Z) : option BadgeText :=
  if 0 <? count then Some (if 99 <? count then Badge99Plus else BadgeCount count)
  else None.

(** ** Authentication (AuthContext and the auth part of the API layer) *)

Module Auth.

Inductive Role := artist | enthusiast.

(** [User] of the API layer. *)
Record User := {
  id : Z;
  email : string;
  username : string;
  full_name : string;
  role : Role;
  bio : option string;
  location : option string;
  website : option string;
  profile_picture : option string;
  is_active : bool;
  created_at : string;
  updated_at : string
}.

Record AuthResponse := { access_token : string; token_type : string }.

Record LoginData := { login_username : string; login_password : string }.

Record RegisterData := {
  reg_email : string;
  reg_username : string;
  reg_full_name : string;
  reg_password : string;
  reg_role : Role;
  reg_bio : option string
}.

(** What [JSON.parse(atob(token.split('.')[1]))] yields of a token: the
    claims read by the context, either of which may be missing. *)
Record TokenPayload := { sub : option string; exp : option Z }.

(** The three [useState] cells of [AuthProvider], with the browser's
    [localStorage] and console. *)
Record State := {
  user : option User;
  token : option string;
  isLoading : bool;
  localStorage : gmap string string;
  console : list Log
}.

Definition setUser (v : option User) (st : State) : State :=
  {| user := v; token := token st; isLoading := isLoading st;
     localStorage := localStorage st; console := console st |}.

Definition setToken (v : option string) (st : State) : State :=
  {| user := user st; token := v; isLoading := isLoading st;
     localStorage := localStorage st; console := console st |}.

Definition setIsLoading (v : bool) (st : State) : State :=
  {| user := user st; token := token st; isLoading := v;
     localStorage := localStorage st; console := console st |}.

Definition setItem (key value : string) (st : State) : State :=
  {| user := user st; token := token st; isLoading := isLoading st;
     localStorage := <[key := value]> (localStorage st); console := console st |}.

Definition removeItem (key : string) (st : State) : State :=
  {| user := user st; token := token st; isLoading := isLoading st;
     localStorage := delete key (localStorage st); console := console st |}.

Definition console_error (text : string) (st : State) : State :=
  {| user := user st; token := token st; isLoading := isLoading st;
     localStorage := localStorage st; console := console st ++ [ConsoleError text] |}.

(** [useState(null)], [useState(null)], [useState(true)]. *)
Definition initialState (storage : gmap string string) : State :=
  {| user := None; token := None; isLoading := true;
     localStorage := storage; console := [] |}.

(** [getAuthHeaders]: the [Authorization] header, if a non-empty token is
    stored. *)
Definition getAuthHeaders (st : State) : option string :=
  match localStorage st !! "access_token" with
  | Some t => if String.eqb t EmptyString then None else Some ("Bearer " +:+ t)
  | None => None
  end.

Section Server.

(** The server behind [fetch], and the decoding of a token. *)
Variable fetch_login : LoginData -> Fetch AuthResponse.
Variable fetch_register : RegisterData -> Fetch User.
Variable fetch_users : option string -> Fetch (list User).
Variable decode : string -> Rest TokenPayload.

(** [api.auth.login]: the token is stored before the response is
    returned. *)
Definition api_login (data : LoginData) (st : State) : Rest AuthResponse * State :=
  match api_call "Login failed: " (fetch_login data) with
  | Resolved authData => (Resolved authData, setItem "access_token" (access_token authData) st)
  | Rejected e => (Rejected e, st)
  end.

(** [api.auth.logout]. *)
Definition api_logout (st : State) : State := removeItem "access_token" st.

(** [api.auth.register]. *)
Definition api_register (data : RegisterData) : Rest User :=
  api_call "Registration failed: " (fetch_register data).

(** [api.users.getAll], sent with [getAuthHeaders()]. *)
Definition api_users_getAll (st : State) : Rest (list User) :=
  api_call "Failed to fetch users: " (fetch_users (getAuthHeaders st)).

(** [allUsers.find(user => user.username === username)]; no user name
    equals [undefined]. *)
Definition find_user (name : option string) (allUsers : list User) : option User :=
  match name with
  | Some name0 => List.find (fun u => String.eqb (username u) name0) allUsers
  | None => None
  end.

(** The [catch] and [finally] of [login]: log, rethrow, stop loading. *)
Definition login_failed (e : string) (st : State) : Rest unit * State :=
  (Rejected e, setIsLoading false (console_error "Login failed:" st)).

Definition login (data : LoginData) (st : State) : Rest unit * State :=
  let st1 := setIsLoading true st in
  match api_login data st1 with
  | (Rejected e, st2) => login_failed e st2
  | (Resolved authResponse, st2) =>
      let st3 := setToken (Some (access_token authResponse)) st2 in
      match decode (access_token authResponse) with
      | Rejected e => login_failed e st3
      | Resolved tokenPayload =>
          match api_users_getAll st3 with
          | Rejected e => login_failed e st3
          | Resolved allUsers =>
              match find_user (sub tokenPayload) allUsers with
              | None => login_failed "User not found after login" st3
              | Some currentUser =>
                  (Resolved (), setIsLoading false (setUser (Some currentUser) st3))
              end
          end
      end
  end.

(** [register]: the account is created, then [login] is awaited; both
    [catch] blocks log when [login] throws. *)
Definition register (data : RegisterData) (st : State) : Rest unit * State :=
  let st1 := setIsLoading true st in
  match api_register data with
  | Rejected e => (Rejected e, setIsLoading false (console_error "Registration failed:" st1))
  | Resolved newUser =>
      match login {| login_username := reg_username data;
                     login_password := reg_password data |} st1 with
      | (Resolved _, st2) => (Resolved (), setIsLoading false st2)
      | (Rejected e, st2) =>
          (Rejected e, setIsLoading false (console_error "Registration failed:" st2))
      end
  end.

Definition logout (st : State) : State :=
  setToken None (setUser None (api_logout st)).

Definition updateUser (userData : User) (st : State) : State :=
  setUser (Some userData) st.

(** [tokenPayload.exp < Date.now() / 1000], with [now] in milliseconds; a
    missing [exp] compares false. *)
Definition expired (tokenPayload : TokenPayload) (now : Z) : bool :=
  match exp tokenPayload with
  | Some e => e * 1000 <? now
  | None => false
  end.

(** [initializeAuth], run once on mount. *)
Definition initializeAuth (now : Z) (st : State) : State :=
  match localStorage st !! "access_token" with
  | Some storedToken =>
      if String.eqb storedToken EmptyString then setIsLoading false st
      else
        match decode storedToken with
        | Rejected _ =>
            setIsLoading false
              (removeItem "access_token" (console_error "Failed to initialize auth:" st))
        | Resolved tokenPayload =>
            if expired tokenPayload now then
              setIsLoading false (removeItem "access_token" st)
            else
              let st1 := setToken (Some storedToken) st in
              match api_users_getAll st1 with
              | Rejected _ =>
                  setIsLoading false
                    (removeItem "access_token"
                       (console_error "Failed to initialize auth:" st1))
              | Resolved allUsers =>
                  match find_user (sub tokenPayload) allUsers with
                  | Some currentUser => setIsLoading false (setUser (Some currentUser) st1)
                  | None => setIsLoading false (removeItem "access_token" st1)
                  end
              end
        end
  | None => setIsLoading false st
  end.

End Server.

End Auth.

(** A server with one account: the password [secret] of [ada] is answered
    with a token that decodes to her name and expires at second 2000; the
    list of users is given to the bearer of that token only. *)
Definition ada : Auth.User :=
  {| Auth.id := 7; Auth.email := "ada@example.org"; Auth.username := "ada";
     Auth.full_name := "Ada L."; Auth.role := Auth.artist; Auth.bio := None;
     Auth.location := None; Auth.website := None; Auth.profile_picture := None;
     Auth.is_active := true; Auth.created_at := "2024-05-01T10:00:00Z";
     Auth.updated_at := "2024-05-01T10:00:00Z" |}.

Definition ada_token : Auth.AuthResponse :=
  {| Auth.access_token := "h.ada.s"; Auth.token_type := "bearer" |}.

Definition one_account_login (data : Auth.LoginData) : Fetch Auth.AuthResponse :=
  if String.eqb (Auth.login_username data) "ada" &&
     String.eqb (Auth.login_password data) "secret"
  then FetchResponse true "OK" ada_token
  else FetchResponse false "Unauthorized" ada_token.

Definition one_account_register (data : Auth.RegisterData) : Fetch Auth.User :=
  if String.eqb (Auth.reg_username data) "ada"
  then FetchResponse false "Bad Request" ada
  else FetchResponse true "OK" ada.

Definition one_account_users (authorization : option string) : Fetch (list Auth.User) :=
  match authorization with
  | Some h =>
      if String.eqb h "Bearer h.ada.s" then FetchResponse true "OK" [ada]
      else FetchResponse false "Unauthorized" []
  | None => FetchResponse false "Unauthorized" []
  end.

Definition one_account_decode (t : string) : Rest Auth.TokenPayload :=
  if String.eqb t "h.ada.s"
  then Resolved {| Auth.sub := Some "ada"; Auth.exp := Some 2000 |}
  else Rejected "SyntaxError".

(** ** Shapes of the invariants *)

(** The messages handed to the socket at position [k] so far. *)
Definition sent_on {W Callback : Type} (k : nat) (s : Sys W Callback)
    : option (list Message) :=
  outbox <$> sockets (env s) !! k.

(** The events the browser delivers to the [onopen], [onerror] and
    [onclose] handlers of a socket. *)
Definition is_socket_event {Callback : Type} (e : Event (Callback := Callback)) : bool :=
  match e with
  | SocketOpen _ | SocketError _ | SocketClose _ _ _ => true
  | _ => false
  end.

(** What may happen while a reconnect is pending without touching it:
    messages and errors on a socket, calls of [send], [on] and [off], and
    time passing. *)
Definition is_bystander {Callback : Type} (e : Event (Callback := Callback)) : bool :=
  match e with
  | CallSend _ | CallOn _ _ | CallOff _ _ | SocketMessage _ _ | SocketError _
  | Elapse _ => true
  | _ => false
  end.

(** A reconnect is pending: timeout [t] is the only one, due at [due]; no
    socket is held and no connect is in flight; the identity is stored. *)
Definition armed {W Callback : Type} (t : positive) (due : Z) (u : Z) (tok : string)
    (socks : list WebSocket) (s : Sys W Callback) : Prop :=
  reconnectTimer (svc s) = Some t ∧ timers (env s) = [(t, due)] ∧
  isConnecting (svc s) = false ∧ ws (svc s) = None ∧
  userId (svc s) = Some u ∧ token (svc s) = Some tok ∧
  sockets (env s) = socks.

(** The socket field, when set, names a constructed socket that has not
    closed. *)
Definition holds_live_socket {W Callback : Type} (s : Sys W Callback) : Prop :=
  ∀ k, ws (svc s) = Some k →
       ∃ sock, sockets (env s) !! k = Some sock ∧ readyState sock ≠ CLOSED.

(** Calls of [on] and [off] made from outside the service. *)
Definition is_registry_call {Callback : Type} (e : Event (Callback := Callback)) : bool :=
  match e with
  | CallOn _ _ | CallOff _ _ => true
  | _ => false
  end.

(** The event names the constructor registers. *)
Definition event_names : list string :=
  ["notification"; "unread_count"; "notifications_list"; "connect"; "disconnect"; "error"].

(** The unread count agrees with the list. *)
Definition consistent (p : Provider) : Prop :=
  unreadCount p = unread_in (notifications p).

(** Two notifications that differ at most in [is_read]. *)
Definition same_but_read (n n' : NotificationData) : Prop :=
  with_is_read n = with_is_read n'.

(** A list of listeners without the first registration of [callback]:
    what [indexOf] and [splice] make of it in [off]. *)
Definition remove_first {Callback : Type} `{!EqDecision Callback}
    (callback : Callback) (hs : list Callback) : list Callback :=
  match indexOf callback hs with
  | Some index => delete index hs
  | None => hs
  end.

(** The handler an effect run registers under an event name. *)
Definition handler_for (name : string) : option HandlerName :=
  if decide (name = "connect") then Some HandleConnect
  else if decide (name = "disconnect") then Some HandleDisconnect
  else if decide (name = "notification") then Some HandleNotification
  else if decide (name = "unread_count") then Some HandleUnreadCount
  else if decide (name = "notifications_list") then Some HandleNotificationsList
  else if decide (name = "error") then Some HandleError
  else None.

(** No listener is registered under any name. *)
Definition deaf {W Callback : Type} (s : Sys W Callback) : Prop :=
  ∀ name hs, listeners (svc s) !! name = Some hs → hs = [].

(** ** Properties of the dispatcher *)

Section DispatcherFacts.
Context {W Callback : Type} `{!EqDecision Callback}.
Variable call : Callback -> Payload -> W -> Outcome W.

Local Abbreviation System := (Sys W Callback).

Lemma write_console_svc l (s : System) : svc (write_console l s) = svc s.
Proof. reflexivity. Qed.

Lemma write_console_world l (s : System) : world (write_console l s) = world s.
Proof. reflexivity. Qed.

Lemma write_console_calls l (s : System) : calls (write_console l s) = calls s.
Proof. reflexivity. Qed.

Lemma write_console_sockets l (s : System) :
  sockets (env (write_console l s)) = sockets (env s).
Proof. reflexivity. Qed.

Lemma write_console_timers l (s : System) :
  timers (env (write_console l s)) = timers (env s).
Proof. reflexivity. Qed.

Lemma write_console_now l (s : System) : now (env (write_console l s)) = now (env s).
Proof. reflexivity. Qed.

Lemma write_console_next_timer l (s : System) :
  next_timer (env (write_console l s)) = next_timer (env s).
Proof. reflexivity. Qed.

(** Calling a listener touches only the listeners' state, the console and
    the record of calls. *)
Lemma invoke_frame data (s : System) cb :
  svc (invoke call data s cb) = svc s ∧
  sockets (env (invoke call data s cb)) = sockets (env s) ∧
  timers (env (invoke call data s cb)) = timers (env s) ∧
  next_timer (env (invoke call data s cb)) = next_timer (env s) ∧
  now (env (invoke call data s cb)) = now (env s).
Proof.
  unfold invoke. destruct (call cb data _); repeat split.
Qed.

Lemma invoke_calls data (s : System) cb :
  calls (invoke call data s cb) = calls s ++ [(cb, data)].
Proof. unfold invoke. destruct (call cb data _); reflexivity. Qed.

Lemma invoke_world data (s : System) cb :
  world (invoke call data s cb) = outcome_world (call cb data (world s)).
Proof.
  unfold invoke. change (world (record_call cb data s)) with (world s).
  destruct (call cb data (world s)); reflexivity.
Qed.

Lemma foldl_invoke_frame data hs : forall s : System,
  svc (foldl (invoke call data) s hs) = svc s ∧
  sockets (env (foldl (invoke call data) s hs)) = sockets (env s) ∧
  timers (env (foldl (invoke call data) s hs)) = timers (env s) ∧
  next_timer (env (foldl (invoke call data) s hs)) = next_timer (env s) ∧
  now (env (foldl (invoke call data) s hs)) = now (env s).
Proof.
  induction hs as [|h hs IH]; intros s; simpl; [repeat split|].
  destruct (IH (invoke call data s h)) as (H1 & H2 & H3 & H4 & H5).
  destruct (invoke_frame data s h) as (F1 & F2 & F3 & F4 & F5).
  rewrite H1, H2, H3, H4, H5. repeat split; assumption.
Qed.

Lemma foldl_invoke_calls data hs : forall s : System,
  calls (foldl (invoke call data) s hs) = calls s ++ map (fun h => (h, data)) hs.
Proof.
  induction hs as [|h hs IH]; intros s; simpl.
  - symmetry. apply app_nil_r.
  - rewrite IH, invoke_calls, <- app_assoc. reflexivity.
Qed.

Lemma foldl_invoke_world data hs : forall s : System,
  world (foldl (invoke call data) s hs) =
  foldl (fun w h => outcome_world (call h data w)) (world s) hs.
Proof.
  induction hs as [|h hs IH]; intros s; simpl; [reflexivity|].
  rewrite IH, invoke_world. reflexivity.
Qed.

(** [emit] leaves the service (registry included), the sockets, the timers
    and the clock as they are. *)
Lemma emit_frame event data (s : System) :
  svc (emit call event data s) = svc s ∧
  sockets (env (emit call event data s)) = sockets (env s) ∧
  timers (env (emit call event data s)) = timers (env s) ∧
  next_timer (env (emit call event data s)) = next_timer (env s) ∧
  now (env (emit call event data s)) = now (env s).
Proof.
  unfold emit. destruct (listeners (svc s) !! event) as [hs|].
  - apply foldl_invoke_frame.
  - repeat split.
Qed.

Lemma emit_svc event data (s : System) : svc (emit call event data s) = svc s.
Proof. apply emit_frame. Qed.

Lemma emit_sockets event data (s : System) :
  sockets (env (emit call event data s)) = sockets (env s).
Proof. apply emit_frame. Qed.

Lemma emit_timers event data (s : System) :
  timers (env (emit call event data s)) = timers (env s).
Proof. apply emit_frame. Qed.

Lemma emit_next_timer event data (s : System) :
  next_timer (env (emit call event data s)) = next_timer (env s).
Proof. apply emit_frame. Qed.

Lemma emit_now event data (s : System) :
  now (env (emit call event data s)) = now (env s).
Proof. apply emit_frame. Qed.

Lemma emit_listeners_Some event data (s : System) hs :
  listeners (svc s) !! event = Some hs ->
  calls (emit call event data s) = calls s ++ map (fun h => (h, data)) hs ∧
  world (emit call event data s) =
    foldl (fun w h => outcome_world (call h data w)) (world s) hs.
Proof.
  intros H. unfold emit. rewrite H. split.
  - apply foldl_invoke_calls.
  - apply foldl_invoke_world.
Qed.

Lemma foldl_invoke_console data hs : forall s : System,
  console (env (foldl (invoke call data) s hs)) =
  console (env s) ++ caught call data (world s) hs.
Proof.
  induction hs as [|h hs IH]; intros s; simpl.
  - symmetry. apply app_nil_r.
  - rewrite IH, invoke_world. unfold invoke.
    change (world (record_call h data s)) with (world s).
    destruct (call h data (world s)); simpl; [reflexivity|].
    rewrite <- app_assoc. reflexivity.
Qed.

Lemma on_listeners event cb (s : System) :
  listeners (svc (on event cb s)) !! event =
  Some (default [] (listeners (svc s) !! event) ++ [cb]).
Proof.
  unfold on. simpl. destruct (listeners (svc s) !! event) as [hs|] eqn:E.
  - rewrite lookup_alter_eq, E. reflexivity.
  - rewrite lookup_alter_eq, lookup_insert_eq. reflexivity.
Qed.

(** C8: [emit] calls every listener registered for the name, in the order
    of registration ([on] appends), each with the payload; a listener that
    throws is caught and logged, and the remaining ones are still called;
    the service and its registry are the same afterwards; with no listener
    for the name (none registered, or an empty list) [emit] changes
    nothing. *)
Theorem C8_emit_isolates_listeners event data (s : System) :
  (forall cb, listeners (svc (on event cb s)) !! event =
              Some (default [] (listeners (svc s) !! event) ++ [cb])) ∧
  (forall hs, listeners (svc s) !! event = Some hs ->
     calls (emit call event data s) = calls s ++ map (fun h => (h, data)) hs ∧
     world (emit call event data s) =
       foldl (fun w h => outcome_world (call h data w)) (world s) hs ∧
     console (env (emit call event data s)) =
       console (env s) ++ caught call data (world s) hs) ∧
  svc (emit call event data s) = svc s ∧
  (listeners (svc s) !! event = None ∨ listeners (svc s) !! event = Some [] ->
   emit call event data s = s).
Proof.
  split; [|split; [|split]].
  - intros cb. apply on_listeners.
  - intros hs H. destruct (emit_listeners_Some event data s hs H) as [Hc Hw].
    split; [exact Hc|]. split; [exact Hw|].
    unfold emit. rewrite H. apply foldl_invoke_console.
  - apply emit_svc.
  - intros [H|H]; unfold emit; rewrite H; reflexivity.
Qed.

End DispatcherFacts.

(** Listener isolation on two listeners of [notification], the first of
    which throws: both are called, in order, and the error is logged. *)
Lemma C8_witness :
  let s := on "notification" 1%nat (on "notification" 0%nat (initialSys 0%nat)) in
  let data := PNotification (sample 9 false) in
  calls (emit flaky "notification" data s) = [(0%nat, data); (1%nat, data)] ∧
  world (emit flaky "notification" data s) = 1%nat ∧
  console (env (emit flaky "notification" data s)) =
    [ConsoleError "Error in WebSocket event callback:"].
Proof.
  intros s data.
  destruct (C8_emit_isolates_listeners flaky "notification" data s) as (_ & H & _).
  apply (H [0%nat; 1%nat]). vm_compute. reflexivity.
Defined.


(** ** Properties of the transport channel *)

Section ServiceFacts.
Context {W Callback : Type} `{!EqDecision Callback}.
Variable call : Callback -> Payload -> W -> Outcome W.
Variable valid_url : WsUrl -> bool.

Local Abbreviation System := (Sys W Callback).

(** *** What each operation leaves alone *)

Lemma send_svc m (s : System) : svc (send m s) = svc s.
Proof.
  unfold send. destruct (ws (svc s)) as [k|]; [|reflexivity].
  destruct (sockets (env s) !! k) as [sock|]; [|reflexivity].
  destruct (is_open (readyState sock)); reflexivity.
Qed.

Lemma send_timers m (s : System) : timers (env (send m s)) = timers (env s).
Proof.
  unfold send. destruct (ws (svc s)) as [k|]; [|reflexivity].
  destruct (sockets (env s) !! k) as [sock|]; [|reflexivity].
  destruct (is_open (readyState sock)); reflexivity.
Qed.

Lemma send_now m (s : System) : now (env (send m s)) = now (env s).
Proof.
  unfold send. destruct (ws (svc s)) as [k|]; [|reflexivity].
  destruct (sockets (env s) !! k) as [sock|]; [|reflexivity].
  destruct (is_open (readyState sock)); reflexivity.
Qed.

Lemma send_sockets_length m (s : System) :
  length (sockets (env (send m s))) = length (sockets (env s)).
Proof.
  unfold send. destruct (ws (svc s)) as [k|]; [|reflexivity].
  destruct (sockets (env s) !! k) as [sock|]; [|reflexivity].
  destruct (is_open (readyState sock)); [|reflexivity].
  simpl. apply length_insert.
Qed.

Lemma on_frame event cb (s : System) :
  env (on event cb s) = env s ∧
  reconnectTimer (svc (on event cb s)) = reconnectTimer (svc s) ∧
  userId (svc (on event cb s)) = userId (svc s) ∧
  token (svc (on event cb s)) = token (svc s).
Proof. repeat split. Qed.

Lemma off_frame event cb (s : System) :
  env (off event cb s) = env s ∧
  reconnectTimer (svc (off event cb s)) = reconnectTimer (svc s) ∧
  userId (svc (off event cb s)) = userId (svc s) ∧
  token (svc (off event cb s)) = token (svc s).
Proof.
  unfold off. destruct (listeners (svc s) !! event) as [hs|]; [|repeat split].
  destruct (indexOf cb hs); repeat split.
Qed.

Lemma clearReconnectTimer_frame (s : System) :
  userId (svc (clearReconnectTimer s)) = userId (svc s) ∧
  token (svc (clearReconnectTimer s)) = token (svc s) ∧
  ws (svc (clearReconnectTimer s)) = ws (svc s) ∧
  isConnecting (svc (clearReconnectTimer s)) = isConnecting (svc s) ∧
  listeners (svc (clearReconnectTimer s)) = listeners (svc s) ∧
  sockets (env (clearReconnectTimer s)) = sockets (env s) ∧
  now (env (clearReconnectTimer s)) = now (env s) ∧
  next_timer (env (clearReconnectTimer s)) = next_timer (env s) ∧
  reconnectTimer (svc (clearReconnectTimer s)) = None.
Proof.
  unfold clearReconnectTimer. destruct (reconnectTimer (svc s)) eqn:E; repeat split.
  exact E.
Qed.

(** With the pending timeouts tracked, clearing leaves none pending. *)
Lemma clearReconnectTimer_timers (s : System) :
  timers_tracked s -> timers (env (clearReconnectTimer s)) = [].
Proof.
  intros [H|(t & due & H & Ht)]; unfold clearReconnectTimer.
  - destruct (reconnectTimer (svc s)); simpl; rewrite H; reflexivity.
  - rewrite Ht. simpl. rewrite H. simpl.
    rewrite filter_cons_False; [reflexivity|]. intros Hne. apply Hne. reflexivity.
Qed.

Lemma scheduleReconnect_frame (s : System) :
  userId (svc (scheduleReconnect s)) = userId (svc s) ∧
  token (svc (scheduleReconnect s)) = token (svc s) ∧
  ws (svc (scheduleReconnect s)) = ws (svc s) ∧
  isConnecting (svc (scheduleReconnect s)) = isConnecting (svc s) ∧
  listeners (svc (scheduleReconnect s)) = listeners (svc s) ∧
  sockets (env (scheduleReconnect s)) = sockets (env s) ∧
  now (env (scheduleReconnect s)) = now (env s) ∧
  reconnectTimer (svc (scheduleReconnect s)) = Some (next_timer (env s)).
Proof.
  destruct (clearReconnectTimer_frame s) as (H1 & H2 & H3 & H4 & H5 & H6 & H7 & H8 & _).
  unfold scheduleReconnect, setTimeout. simpl.
  rewrite H1, H2, H3, H4, H5, H6, H7, H8. repeat split.
Qed.

(** Scheduling arms exactly one timeout, due 3000 ms from now. *)
Lemma scheduleReconnect_timers (s : System) :
  timers_tracked s ->
  timers (env (scheduleReconnect s)) = [(next_timer (env s), now (env s) + 3000)].
Proof.
  intros H. destruct (clearReconnectTimer_frame s) as (_ & _ & _ & _ & _ & _ & H7 & H8 & _).
  unfold scheduleReconnect, setTimeout. simpl.
  rewrite (clearReconnectTimer_timers s H), H7, H8. reflexivity.
Qed.

Lemma tracked_frame (s s' : System) :
  timers (env s') = timers (env s) ->
  reconnectTimer (svc s') = reconnectTimer (svc s) ->
  timers_tracked s -> timers_tracked s'.
Proof. unfold timers_tracked. intros -> ->. tauto. Qed.

Lemma connect_frame u t (s : System) :
  timers (env (connect call valid_url u t s)) = timers (env s) ∧
  reconnectTimer (svc (connect call valid_url u t s)) = reconnectTimer (svc s) ∧
  now (env (connect call valid_url u t s)) = now (env s) ∧
  next_timer (env (connect call valid_url u t s)) = next_timer (env s).
Proof.
  unfold connect. destruct (isConnecting (svc s) || ws_is_open s); [repeat split|].
  destruct (valid_url _); [repeat split|].
  rewrite !emit_svc, !emit_timers, !emit_now, !emit_next_timer. repeat split.
Qed.

(** [connect] either returns at its guard or stores the identity it is
    given. *)
Lemma connect_identity u t (s : System) :
  (userId (svc (connect call valid_url u t s)) = userId (svc s) ∧
   token (svc (connect call valid_url u t s)) = token (svc s)) ∨
  (userId (svc (connect call valid_url u t s)) = Some u ∧
   token (svc (connect call valid_url u t s)) = Some t).
Proof.
  unfold connect. destruct (isConnecting (svc s) || ws_is_open s); [left; repeat split|].
  right. destruct (valid_url _); [repeat split|].
  rewrite !emit_svc. repeat split.
Qed.

Lemma reconnect_callback_frame (s : System) :
  timers (env (reconnect_callback call valid_url s)) = timers (env s) ∧
  reconnectTimer (svc (reconnect_callback call valid_url s)) = reconnectTimer (svc s) ∧
  userId (svc (reconnect_callback call valid_url s)) = userId (svc s) ∧
  token (svc (reconnect_callback call valid_url s)) = token (svc s).
Proof.
  unfold reconnect_callback.
  destruct (truthy_number (userId (svc s)) && truthy_string (token (svc s)));
    [|repeat split].
  destruct (userId (svc s)) as [u|] eqn:Eu; [|repeat split; exact Eu].
  destruct (token (svc s)) as [t|] eqn:Et; [|repeat split; assumption].
  set (s1 := write_console _ s).
  destruct (connect_frame u t s1) as (H1 & H2 & _).
  rewrite H1, H2. split; [reflexivity|]. split; [reflexivity|].
  destruct (connect_identity u t s1) as [[-> ->]|[-> ->]]; split; try reflexivity;
    assumption.
Qed.

Lemma onopen_frame (s : System) :
  userId (svc (onopen call s)) = userId (svc s) ∧
  token (svc (onopen call s)) = token (svc s) ∧
  ws (svc (onopen call s)) = ws (svc s) ∧
  isConnecting (svc (onopen call s)) = false ∧
  reconnectTimer (svc (onopen call s)) = None ∧
  now (env (onopen call s)) = now (env s).
Proof.
  unfold onopen. rewrite !send_svc, !send_now, !emit_svc, !emit_now.
  set (s2 := with_svc _ _).
  destruct (clearReconnectTimer_frame s2) as (H1 & H2 & H3 & H4 & _ & _ & H7 & _ & H9).
  rewrite H1, H2, H3, H4, H7, H9. repeat split.
Qed.

Lemma onopen_timers (s : System) :
  timers_tracked s -> timers (env (onopen call s)) = [].
Proof.
  intros H. unfold onopen. rewrite send_timers, emit_timers.
  apply clearReconnectTimer_timers. revert H. apply tracked_frame; reflexivity.
Qed.

Lemma onmessage_frame frame (s : System) :
  svc (onmessage call frame s) = svc s ∧
  timers (env (onmessage call frame s)) = timers (env s) ∧
  sockets (env (onmessage call frame s)) = sockets (env s) ∧
  now (env (onmessage call frame s)) = now (env s).
Proof.
  unfold onmessage. destruct frame; [repeat split|].
  rewrite emit_svc, emit_timers, emit_sockets, emit_now. repeat split.
Qed.

Lemma onerror_frame (s : System) :
  userId (svc (onerror call s)) = userId (svc s) ∧
  token (svc (onerror call s)) = token (svc s) ∧
  ws (svc (onerror call s)) = ws (svc s) ∧
  reconnectTimer (svc (onerror call s)) = reconnectTimer (svc s) ∧
  isConnecting (svc (onerror call s)) = false ∧
  timers (env (onerror call s)) = timers (env s) ∧
  sockets (env (onerror call s)) = sockets (env s) ∧
  now (env (onerror call s)) = now (env s).
Proof.
  unfold onerror. rewrite emit_svc, emit_timers, emit_sockets, emit_now. repeat split.
Qed.

Lemma onclose_unfold code reason (s : System) :
  onclose call code reason s =
  let s3 := emit call "disconnect" (PClose code reason)
              (with_svc (fun c => set_ws None (set_isConnecting false c))
                 (write_console (ConsoleLog "WebSocket disconnected:") s)) in
  if will_reconnect code s then scheduleReconnect s3 else s3.
Proof.
  unfold onclose, will_reconnect. rewrite !emit_svc. reflexivity.
Qed.

Lemma onclose_frame code reason (s : System) :
  userId (svc (onclose call code reason s)) = userId (svc s) ∧
  token (svc (onclose call code reason s)) = token (svc s) ∧
  ws (svc (onclose call code reason s)) = None ∧
  isConnecting (svc (onclose call code reason s)) = false ∧
  sockets (env (onclose call code reason s)) = sockets (env s) ∧
  now (env (onclose call code reason s)) = now (env s).
Proof.
  rewrite onclose_unfold. cbv zeta. set (s3 := emit _ _ _ _).
  assert (Hs : svc s3 = set_ws None (set_isConnecting false (svc s)))
    by (unfold s3; rewrite emit_svc; reflexivity).
  assert (Hk : sockets (env s3) = sockets (env s))
    by (unfold s3; rewrite emit_sockets; reflexivity).
  assert (Hn : now (env s3) = now (env s))
    by (unfold s3; rewrite emit_now; reflexivity).
  destruct (will_reconnect code s).
  - destruct (scheduleReconnect_frame s3) as (H1 & H2 & H3 & H4 & _ & H6 & H7 & _).
    rewrite H1, H2, H3, H4, H6, H7, Hs, Hk, Hn. repeat split.
  - rewrite Hs, Hk, Hn. repeat split.
Qed.

Lemma onclose_reconnects code reason (s : System) :
  timers_tracked s -> will_reconnect code s = true ->
  timers (env (onclose call code reason s)) =
    [(next_timer (env s), now (env s) + 3000)] ∧
  reconnectTimer (svc (onclose call code reason s)) = Some (next_timer (env s)).
Proof.
  intros Ht Hw. rewrite onclose_unfold, Hw. cbv zeta. set (s3 := emit _ _ _ _).
  assert (H3 : timers_tracked s3).
  { revert Ht. apply tracked_frame; unfold s3.
    - rewrite emit_timers. reflexivity.
    - rewrite emit_svc. reflexivity. }
  rewrite (scheduleReconnect_timers s3 H3).
  destruct (scheduleReconnect_frame s3) as (_ & _ & _ & _ & _ & _ & _ & H8).
  rewrite H8. unfold s3. rewrite emit_next_timer, emit_now. split; reflexivity.
Qed.

Lemma onclose_quiet code reason (s : System) :
  will_reconnect code s = false ->
  timers (env (onclose call code reason s)) = timers (env s) ∧
  reconnectTimer (svc (onclose call code reason s)) = reconnectTimer (svc s) ∧
  next_timer (env (onclose call code reason s)) = next_timer (env s).
Proof.
  intros Hw. rewrite onclose_unfold, Hw. cbv zeta.
  rewrite emit_timers, emit_svc, emit_next_timer. repeat split.
Qed.

Lemma onclose_tracked code reason (s : System) :
  timers_tracked s -> timers_tracked (onclose call code reason s).
Proof.
  intros Ht. destruct (will_reconnect code s) eqn:Hw.
  - destruct (onclose_reconnects code reason s Ht Hw) as [H1 H2].
    right. eexists _, _. split; [exact H1|exact H2].
  - destruct (onclose_quiet code reason s Hw) as (H1 & H2 & _).
    revert Ht. apply tracked_frame; assumption.
Qed.

Lemma disconnect_frame (s : System) :
  userId (svc (disconnect s)) = None ∧
  token (svc (disconnect s)) = None ∧
  ws (svc (disconnect s)) = None ∧
  reconnectTimer (svc (disconnect s)) = None ∧
  isConnecting (svc (disconnect s)) = isConnecting (svc s) ∧
  listeners (svc (disconnect s)) = listeners (svc s) ∧
  length (sockets (env (disconnect s))) = length (sockets (env s)) ∧
  now (env (disconnect s)) = now (env s) ∧
  timers (env (disconnect s)) = timers (env (clearReconnectTimer s)).
Proof.
  destruct (clearReconnectTimer_frame s) as (_ & _ & H3 & H4 & H5 & H6 & H7 & _ & H9).
  unfold disconnect. cbv zeta.
  change (ws (svc (with_svc (fun c => set_token None (set_userId None c))
                     (clearReconnectTimer s))))
    with (ws (svc (clearReconnectTimer s))).
  rewrite H3. destruct (ws (svc s)) as [k|] eqn:Ek; simpl;
    rewrite ?length_alter, ?H3, ?H4, ?H5, ?H6, ?H7, ?H9; repeat split; assumption.
Qed.

Lemma disconnect_timers (s : System) :
  timers_tracked s -> timers (env (disconnect s)) = [].
Proof.
  intros H. destruct (disconnect_frame s) as (_ & _ & _ & _ & _ & _ & _ & _ & ->).
  apply clearReconnectTimer_timers, H.
Qed.

Lemma set_socket_state_tracked k r (s : System) :
  timers_tracked s -> timers_tracked (set_socket_state k r s).
Proof. apply tracked_frame; reflexivity. Qed.

Lemma clearTimeout_found t (s : System) e :
  timers_tracked s -> list_find (fun e => e.1 = t) (timers (env s)) = Some e ->
  timers (env (clearTimeout t s)) = [].
Proof.
  intros [H|(t0 & due & H & Hr)] Hf; rewrite H in Hf; simpl in Hf; [discriminate|].
  unfold clearTimeout. simpl. rewrite H.
  destruct (decide (t0 = t)) as [->|Hne].
  - rewrite filter_cons_False; [reflexivity|]. intros Hx. apply Hx. reflexivity.
  - exfalso. unfold list_find in Hf. simpl in Hf.
    destruct (decide (t0 = t)); [contradiction|discriminate].
Qed.

(** Every turn of the event loop keeps the pending timeouts tracked. *)
Lemma step_tracked e (s : System) :
  timers_tracked s -> timers_tracked (step call valid_url e s).
Proof.
  intros Ht. destruct e as [u t| |m|ev cb|ev cb|k|k f|k|k code reason|t|ms]; simpl.
  - destruct (connect_frame u t s) as (H1 & H2 & _).
    revert Ht. apply tracked_frame; assumption.
  - left. apply disconnect_timers, Ht.
  - revert Ht. apply tracked_frame; [apply send_timers|rewrite send_svc; reflexivity].
  - revert Ht. apply tracked_frame; reflexivity.
  - destruct (off_frame ev cb s) as (H1 & H2 & _).
    revert Ht. apply tracked_frame; [rewrite H1; reflexivity|exact H2].
  - destruct (sockets (env s) !! k) as [sock|]; [|exact Ht].
    destruct (readyState sock); try exact Ht.
    left. apply onopen_timers, set_socket_state_tracked, Ht.
  - destruct (sockets (env s) !! k) as [sock|]; [|exact Ht].
    destruct (onmessage_frame f s) as (H1 & H2 & _).
    destruct (readyState sock); try exact Ht;
      (revert Ht; apply tracked_frame; [exact H2|rewrite H1; reflexivity]).
  - destruct (sockets (env s) !! k) as [sock|]; [|exact Ht].
    destruct (onerror_frame s) as (_ & _ & _ & H4 & _ & H6 & _).
    revert Ht. apply tracked_frame; assumption.
  - destruct (sockets (env s) !! k) as [sock|]; [|exact Ht].
    destruct (is_closed (readyState sock)); [exact Ht|].
    apply onclose_tracked, set_socket_state_tracked, Ht.
  - destruct (list_find _ _) as [[i [t0 due]]|] eqn:Hf; [|exact Ht].
    destruct (due <=? now (env s)); [|exact Ht].
    left. destruct (reconnect_callback_frame (clearTimeout t s)) as (-> & _).
    exact (clearTimeout_found t s _ Ht Hf).
  - revert Ht. apply tracked_frame; reflexivity.
Qed.

Lemma run_app es1 es2 (s : System) :
  run call valid_url (es1 ++ es2) s = run call valid_url es2 (run call valid_url es1 s).
Proof. unfold run. apply foldl_app. Qed.

Lemma run_tracked es : forall s : System,
  timers_tracked s -> timers_tracked (run call valid_url es s).
Proof.
  induction es as [|e es IH]; intros s Ht; [exact Ht|].
  apply (IH (step call valid_url e s)), step_tracked, Ht.
Qed.

Lemma initialSys_tracked (w : W) : timers_tracked (initialSys (Callback := Callback) w).
Proof. left. reflexivity. Qed.

Lemma tracked_at_most_one (s : System) :
  timers_tracked s -> (length (timers (env s)) <= 1)%nat.
Proof. intros [->|(t & due & -> & _)]; simpl; lia. Qed.

Lemma truthy_number_Some v : truthy_number v = true -> ∃ u, v = Some u ∧ u ≠ 0.
Proof.
  destruct v as [u|]; simpl; [|discriminate]. intros H. exists u. split; [reflexivity|].
  intros ->. discriminate H.
Qed.

Lemma truthy_string_Some v :
  truthy_string v = true -> ∃ t, v = Some t ∧ t ≠ EmptyString.
Proof.
  destruct v as [t|]; simpl; [|discriminate]. intros H. exists t. split; [reflexivity|].
  intros ->. discriminate H.
Qed.

(** A pending timeout does not run before it is due; once due it runs the
    reconnect closure and is no longer pending. *)
Lemma timer_fires t due (s : System) :
  timers (env s) = [(t, due)] ->
  step call valid_url (TimerFires t) s =
  if due <=? now (env s) then reconnect_callback call valid_url (clearTimeout t s)
  else s.
Proof.
  intros H. simpl. rewrite H. unfold list_find. simpl.
  rewrite decide_True by reflexivity. reflexivity.
Qed.

Lemma reconnect_callback_truthy u tok (s : System) :
  userId (svc s) = Some u -> token (svc s) = Some tok -> u ≠ 0 -> tok ≠ EmptyString ->
  reconnect_callback call valid_url s =
  connect call valid_url u tok
    (write_console (ConsoleLog "Attempting to reconnect WebSocket...") s).
Proof.
  intros Hu Ht Hu0 Ht0. unfold reconnect_callback. rewrite Hu, Ht. simpl.
  destruct (Z.eqb_spec u 0) as [E|_]; [contradiction|].
  destruct (String.eqb_spec tok EmptyString) as [E|_]; [contradiction|]. reflexivity.
Qed.

(** Where the code does what C3 says: in every state the system can reach,
    when a socket closes with a code other than 1000 while the stored
    principal id and credential both pass the truthiness test of [onclose]
    (a non-zero id, a non-empty credential), the
    service holds exactly one pending timeout afterwards, due 3000 ms after
    the close whatever happened before (no growth of the delay); it does not
    run before that time; once due it runs [connect] with the stored
    identity, which is still stored afterwards, so that an attempt that
    closes abnormally is followed by another in the same way; and in every
    reachable state at most one timeout is pending. *)
Theorem truthy_identity_close_schedules_one_reconnect
    (es : list Event) (w : W) (k : nat) (sock : WebSocket) (code : Z) (reason : string) :
  let s := run call valid_url es (initialSys w) in
  sockets (env s) !! k = Some sock -> readyState sock ≠ CLOSED ->
  code ≠ 1000 ->
  truthy_number (userId (svc s)) = true -> truthy_string (token (svc s)) = true ->
  let s' := step call valid_url (SocketClose k code reason) s in
  (∃ t u tok,
     userId (svc s') = Some u ∧ token (svc s') = Some tok ∧
     reconnectTimer (svc s') = Some t ∧
     timers (env s') = [(t, now (env s) + 3000)] ∧
     (forall ms, ms < 3000 ->
        step call valid_url (TimerFires t) (step call valid_url (Elapse ms) s') =
        step call valid_url (Elapse ms) s') ∧
     (forall ms, 3000 <= ms ->
        let sd := step call valid_url (Elapse ms) s' in
        let sa := step call valid_url (TimerFires t) sd in
        sa = connect call valid_url u tok
               (write_console (ConsoleLog "Attempting to reconnect WebSocket...")
                  (clearTimeout t sd)) ∧
        timers (env sa) = [] ∧
        userId (svc sa) = Some u ∧ token (svc sa) = Some tok)) ∧
  (forall es', (length (timers (env (run call valid_url es' (initialSys w)))) <= 1)%nat).
Proof.
  intros s Hk Hr Hc Hu Ht s'.
  assert (Htr : timers_tracked s) by apply run_tracked, initialSys_tracked.
  split; [|intros es'; apply tracked_at_most_one, run_tracked, initialSys_tracked].
  set (s1 := set_socket_state k CLOSED s).
  assert (Hs' : s' = onclose call code reason s1).
  { unfold s'. simpl. fold s. rewrite Hk.
    destruct (readyState sock); try reflexivity. contradiction. }
  assert (Hw : will_reconnect code s1 = true).
  { unfold will_reconnect. change (svc s1) with (svc s). rewrite Hu, Ht.
    destruct (Z.eqb_spec code 1000); [contradiction|reflexivity]. }
  destruct (onclose_reconnects code reason s1 (set_socket_state_tracked _ _ _ Htr) Hw)
    as [Htm Hrt].
  destruct (onclose_frame code reason s1) as (Hid & Htk & _).
  destruct (truthy_number_Some _ Hu) as (u & Eu & Hu0).
  destruct (truthy_string_Some _ Ht) as (tok & Et & Ht0).
  rewrite <- Hs' in Htm, Hrt, Hid, Htk.
  change (svc s1) with (svc s) in Hid, Htk. rewrite Eu in Hid. rewrite Et in Htk.
  change (now (env s1)) with (now (env s)) in Htm.
  change (next_timer (env s1)) with (next_timer (env s)) in Htm, Hrt.
  exists (next_timer (env s)), u, tok.
  split; [exact Hid|]. split; [exact Htk|]. split; [exact Hrt|]. split; [exact Htm|].
  assert (Hnow : now (env s') = now (env s)).
  { rewrite Hs'. destruct (onclose_frame code reason s1) as (_ & _ & _ & _ & _ & ->).
    reflexivity. }
  split.
  - intros ms Hms. rewrite (timer_fires _ (now (env s) + 3000)) by exact Htm.
    change (now (env (step call valid_url (Elapse ms) s')))
      with (now (env s') + Z.max 0 ms).
    rewrite Hnow. destruct (Z.leb_spec (now (env s) + 3000) (now (env s) + Z.max 0 ms));
      [lia|reflexivity].
  - intros ms Hms sd sa.
    assert (Hsa : sa = reconnect_callback call valid_url (clearTimeout (next_timer (env s)) sd)).
    { unfold sa. rewrite (timer_fires _ (now (env s) + 3000)) by exact Htm.
      change (now (env sd)) with (now (env s') + Z.max 0 ms). rewrite Hnow.
      destruct (Z.leb_spec (now (env s) + 3000) (now (env s) + Z.max 0 ms));
        [reflexivity|lia]. }
    split.
    + rewrite Hsa. apply reconnect_callback_truthy; assumption.
    + destruct (reconnect_callback_frame (clearTimeout (next_timer (env s)) sd))
        as (H1 & _ & H3 & H4).
      rewrite Hsa, H1, H3, H4. split; [|split; assumption].
      change (timers (env (clearTimeout (next_timer (env s)) sd)))
        with (filter (fun e : positive * Z => e.1 ≠ next_timer (env s)) (timers (env s'))).
      rewrite Htm. rewrite filter_cons_False; [reflexivity|].
      intros Hx. apply Hx. reflexivity.
Qed.

(** *** After a manual disconnect *)

Lemma onopen_sockets_length (s : System) :
  length (sockets (env (onopen call s))) = length (sockets (env s)).
Proof.
  unfold onopen. rewrite send_sockets_length, emit_sockets.
  set (s2 := with_svc _ _).
  destruct (clearReconnectTimer_frame s2) as (_ & _ & _ & _ & _ & -> & _).
  reflexivity.
Qed.


Lemma quiet_will_not_reconnect code (s : System) :
  userId (svc s) = None -> will_reconnect code s = false.
Proof.
  intros H. unfold will_reconnect. rewrite H. simpl.
  rewrite andb_false_r. reflexivity.
Qed.




(** *** The stored identity *)



(** [connect] past its guard, when the constructor throws. *)
Lemma connect_throws u tok (s : System) :
  isConnecting (svc s) = false -> ws_is_open s = false ->
  valid_url {| url_user := u; url_token := tok |} = false ->
  connect call valid_url u tok s =
  emit call "error" (PError "SyntaxError")
    (with_svc (fun c =>
       set_isConnecting false (set_token (Some tok) (set_userId (Some u) c)))
       (write_console (ConsoleError "Error creating WebSocket connection:") s)).
Proof.
  intros Hc Ho Hv. unfold connect. rewrite Hc, Ho, Hv. reflexivity.
Qed.


(** *** Connecting and the request sent on open *)

(** The guard of [connect]: with a connect in flight or the held socket
    open, the call only writes a console line. *)
Lemma connect_guard_noop u tok (s : System) :
  isConnecting (svc s) = true ∨ ws_is_open s = true ->
  connect call valid_url u tok s =
  write_console (ConsoleLog "WebSocket already connected or connecting") s.
Proof.
  intros H. unfold connect.
  replace (isConnecting (svc s) || ws_is_open s) with true; [reflexivity|].
  destruct H as [-> | ->]; [reflexivity|]. symmetry. apply orb_true_r.
Qed.

(** Past the guard and with an accepted target, [connect] constructs one
    socket, holds it, and sets the connecting flag: a second call right
    after it returns at the guard. *)
Lemma connect_constructs u tok (s : System) :
  isConnecting (svc s) = false -> ws_is_open s = false ->
  valid_url {| url_user := u; url_token := tok |} = true ->
  let s' := connect call valid_url u tok s in
  sockets (env s') =
    sockets (env s) ++
      [{| url := {| url_user := u; url_token := tok |};
          readyState := CONNECTING; outbox := [] |}] ∧
  ws (svc s') = Some (length (sockets (env s))) ∧
  isConnecting (svc s') = true ∧
  forall u' tok', connect call valid_url u' tok' s' =
    write_console (ConsoleLog "WebSocket already connected or connecting") s'.
Proof.
  intros Hc Ho Hv s'.
  assert (E : s' =
    with_svc (set_ws (Some (length (sockets (env s)))))
      (with_env (fun b =>
         set_sockets (sockets b ++
           [{| url := {| url_user := u; url_token := tok |};
               readyState := CONNECTING; outbox := [] |}]) b)
         (with_svc (fun c =>
            set_isConnecting true (set_token (Some tok) (set_userId (Some u) c))) s))).
  { unfold s', connect. rewrite Hc, Ho, Hv. reflexivity. }
  rewrite E. split; [reflexivity|]. split; [reflexivity|]. split; [reflexivity|].
  intros u' tok'. apply connect_guard_noop. left. reflexivity.
Qed.

(** When the socket that opens is the one the service holds, [onopen]
    hands exactly one [get_notifications] to it, after clearing the timer
    and emitting [connect]; a call of [connect] that follows returns at the
    guard. *)
Lemma onopen_sends_once k sock (s : System) :
  ws (svc s) = Some k -> sockets (env s) !! k = Some sock ->
  readyState sock = OPEN -> timers_tracked s ->
  let s' := onopen call s in
  sockets (env s') = <[k := push_outbox get_notifications sock]> (sockets (env s)) ∧
  timers (env s') = [] ∧ reconnectTimer (svc s') = None ∧
  calls s' = calls s ++
    map (fun h => (h, PNull)) (default [] (listeners (svc s) !! "connect")) ∧
  forall u tok, connect call valid_url u tok s' =
    write_console (ConsoleLog "WebSocket already connected or connecting") s'.
Proof.
  intros Hw Hk Hr Htr s'.
  set (s3 := clearReconnectTimer
               (with_svc (set_isConnecting false)
                  (write_console (ConsoleLog "WebSocket connected") s))).
  set (s4 := emit call "connect" PNull s3).
  assert (Hs' : s' = send get_notifications s4) by reflexivity.
  destruct (clearReconnectTimer_frame
              (with_svc (set_isConnecting false)
                 (write_console (ConsoleLog "WebSocket connected") s)))
    as (_ & _ & H3 & _ & H5 & H6 & _).
  fold s3 in H3, H5, H6. simpl in H3, H5, H6.
  assert (Hws4 : ws (svc s4) = Some k) by (unfold s4; rewrite emit_svc, H3; exact Hw).
  assert (Hk4 : sockets (env s4) = sockets (env s))
    by (unfold s4; rewrite emit_sockets; exact H6).
  assert (Hsock : sockets (env s') =
            <[k := push_outbox get_notifications sock]> (sockets (env s))).
  { rewrite Hs'. unfold send. rewrite Hws4, Hk4, Hk, Hr. simpl. rewrite Hk4. reflexivity. }
  split; [exact Hsock|].
  split; [apply onopen_timers, Htr|].
  destruct (onopen_frame s) as (_ & _ & Hws & _ & Hrt & _).
  split; [exact Hrt|]. split.
  - rewrite Hs'. unfold send. rewrite Hws4, Hk4, Hk, Hr. simpl.
    assert (Hc3 : calls s3 = calls s).
    { unfold s3, clearReconnectTimer. simpl.
      destruct (reconnectTimer (svc s)); reflexivity. }
    unfold s4, emit. rewrite H5.
    destruct (listeners (svc s) !! "connect") as [hs|]; simpl.
    + rewrite foldl_invoke_calls, Hc3. reflexivity.
    + rewrite app_nil_r. exact Hc3.
  - intros u tok. apply connect_guard_noop. right.
    fold s' in Hws. unfold ws_is_open. rewrite Hws, Hw, Hsock.
    rewrite list_lookup_insert_eq by (apply lookup_lt_Some in Hk; exact Hk).
    simpl. rewrite Hr. reflexivity.
Qed.

End ServiceFacts.







(** ** Properties of the store *)

Lemma setNotifications_unreadCount f p :
  unreadCount (setNotifications f p) = unreadCount p.
Proof. reflexivity. Qed.

Lemma apply_ops_app os1 os2 p :
  apply_ops (os1 ++ os2) p = apply_ops os2 (apply_ops os1 p).
Proof. unfold apply_ops. apply foldl_app. Qed.

Lemma apply_ops_cons o os p :
  apply_ops (o :: os) p = apply_ops os (apply_op o p).
Proof. reflexivity. Qed.

Lemma handleNotification_notifications data p :
  notifications (handleNotification data p) = data :: notifications p.
Proof. unfold handleNotification. simpl. destruct (granted p); reflexivity. Qed.

Lemma handleNotification_unreadCount data p :
  unreadCount (handleNotification data p) = unreadCount p + 1.
Proof. unfold handleNotification. simpl. destruct (granted p); reflexivity. Qed.

(** A closure called by [emit] performs its store operation, and [emit]
    performs those of the registered closures in turn. *)
Lemma run_handler_op c data p :
  run_handler c data p = Returned (apply_ops (op_of c data) p).
Proof.
  destruct c as [g h]. unfold run_handler, op_of. simpl.
  destruct h, data; reflexivity.
Qed.

Lemma emit_world_ops event data (s : Sys Provider Closure) hs :
  listeners (svc s) !! event = Some hs ->
  world (emit run_handler event data s) =
  apply_ops (flat_map (fun c => op_of c data) hs) (world s).
Proof.
  intros H. destruct (emit_listeners_Some run_handler event data s hs H) as [_ ->].
  generalize (world s). clear H. induction hs as [|c hs IH]; intros p; [reflexivity|].
  simpl. rewrite IH, run_handler_op, apply_ops_app. reflexivity.
Qed.

Lemma markAsRead_update_unreadCount i p :
  unreadCount (markAsRead_update i p) = Z.max 0 (unreadCount p - 1).
Proof. reflexivity. Qed.

Lemma markAsRead_update_notifications i p :
  notifications (markAsRead_update i p) =
  map (fun notif => if id notif =? i then with_is_read notif else notif)
      (notifications p).
Proof. reflexivity. Qed.

Lemma with_is_read_fixed n : is_read n = true -> with_is_read n = n.
Proof. destruct n as [i t m sd pid cid rid rd ca]. simpl. intros ->. reflexivity. Qed.

(** Marking an id leaves the list alone when every entry with that id is
    already read, in particular when there is none. *)
Lemma mark_map_unchanged i (l : list NotificationData) :
  (forall n, n ∈ l -> id n = i -> is_read n = true) ->
  map (fun notif => if id notif =? i then with_is_read notif else notif) l = l.
Proof.
  induction l as [|x l IH]; intros H; simpl; [reflexivity|].
  rewrite IH by (intros n Hn; apply H; right; exact Hn).
  destruct (Z.eqb_spec (id x) i) as [E|E]; [|reflexivity].
  rewrite with_is_read_fixed; [reflexivity|].
  apply H; [left|exact E].
Qed.

(** C6: every [notifications_list] event replaces the list by the payload and
    leaves the unread count (and the rest of the store) as it was, both in
    the handler and when the frame arrives on the socket of a provider whose
    handler is the registered listener; the five-item store with three
    unread that receives a two-item snapshot ends with those two items and
    an unread count of 3. *)
Theorem C6_notifications_list_replaces_list :
  (forall data p,
     notifications (handleNotificationsList data p) = data ∧
     unreadCount (handleNotificationsList data p) = unreadCount p ∧
     isConnected (handleNotificationsList data p) = isConnected p ∧
     shown (handleNotificationsList data p) = shown p) ∧
  (forall g data (s : Sys Provider Closure),
     listeners (svc s) !! "notifications_list" = Some [(g, HandleNotificationsList)] ->
     let s' := onmessage run_handler
                 (Json "notifications_list" (PNotificationsList data)) s in
     notifications (world s') = data ∧ unreadCount (world s') = unreadCount (world s)) ∧
  (let p' := handleNotificationsList [sample 9 false; sample 8 true] five_three_unread in
   length (notifications five_three_unread) = 5%nat ∧
   unread_in (notifications five_three_unread) = 3 ∧
   notifications p' = [sample 9 false; sample 8 true] ∧
   unreadCount p' = 3 ∧
   unread_in (notifications p') = 1).
Proof.
  split; [|split].
  - intros data p. repeat split.
  - intros g data s H. unfold onmessage.
    destruct (emit_listeners_Some run_handler "notifications_list"
                (PNotificationsList data)
                (write_console (ConsoleLog "WebSocket message received:") s)
                [(g, HandleNotificationsList)] H) as [_ Hw].
    rewrite Hw. simpl. split; reflexivity.
  - repeat split.
Qed.

Lemma C6_witness :
  let s := registerListeners 1 (initialSys five_three_unread) in
  let s' := onmessage run_handler
              (Json "notifications_list" (PNotificationsList [sample 9 false])) s in
  notifications (world s') = [sample 9 false] ∧ unreadCount (world s') = 3.
Proof.
  destruct C6_notifications_list_replaces_list as (_ & H & _).
  apply (H 1%nat [sample 9 false] (registerListeners 1 (initialSys five_three_unread))).
  vm_compute. reflexivity.
Defined.

Lemma markAsRead_begin_world {Callback : Type} i (s : Sys Provider Callback) :
  world (markAsRead_begin i s) = world s.
Proof.
  unfold markAsRead_begin, markNotificationAsRead, send.
  destruct (ws (svc s)) as [k|]; [|reflexivity].
  destruct (sockets (env s) !! k) as [sock|]; [|reflexivity].
  destruct (is_open (readyState sock)); reflexivity.
Qed.

Lemma markAllAsRead_begin_world {Callback : Type} (s : Sys Provider Callback) :
  world (markAllAsRead_begin s) = world s.
Proof.
  unfold markAllAsRead_begin, markAllNotificationsAsRead, send.
  destruct (ws (svc s)) as [k|]; [|reflexivity].
  destruct (sockets (env s) !! k) as [sock|]; [|reflexivity].
  destruct (is_open (readyState sock)); reflexivity.
Qed.

Lemma markAsRead_world {Callback : Type} i f (s : Sys Provider Callback) :
  world (markAsRead i f s) = apply_op (OpMarkAsRead i (api_markAsRead f)) (world s).
Proof.
  unfold markAsRead, markAsRead_settle.
  destruct (api_markAsRead f); simpl; rewrite markAsRead_begin_world; reflexivity.
Qed.

Lemma markAllAsRead_world {Callback : Type} f (s : Sys Provider Callback) :
  world (markAllAsRead f s) = apply_op (OpMarkAllAsRead (api_markAllAsRead f)) (world s).
Proof.
  unfold markAllAsRead, markAllAsRead_settle.
  destruct (api_markAllAsRead f); simpl; rewrite markAllAsRead_begin_world; reflexivity.
Qed.

(** C9: when the REST call of [markAsRead(id)] succeeds the unread count
    becomes [max 0 (count - 1)] whatever the list holds; the list is left as
    it is when no entry has that id, and also when the entries with that id
    are already read; so the count can part from the number of unread
    entries: marking the absent id 77 in the five-item store with three
    unread leaves three unread entries and a count of 2. *)
Theorem C9_markAsRead_decrements_without_match {Callback : Type}
    (i : Z) (f : Fetch unit) (s : Sys Provider Callback) :
  (forall v, api_markAsRead f = Resolved v ->
     unreadCount (world (markAsRead i f s)) = Z.max 0 (unreadCount (world s) - 1) ∧
     ((forall n, n ∈ notifications (world s) -> id n ≠ i) ->
      notifications (world (markAsRead i f s)) = notifications (world s)) ∧
     ((forall n, n ∈ notifications (world s) -> id n = i -> is_read n = true) ->
      notifications (world (markAsRead i f s)) = notifications (world s))) ∧
  (let s1 := markAsRead 77 (FetchResponse true "OK" ())
               (initialSys (Callback := Callback) five_three_unread) in
   unread_in (notifications five_three_unread) = unreadCount five_three_unread ∧
   notifications (world s1) = notifications five_three_unread ∧
   unreadCount (world s1) = 2 ∧
   unread_in (notifications (world s1)) = 3).
Proof.
  split.
  - intros v Hv. rewrite markAsRead_world, Hv. simpl.
    split; [reflexivity|]. split; intros H; apply mark_map_unchanged.
    + intros n Hn E. exfalso. exact (H n Hn E).
    + exact H.
  - repeat split.
Qed.

Lemma C9_witness :
  let s := initialSys (Callback := Closure) five_three_unread in
  unreadCount (world (markAsRead 4 (FetchResponse true "OK" ()) s)) = 2 ∧
  notifications (world (markAsRead 4 (FetchResponse true "OK" ()) s)) =
    notifications five_three_unread.
Proof.
  intros s.
  destruct (C9_markAsRead_decrements_without_match 4 (FetchResponse true "OK" ()) s)
    as [H _].
  destruct (H () eq_refl) as (Hc & _ & Hl).
  split; [exact Hc|]. apply Hl.
  intros n Hn E. vm_compute in Hn.
  repeat (apply elem_of_cons in Hn; destruct Hn as [->|Hn]; [first [reflexivity | discriminate E]|]).
  apply elem_of_nil in Hn. destruct Hn.
Defined.

(** One store operation keeps the unread count non-negative when the count
    it brings from the server, if any, is non-negative. *)
Lemma apply_op_nonneg o p :
  0 <= unreadCount p -> reports_nonneg o -> 0 <= unreadCount (apply_op o p).
Proof.
  intros Hp Ho. destruct o as [| | |d|c|l|i r|r|r|r|]; simpl in *; try exact Hp.
  - rewrite handleNotification_unreadCount. lia.
  - exact Ho.
  - destruct r; simpl; [lia|exact Hp].
  - destruct r; simpl; [lia|exact Hp].
  - destruct r; simpl; exact Hp.
  - destruct r; simpl; [exact Ho|exact Hp].
  - lia.
Qed.

(** The claim C5 as stated fails: an [unread_count] event that carries -1
    makes the unread count of a fresh store negative. *)
Lemma C5_counterexample :
  ¬ (0 <= unreadCount (apply_ops [OpUnreadCount (-1)] (initialProvider false))).
Proof. vm_compute. intros H. apply H. reflexivity. Qed.

(** C5 (amended): the decrement of [markAsRead] is clamped at zero, and for
    any sequence of store operations in which every count reported by the
    server (an [unread_count] event, the count of a refresh) is
    non-negative, a non-negative unread count stays non-negative; it is 0
    in a fresh store. *)
Theorem C5_unread_count_nonneg (os : list StoreOp) (p : Provider) :
  (forall i q, unreadCount (markAsRead_update i q) = Z.max 0 (unreadCount q - 1) ∧
               0 <= unreadCount (markAsRead_update i q)) ∧
  (forall perm, unreadCount (initialProvider perm) = 0) ∧
  (0 <= unreadCount p -> Forall reports_nonneg os ->
   0 <= unreadCount (apply_ops os p)).
Proof.
  split; [|split].
  - intros i q. split; [reflexivity|]. rewrite markAsRead_update_unreadCount. lia.
  - reflexivity.
  - revert p. induction os as [|o os IH]; intros p Hp Hos; [exact Hp|].
    rewrite apply_ops_cons. apply IH.
    + apply apply_op_nonneg; [exact Hp|]. exact (Forall_inv Hos).
    + exact (Forall_inv_tail Hos).
Qed.

Lemma C5_witness :
  0 <= unreadCount
         (apply_ops [OpUnreadCount 1; OpMarkAsRead 5 (Resolved ());
                     OpMarkAsRead 6 (Resolved ()); OpNotification (sample 9 false);
                     OpMarkAllAsRead (Resolved ()); OpMarkAsRead 9 (Resolved ())]
            (initialProvider false)).
Proof.
  apply C5_unread_count_nonneg.
  - simpl. lia.
  - repeat constructor; simpl; lia.
Defined.

(** *** Read flags *)

Lemma has_unread_nil i : ¬ has_unread i [].
Proof. intros (n & Hn & _). apply elem_of_nil in Hn. exact Hn. Qed.

Lemma has_unread_cons i d l :
  has_unread i (d :: l) <-> (id d = i ∧ is_read d = false) ∨ has_unread i l.
Proof.
  split.
  - intros (n & Hn & Hi & Hr). apply elem_of_cons in Hn. destruct Hn as [->|Hn].
    + left. split; assumption.
    + right. exists n. repeat split; assumption.
  - intros [[Hi Hr]|(n & Hn & Hi & Hr)].
    + exists d. repeat split; [left|assumption|assumption].
    + exists n. repeat split; [right; exact Hn|assumption|assumption].
Qed.

Lemma has_unread_mark i j l :
  has_unread i (map (fun notif => if id notif =? j then with_is_read notif else notif) l) ->
  has_unread i l.
Proof.
  intros (m & Hm & Hi & Hr). apply list_elem_of_fmap in Hm.
  destruct Hm as (n & -> & Hn).
  destruct (id n =? j); [discriminate Hr|].
  exists n. repeat split; assumption.
Qed.

Lemma has_unread_mark_all i l : ¬ has_unread i (map with_is_read l).
Proof.
  intros (m & Hm & Hi & Hr). apply list_elem_of_fmap in Hm.
  destruct Hm as (n & -> & Hn). discriminate Hr.
Qed.

(** An id gains an unread entry only from the payload of the operation. *)
Lemma apply_op_unread i o p :
  has_unread i (notifications (apply_op o p)) ->
  has_unread i (notifications p) ∨ delivers_unread i o.
Proof.
  destruct o as [| | |d|c|l|j r|r|r|r|]; simpl; intros H; try (left; exact H).
  - rewrite handleNotification_notifications in H.
    apply has_unread_cons in H. destruct H as [H|H]; [right|left]; exact H.
  - right. exact H.
  - destruct r; simpl in H; left; [|exact H]. exact (has_unread_mark i j _ H).
  - destruct r; simpl in H; [|left; exact H]. destruct (has_unread_mark_all i _ H).
  - destruct r; simpl in H; [right|left]; exact H.
  - destruct r; simpl in H; left; exact H.
  - destruct (has_unread_nil i H).
Qed.

(** The claim C2 as stated fails: a read notification is shown unread again
    after a [notifications_list] snapshot that reports it unread. *)
Lemma C2_counterexample :
  let p := handleNotificationsList [sample 1 true] (initialProvider false) in
  let p' := apply_op (OpNotificationsList [sample 1 false]) p in
  sample 1 true ∈ notifications p ∧ is_read (sample 1 true) = true ∧
  has_unread (id (sample 1 true)) (notifications p').
Proof.
  simpl. split; [left|]. split; [reflexivity|].
  exists (sample 1 false). split; [left|]. split; reflexivity.
Qed.

(** C2 (amended): an id gets an unread entry in the store's list only from a
    payload that carries one.  [unread_count] and connection events,
    [markAsRead], [markAllAsRead] and the reset never do it; a pushed
    notification, a [notifications_list] snapshot and the list of a refresh
    do it exactly when the payload holds an unread entry with that id.  So
    along any sequence of operations none of whose payloads reports the id
    unread, an id without unread entry (such as the id of a read
    notification, ids being unique) stays without one. *)
Theorem C2_read_reverts_only_by_payload (i : Z) :
  (forall n l, n ∈ l -> id n = i -> is_read n = true -> NoDup (map id l) ->
               ¬ has_unread i l) ∧
  (forall o p, has_unread i (notifications (apply_op o p)) ->
               has_unread i (notifications p) ∨ delivers_unread i o) ∧
  (forall os p, ¬ has_unread i (notifications p) ->
                Forall (fun o => ¬ delivers_unread i o) os ->
                ¬ has_unread i (notifications (apply_ops os p))).
Proof.
  split; [|split].
  - intros n l. induction l as [|x l IH]; intros Hn Hi Hr Hd.
    + apply elem_of_nil in Hn. destruct Hn.
    + simpl in Hd. apply NoDup_cons in Hd. destruct Hd as [Hx Hd].
      intros Hu. apply has_unread_cons in Hu.
      apply elem_of_cons in Hn. destruct Hn as [->|Hn].
      * destruct Hu as [[_ Hf]|(m & Hm & Hmi & _)]; [congruence|].
        apply Hx. rewrite Hi, <- Hmi. apply list_elem_of_fmap. exists m. split; [reflexivity|exact Hm].
      * destruct Hu as [[Hxi _]|Hu]; [|exact (IH Hn Hi Hr Hd Hu)].
        apply Hx. rewrite Hxi, <- Hi. apply list_elem_of_fmap. exists n. split; [reflexivity|exact Hn].
  - intros o p. apply apply_op_unread.
  - intros os. induction os as [|o os IH]; intros p Hp Hos; [exact Hp|].
    rewrite apply_ops_cons. apply IH; [|exact (Forall_inv_tail Hos)].
    intros H. apply apply_op_unread in H. destruct H as [H|H]; [exact (Hp H)|].
    exact (Forall_inv Hos H).
Qed.

Lemma C2_witness :
  ¬ has_unread 4
      (notifications
         (apply_ops [OpUnreadCount 7; OpMarkAsRead 5 (Resolved ());
                     OpNotification (sample 9 false); OpDisconnect;
                     OpNotificationsList [sample 4 true; sample 9 false]]
            five_three_unread)).
Proof.
  destruct (C2_read_reverts_only_by_payload 4) as (Hread & _ & Hseq).
  apply Hseq.
  - apply (Hread (sample 4 true)).
    + right; left.
    + reflexivity.
    + reflexivity.
    + apply (bool_decide_unpack _). vm_compute. exact I.
  - repeat constructor; simpl.
    + tauto.
    + tauto.
    + intros [E _]. discriminate E.
    + tauto.
    + intros H. apply has_unread_cons in H. destruct H as [[_ E]|H]; [discriminate E|].
      apply has_unread_cons in H. destruct H as [[E _]|H]; [discriminate E|].
      exact (has_unread_nil 4 H).
Defined.

(** *** Mutations and the REST outcome *)

Lemma with_is_read_map_read (l : list NotificationData) n :
  n ∈ map with_is_read l -> is_read n = true.
Proof.
  intros H. apply list_elem_of_fmap in H. destruct H as (m & -> & _). reflexivity.
Qed.

Lemma mark_map_read i (l : list NotificationData) n :
  n ∈ map (fun notif => if id notif =? i then with_is_read notif else notif) l ->
  id n = i -> is_read n = true.
Proof.
  intros H E. apply list_elem_of_fmap in H. destruct H as (m & -> & _).
  destruct (Z.eqb_spec (id m) i) as [Hm|Hm]; [reflexivity|]. contradiction.
Qed.

(** The claim C1 as stated fails: with one unread notification and an unread
    count of 1, the store is as before right after [markAsRead(1)] has been
    initiated, and still as before when its REST call has failed; likewise
    for [markAllAsRead()] when the server answers with an error status. *)
Lemma C1_counterexample :
  let s := initialSys (Callback := Closure) one_unread in
  notifications (world (markAsRead_begin 1 s)) = [sample 1 false] ∧
  unreadCount (world (markAsRead_begin 1 s)) = 1 ∧
  notifications (world (markAsRead 1 (FetchFailed "NetworkError") s)) = [sample 1 false] ∧
  unreadCount (world (markAsRead 1 (FetchFailed "NetworkError") s)) = 1 ∧
  is_read (sample 1 false) = false ∧
  world (markAllAsRead (FetchResponse false "Internal Server Error" ()) s) = one_unread.
Proof. vm_compute. repeat split. Qed.

(** C1 (amended): [markAsRead(id)] and [markAllAsRead()] change nothing in the
    store when they are initiated; the update ([is_read = true] on every
    entry with the id and the count decremented with floor 0, respectively
    every entry read and the count 0) is applied once the REST call has
    succeeded, whether the transport send went out or was dropped; when the
    REST call fails the error is logged and the store is left as it was:
    there is nothing to roll back. *)
Theorem C1_update_follows_rest_success {Callback : Type}
    (i : Z) (f : Fetch unit) (s : Sys Provider Callback) :
  world (markAsRead_begin i s) = world s ∧
  world (markAllAsRead_begin s) = world s ∧
  (forall v, api_markAsRead f = Resolved v ->
     world (markAsRead i f s) = markAsRead_update i (world s) ∧
     (forall n, n ∈ notifications (world (markAsRead i f s)) -> id n = i ->
                is_read n = true) ∧
     unreadCount (world (markAsRead i f s)) = Z.max 0 (unreadCount (world s) - 1)) ∧
  (forall e, api_markAsRead f = Rejected e ->
     world (markAsRead i f s) = world s ∧
     markAsRead i f s =
       write_console (ConsoleError "Error marking notification as read:")
         (markAsRead_begin i s)) ∧
  (forall v, api_markAllAsRead f = Resolved v ->
     world (markAllAsRead f s) = markAllAsRead_update (world s) ∧
     (forall n, n ∈ notifications (world (markAllAsRead f s)) -> is_read n = true) ∧
     unreadCount (world (markAllAsRead f s)) = 0) ∧
  (forall e, api_markAllAsRead f = Rejected e ->
     world (markAllAsRead f s) = world s ∧
     markAllAsRead f s =
       write_console (ConsoleError "Error marking all notifications as read:")
         (markAllAsRead_begin s)).
Proof.
  split; [apply markAsRead_begin_world|].
  split; [apply markAllAsRead_begin_world|].
  split; [|split; [|split]].
  - intros v Hv. rewrite markAsRead_world, Hv. simpl.
    split; [reflexivity|]. split; [|reflexivity].
    intros n. apply mark_map_read.
  - intros e He. rewrite markAsRead_world, He. simpl. split; [reflexivity|].
    unfold markAsRead. rewrite He. reflexivity.
  - intros v Hv. rewrite markAllAsRead_world, Hv. simpl.
    split; [reflexivity|]. split; [|reflexivity].
    intros n. apply with_is_read_map_read.
  - intros e He. rewrite markAllAsRead_world, He. simpl. split; [reflexivity|].
    unfold markAllAsRead. rewrite He. reflexivity.
Qed.

(** With no socket at all the transport send is dropped, and the update is
    applied all the same once the REST call succeeds. *)
Lemma C1_witness :
  let s := initialSys (Callback := Closure) one_unread in
  ws_is_open s = false ∧
  world (markAsRead 1 (FetchResponse true "OK" ()) s) = markAsRead_update 1 one_unread ∧
  unreadCount (world (markAsRead 1 (FetchResponse true "OK" ()) s)) = 0.
Proof.
  intros s. split; [reflexivity|].
  destruct (C1_update_follows_rest_success 1 (FetchResponse true "OK" ()) s)
    as (_ & _ & H & _).
  destruct (H () eq_refl) as (Hw & _ & Hc). split; [exact Hw|exact Hc].
Defined.

(** ** The transport channel in the provider's browser *)

(** C3: the reconnect that is missing for the principal id 0.  Principal
    0 connects with a credential and the socket opens: the id and the
    credential are stored.  The socket closes with code 1006, and no
    timeout is armed: [this.userId && this.token] takes the stored id 0
    for no id.  Whatever time passes and whichever timeout is tried, no
    socket is constructed: the session is never reconnected.  The same
    session of principal 42 is reconnected (see
    [truthy_identity_close_scenario]). *)
Theorem C3_zero_id_close_schedules_no_reconnect :
  let s := app_run [CallConnect 0 "tok"; SocketOpen 0] freshApp in
  let s' := app_step (SocketClose 0 1006 "") s in
  userId (svc s) = Some 0 ∧ token (svc s) = Some "tok" ∧
  (readyState <$> sockets (env s) !! 0%nat) = Some OPEN ∧
  (readyState <$> sockets (env s') !! 0%nat) = Some CLOSED ∧
  userId (svc s') = Some 0 ∧ token (svc s') = Some "tok" ∧
  timers (env s') = [] ∧ reconnectTimer (svc s') = None ∧
  (forall ms t, length (sockets (env (app_run [Elapse ms; TimerFires t] s'))) = 1%nat).
Proof.
  intros s s'.
  do 8 (split; [vm_compute; reflexivity|]).
  intros ms t. vm_compute. reflexivity.
Qed.

(** Scenario D: principal 42 is connected, 500 ms pass and the socket closes
    with code 1006; one timeout is pending, due at 3500. *)
Lemma truthy_identity_close_scenario :
  let s := app_run [CallConnect 42 "tok"; SocketOpen 0; Elapse 500] freshApp in
  let s' := app_step (SocketClose 0 1006 "") s in
  ∃ t, reconnectTimer (svc s') = Some t ∧ timers (env s') = [(t, 3500)].
Proof.
  intros s s'.
  destruct (truthy_identity_close_schedules_one_reconnect run_handler browser_valid_url
              [CallConnect 42 "tok"; SocketOpen 0; Elapse 500] (initialProvider false)
              0%nat
              {| url := {| url_user := 42; url_token := "tok" |};
                 readyState := OPEN; outbox := [get_notifications] |}
              1006 "")
    as [(t & u & tok & _ & _ & Hr & Ht & _) _].
  - vm_compute. reflexivity.
  - simpl. discriminate.
  - lia.
  - vm_compute. reflexivity.
  - vm_compute. reflexivity.
  - exists t. split; [exact Hr|exact Ht].
Defined.


(** After a new [connect], the close event of the socket that was
    disconnected acts on the new session, as in C7.  Principal 42 connects
    and disconnects, principal 43 connects and that socket opens; then the
    close event of the first socket arrives with code 1006.  Its handler
    sets the socket field to null and arms a timeout under the identity of
    principal 43, and three seconds later a third socket is constructed
    beside the second, which is open. *)
Lemma stale_close_rearms_reconnect :
  let s := app_run [CallConnect 42 "tok"; SocketOpen 0; CallDisconnect;
                    CallConnect 43 "tok2"; SocketOpen 1; SocketClose 0 1006 ""]
             freshApp in
  let s' := app_run [Elapse 3000; TimerFires 1%positive] s in
  timers (env s) = [(1%positive, 3000)] ∧ ws (svc s) = None ∧
  (readyState <$> sockets (env s') !! 1%nat) = Some OPEN ∧
  (readyState <$> sockets (env s') !! 2%nat) = Some CONNECTING ∧
  (url_user ∘ url <$> sockets (env s') !! 2%nat) = Some 43 ∧
  ws (svc s') = Some 2%nat.
Proof. vm_compute. repeat split. Qed.



(** C7: the guard of [connect] and the request on open, evaluated on a
    session that is disconnected and connected again before the close event
    of the first socket arrives.  Principal 42 connects and the socket
    opens: one [get_notifications] goes out.  Then [disconnect()] and
    [connect(42, "tok")] are called in a row; the close event of the first
    socket (code 1000) is delivered next, and its handler sets the socket
    field to null although the field holds the second socket by then.  When
    the second socket opens, [onopen] finds no socket and the request is
    dropped with a warning: nothing is sent on that open.  The service then
    reports itself unconnected while the second socket is open, and one more
    [connect] constructs a third socket. *)
Theorem C7_stale_close_drops_get_notifications :
  let s2 := app_run [CallConnect 42 "tok"; SocketOpen 0] freshApp in
  let s4 := app_run [CallDisconnect; CallConnect 42 "tok"] s2 in
  let s5 := app_step (SocketClose 0 1000 "Manual disconnect") s4 in
  let s6 := app_step (SocketOpen 1) s5 in
  let s7 := app_step (CallConnect 42 "tok") s6 in
  (outbox <$> sockets (env s2) !! 0%nat) = Some [get_notifications] ∧
  ws (svc s4) = Some 1%nat ∧
  (readyState <$> sockets (env s4) !! 1%nat) = Some CONNECTING ∧
  ws (svc s5) = None ∧
  (readyState <$> sockets (env s6) !! 1%nat) = Some OPEN ∧
  (outbox <$> sockets (env s6) !! 1%nat) = Some [] ∧
  last (console (env s6)) =
    Some (ConsoleWarn "WebSocket not connected, cannot send message:") ∧
  isConnected (world s6) = false ∧
  service_isConnected s6 = false ∧
  length (sockets (env s7)) = 3%nat ∧ ws (svc s7) = Some 2%nat.
Proof. vm_compute. repeat split. Qed.

(** The same interleaving as the provider produces it when the user object
    changes while a socket is open: React runs the cleanup of the effect and
    then its body, that is [disconnect()] and [connect()] in a row.  The
    store ends up marked connected, with nothing requested on the socket
    that opened and no socket held by the service. *)
Lemma rerun_effect_loses_socket :
  let s2 := app_step (SocketOpen 0)
              (effect_body browser_valid_url 1 (Some 42) (Some "tok") freshApp) in
  let s4 := effect_body browser_valid_url 2 (Some 42) (Some "tok")
              (effect_cleanup 1 s2) in
  let s6 := app_run [SocketClose 0 1000 "Manual disconnect"; SocketOpen 1] s4 in
  (outbox <$> sockets (env s2) !! 0%nat) = Some [get_notifications] ∧
  (readyState <$> sockets (env s6) !! 1%nat) = Some OPEN ∧
  (outbox <$> sockets (env s6) !! 1%nat) = Some [] ∧
  ws (svc s6) = None ∧
  isConnected (world s6) = true ∧
  service_isConnected s6 = false.
Proof. vm_compute. repeat split. Qed.

(** ** More on the dispatcher: registering and removing listeners *)

Section RegistryFacts.
Context {W Callback : Type} `{!EqDecision Callback}.
Variable call : Callback -> Payload -> W -> Outcome W.
Variable valid_url : WsUrl -> bool.

Local Abbreviation System := (Sys W Callback).

Lemma indexOf_absent (cb : Callback) hs : cb ∉ hs -> indexOf cb hs = None.
Proof.
  induction hs as [|x hs IH]; intros H; simpl; [reflexivity|].
  apply not_elem_of_cons in H. destruct H as [Hx Hh].
  destruct (decide (x = cb)) as [E|_]; [congruence|]. rewrite (IH Hh). reflexivity.
Qed.

Lemma indexOf_first (cb : Callback) pre post :
  cb ∉ pre -> indexOf cb (pre ++ cb :: post) = Some (length pre).
Proof.
  induction pre as [|x pre IH]; intros H; simpl.
  - rewrite decide_True by reflexivity. reflexivity.
  - apply not_elem_of_cons in H. destruct H as [Hx Hh].
    destruct (decide (x = cb)) as [E|_]; [congruence|]. rewrite (IH Hh). reflexivity.
Qed.

Lemma remove_first_absent (cb : Callback) hs : cb ∉ hs -> remove_first cb hs = hs.
Proof. intros H. unfold remove_first. rewrite (indexOf_absent cb hs H). reflexivity. Qed.

Lemma remove_first_split (cb : Callback) pre post :
  cb ∉ pre -> remove_first cb (pre ++ cb :: post) = pre ++ post.
Proof.
  intros H. unfold remove_first. rewrite (indexOf_first cb pre post H).
  induction pre as [|x pre IH]; simpl; [reflexivity|].
  apply not_elem_of_cons in H. destruct H as [_ Hh]. rewrite (IH Hh). reflexivity.
Qed.

(** The registry after [on] and after [off], name by name. *)
Lemma on_lookup event cb (s : System) name :
  listeners (svc (on event cb s)) !! name =
  if decide (name = event)
  then Some (default [] (listeners (svc s) !! event) ++ [cb])
  else listeners (svc s) !! name.
Proof.
  destruct (decide (name = event)) as [->|Hne]; [apply on_listeners|].
  unfold on. simpl. rewrite lookup_alter_ne by congruence.
  destruct (listeners (svc s) !! event); [reflexivity|].
  rewrite lookup_insert_ne by congruence. reflexivity.
Qed.

Lemma off_lookup event cb (s : System) name :
  listeners (svc (off event cb s)) !! name =
  if decide (name = event)
  then remove_first cb <$> listeners (svc s) !! event
  else listeners (svc s) !! name.
Proof.
  unfold off, remove_first.
  destruct (listeners (svc s) !! event) as [hs|] eqn:E; simpl.
  - destruct (indexOf cb hs) as [i|]; simpl.
    + destruct (decide (name = event)) as [->|Hne].
      * rewrite lookup_insert_eq. reflexivity.
      * rewrite lookup_insert_ne by congruence. reflexivity.
    + destruct (decide (name = event)) as [->|Hne]; [exact E|reflexivity].
  - destruct (decide (name = event)) as [->|Hne]; [exact E|reflexivity].
Qed.

(** X1: [off] takes out the first registration of the callback and nothing
    else: the listeners before it and after it keep their places, later
    registrations of the same callback stay, and the rest of the system is
    untouched. *)
Theorem off_removes_first_registration event cb (s : System) pre post :
  listeners (svc s) !! event = Some (pre ++ cb :: post) -> cb ∉ pre ->
  listeners (svc (off event cb s)) = <[event := pre ++ post]> (listeners (svc s)) ∧
  env (off event cb s) = env s ∧ world (off event cb s) = world s ∧
  calls (off event cb s) = calls s ∧
  ws (svc (off event cb s)) = ws (svc s) ∧
  userId (svc (off event cb s)) = userId (svc s) ∧
  token (svc (off event cb s)) = token (svc s) ∧
  isConnecting (svc (off event cb s)) = isConnecting (svc s) ∧
  reconnectTimer (svc (off event cb s)) = reconnectTimer (svc s).
Proof.
  intros H Hpre. unfold off. rewrite H, (indexOf_first cb pre post Hpre). simpl.
  repeat split. f_equal.
  clear H. induction pre as [|x pre IH]; simpl; [reflexivity|].
  apply not_elem_of_cons in Hpre. destruct Hpre as [_ Hh]. rewrite (IH Hh). reflexivity.
Qed.

(** X2: [off] with an event name that was never registered, or with a
    callback that is not among the listeners of the name, returns the
    system as it is. *)
Theorem off_absent_is_noop event cb (s : System) :
  (listeners (svc s) !! event = None ∨
   ∃ hs, listeners (svc s) !! event = Some hs ∧ cb ∉ hs) ->
  off event cb s = s.
Proof.
  intros [H|(hs & H & Hn)]; unfold off; rewrite H; [reflexivity|].
  rewrite (indexOf_absent cb hs Hn). reflexivity.
Qed.

(** X3: registering a callback that is not yet a listener of the name and
    removing it again gives back the registry, when the name is known. *)
Theorem on_off_round_trip event cb (s : System) hs :
  listeners (svc s) !! event = Some hs -> cb ∉ hs ->
  listeners (svc (off event cb (on event cb s))) = listeners (svc s).
Proof.
  intros H Hn. apply map_eq. intros name.
  rewrite off_lookup, !on_lookup.
  destruct (decide (name = event)) as [->|Hne]; [|reflexivity].
  rewrite decide_True by reflexivity. rewrite H. simpl. f_equal.
  rewrite (remove_first_split cb hs [] Hn). apply app_nil_r.
Qed.

Lemma connect_listeners u t (s : System) :
  listeners (svc (connect call valid_url u t s)) = listeners (svc s).
Proof.
  unfold connect. destruct (isConnecting (svc s) || ws_is_open s); [reflexivity|].
  destruct (valid_url _); [reflexivity|]. rewrite emit_svc. reflexivity.
Qed.

Lemma reconnect_callback_listeners (s : System) :
  listeners (svc (reconnect_callback call valid_url s)) = listeners (svc s).
Proof.
  unfold reconnect_callback.
  destruct (truthy_number (userId (svc s)) && truthy_string (token (svc s)));
    [|reflexivity].
  destruct (userId (svc s)); [|reflexivity]. destruct (token (svc s)); [|reflexivity].
  rewrite connect_listeners. reflexivity.
Qed.

Lemma onopen_listeners (s : System) :
  listeners (svc (onopen call s)) = listeners (svc s).
Proof.
  unfold onopen. rewrite send_svc, emit_svc.
  set (s2 := with_svc _ _).
  destruct (clearReconnectTimer_frame s2) as (_ & _ & _ & _ & -> & _). reflexivity.
Qed.

Lemma onclose_listeners code reason (s : System) :
  listeners (svc (onclose call code reason s)) = listeners (svc s).
Proof.
  rewrite onclose_unfold. cbv zeta. set (s3 := emit _ _ _ _).
  assert (H3 : listeners (svc s3) = listeners (svc s))
    by (unfold s3; rewrite emit_svc; reflexivity).
  destruct (will_reconnect code s); [|exact H3].
  destruct (scheduleReconnect_frame s3) as (_ & _ & _ & _ & -> & _). exact H3.
Qed.

(** Apart from [on] and [off], nothing touches the registry. *)
Lemma step_listeners e (s : System) :
  is_registry_call e = false ->
  listeners (svc (step call valid_url e s)) = listeners (svc s).
Proof.
  intros He.
  destruct e as [u t| |m|ev cb|ev cb|k|k f|k|k code reason|t|ms]; simpl;
    try discriminate He.
  - apply connect_listeners.
  - destruct (disconnect_frame s) as (_ & _ & _ & _ & _ & H & _). exact H.
  - rewrite send_svc. reflexivity.
  - destruct (sockets (env s) !! k) as [sock|]; [|reflexivity].
    destruct (readyState sock); try reflexivity. rewrite onopen_listeners. reflexivity.
  - destruct (sockets (env s) !! k) as [sock|]; [|reflexivity].
    destruct (onmessage_frame call f s) as (H & _).
    destruct (readyState sock); try reflexivity; rewrite H; reflexivity.
  - destruct (sockets (env s) !! k) as [sock|]; [|reflexivity].
    unfold onerror. rewrite emit_svc. reflexivity.
  - destruct (sockets (env s) !! k) as [sock|]; [|reflexivity].
    destruct (is_closed (readyState sock)); [reflexivity|].
    rewrite onclose_listeners. reflexivity.
  - destruct (list_find _ _) as [[i [t0 due]]|]; [|reflexivity].
    destruct (due <=? now (env s)); [|reflexivity].
    rewrite reconnect_callback_listeners. reflexivity.
  - reflexivity.
Qed.

Lemma step_keeps_names e (s : System) name :
  is_Some (listeners (svc s) !! name) ->
  is_Some (listeners (svc (step call valid_url e s)) !! name).
Proof.
  intros H. destruct (is_registry_call e) eqn:He.
  - destruct e; try discriminate He; unfold step.
    + rewrite on_lookup. destruct (decide (name = event)); [eexists; reflexivity|exact H].
    + rewrite off_lookup. destruct (decide (name = event)) as [->|]; [|exact H].
      destruct H as [hs ->]. eexists. reflexivity.
  - rewrite step_listeners by exact He. exact H.
Qed.

(** X4: the registry changes only through [on] and [off]: whatever else
    happens (calls of [connect], [disconnect] and [send], socket events,
    timeouts) leaves every list of listeners as it is; and a name that is
    registered stays registered, so in every reachable state the six names
    of the constructor have a list. *)
Theorem registry_changes_only_by_on_off (es : list Event) :
  (forall s : System, forallb (fun e => negb (is_registry_call e)) es = true ->
     listeners (svc (run call valid_url es s)) = listeners (svc s)) ∧
  (forall (w : W) name, name ∈ event_names ->
     is_Some (listeners (svc (run call valid_url es (initialSys w))) !! name)).
Proof.
  split.
  - induction es as [|e es IH]; intros s H; [reflexivity|].
    simpl in H. apply andb_true_iff in H. destruct H as [He Hes].
    apply negb_true_iff in He. unfold run in *. simpl.
    rewrite (IH _ Hes). apply step_listeners, He.
  - intros w name Hn.
    assert (H0 : is_Some (listeners (svc (initialSys (Callback := Callback) w)) !! name)).
    { unfold event_names in Hn.
      repeat (apply elem_of_cons in Hn; destruct Hn as [->|Hn];
              [eexists; vm_compute; reflexivity|]).
      apply elem_of_nil in Hn. destruct Hn. }
    revert H0. generalize (initialSys (Callback := Callback) w).
    induction es as [|e es IH]; intros s H; [exact H|].
    apply (IH (step call valid_url e s)), step_keeps_names, H.
Qed.

End RegistryFacts.

(** ** More on the transport channel: the sockets over time *)

Section SocketFacts.
Context {W Callback : Type} `{!EqDecision Callback}.
Variable call : Callback -> Payload -> W -> Outcome W.
Variable valid_url : WsUrl -> bool.

Local Abbreviation System := (Sys W Callback).

Lemma disconnect_sockets (s : System) :
  sockets (env (disconnect s)) =
  match ws (svc s) with
  | Some k => alter socket_close k (sockets (env s))
  | None => sockets (env s)
  end.
Proof.
  destruct (clearReconnectTimer_frame s) as (_ & _ & H3 & _ & _ & H6 & _).
  unfold disconnect. cbv zeta.
  change (ws (svc (with_svc (fun c => set_token None (set_userId None c))
                     (clearReconnectTimer s))))
    with (ws (svc (clearReconnectTimer s))).
  rewrite H3. destruct (ws (svc s)); simpl; rewrite H6; reflexivity.
Qed.

Lemma outbox_set_readyState r a : outbox (set_readyState r a) = outbox a.
Proof. reflexivity. Qed.

Lemma outbox_socket_close a : outbox (socket_close a) = outbox a.
Proof. unfold socket_close. destruct (readyState a); reflexivity. Qed.

Lemma outbox_alter (f : WebSocket -> WebSocket) k0 (l : list WebSocket) k :
  (forall a, outbox (f a) = outbox a) ->
  outbox <$> alter f k0 l !! k = outbox <$> l !! k.
Proof.
  intros Hf. destruct (decide (k = k0)) as [->|Hne].
  - rewrite list_lookup_alter_eq. destruct (l !! k0) as [a|]; simpl; [|reflexivity].
    rewrite Hf. reflexivity.
  - rewrite list_lookup_alter_ne by congruence. reflexivity.
Qed.

(** [send] writes on the held socket only. *)
Lemma send_unheld m (s : System) k :
  ws (svc s) ≠ Some k -> sent_on k (send m s) = sent_on k s.
Proof.
  intros Hk. unfold sent_on, send.
  destruct (ws (svc s)) as [j|]; [|reflexivity].
  destruct (sockets (env s) !! j) as [held|]; [|reflexivity].
  destruct (is_open (readyState held)); [|reflexivity].
  simpl. rewrite list_lookup_insert_ne by congruence. reflexivity.
Qed.

(** [connect] holds a socket it has just constructed, or the one it held
    before. *)
Lemma connect_unheld u t (s : System) k :
  (k < length (sockets (env s)))%nat -> ws (svc s) ≠ Some k ->
  (k < length (sockets (env (connect call valid_url u t s))))%nat ∧
  ws (svc (connect call valid_url u t s)) ≠ Some k ∧
  sent_on k (connect call valid_url u t s) = sent_on k s.
Proof.
  intros Hlt Hk. unfold sent_on, connect.
  destruct (isConnecting (svc s) || ws_is_open s); [repeat split; assumption|].
  destruct (valid_url _).
  - simpl. split; [rewrite length_app; lia|]. split.
    + intros [= E]. lia.
    + rewrite lookup_app_l by exact Hlt. reflexivity.
  - rewrite emit_sockets, emit_svc. repeat split; assumption.
Qed.

Lemma onopen_unheld (s : System) k :
  ws (svc s) ≠ Some k ->
  ws (svc (onopen call s)) ≠ Some k ∧ sent_on k (onopen call s) = sent_on k s.
Proof.
  intros Hk. destruct (onopen_frame call s) as (_ & _ & Hw & _).
  split; [rewrite Hw; exact Hk|].
  unfold onopen. set (s2 := with_svc _ _).
  destruct (clearReconnectTimer_frame s2) as (_ & _ & H3 & _ & _ & H6 & _).
  rewrite send_unheld by (rewrite emit_svc, H3; exact Hk).
  unfold sent_on. rewrite emit_sockets, H6. reflexivity.
Qed.

(** One turn of the event loop neither makes the service hold a socket it
    had let go of, nor puts a message on it. *)
Lemma step_unheld e (s : System) k :
  (k < length (sockets (env s)))%nat -> ws (svc s) ≠ Some k ->
  (k < length (sockets (env (step call valid_url e s))))%nat ∧
  ws (svc (step call valid_url e s)) ≠ Some k ∧
  sent_on k (step call valid_url e s) = sent_on k s.
Proof.
  intros Hlt Hk.
  destruct e as [u t| |m|ev cb|ev cb|k0|k0 f|k0|k0 code reason|t|ms]; simpl.
  - apply connect_unheld; assumption.
  - destruct (disconnect_frame s) as (_ & _ & Hw & _ & _ & _ & Hl & _).
    split; [rewrite Hl; exact Hlt|]. split; [rewrite Hw; discriminate|].
    unfold sent_on. rewrite disconnect_sockets.
    destruct (ws (svc s)) as [j|]; [|reflexivity].
    apply outbox_alter, outbox_socket_close.
  - split; [rewrite send_sockets_length; exact Hlt|].
    split; [rewrite send_svc; exact Hk|apply send_unheld, Hk].
  - repeat split; assumption.
  - unfold off. destruct (listeners (svc s) !! ev) as [hs|]; [|repeat split; assumption].
    destruct (indexOf cb hs); repeat split; assumption.
  - destruct (sockets (env s) !! k0) as [sock|]; [|repeat split; assumption].
    destruct (readyState sock); try (repeat split; assumption).
    set (s1 := set_socket_state k0 OPEN s).
    destruct (onopen_unheld s1 k Hk) as [Hw Hs].
    split; [rewrite onopen_sockets_length; unfold s1; simpl; rewrite length_alter; exact Hlt|].
    split; [exact Hw|]. rewrite Hs. unfold sent_on, s1. simpl.
    apply outbox_alter, outbox_set_readyState.
  - destruct (sockets (env s) !! k0) as [sock|]; [|repeat split; assumption].
    destruct (onmessage_frame call f s) as (H1 & _ & H3 & _).
    destruct (readyState sock); try (repeat split; assumption);
      unfold sent_on; rewrite H1, H3; repeat split; assumption.
  - destruct (sockets (env s) !! k0) as [sock|]; [|repeat split; assumption].
    destruct (onerror_frame call s) as (_ & _ & Hw & _ & _ & _ & Hso & _).
    unfold sent_on. rewrite Hw, Hso. repeat split; assumption.
  - destruct (sockets (env s) !! k0) as [sock|]; [|repeat split; assumption].
    destruct (is_closed (readyState sock)); [repeat split; assumption|].
    destruct (onclose_frame call code reason (set_socket_state k0 CLOSED s))
      as (_ & _ & Hw & _ & Hso & _).
    unfold sent_on. rewrite Hw, Hso. simpl.
    split; [rewrite length_alter; exact Hlt|]. split; [discriminate|].
    apply outbox_alter, outbox_set_readyState.
  - destruct (list_find _ _) as [[i [t0 due]]|]; [|repeat split; assumption].
    destruct (due <=? now (env s)); [|repeat split; assumption].
    unfold reconnect_callback.
    destruct (truthy_number _ && truthy_string _); [|repeat split; assumption].
    destruct (userId _) as [u|]; [|repeat split; assumption].
    destruct (token _) as [tok|]; [|repeat split; assumption].
    apply (connect_unheld u tok (write_console _ (clearTimeout t s)) k); assumption.
  - repeat split; assumption.
Qed.

(** X5: the service sends only on the socket it holds.  Once a constructed
    socket is not the one in the socket field (after [disconnect()], after
    a close event has set the field to null, or after a newer [connect]),
    nothing that happens later makes the service hold it again, and no
    further message is put on it: its messages are those it had. *)
Theorem unheld_socket_gets_no_message (es : list Event) (k : nat) (s : System) :
  (k < length (sockets (env s)))%nat -> ws (svc s) ≠ Some k ->
  let s' := run call valid_url es s in
  ws (svc s') ≠ Some k ∧ sent_on k s' = sent_on k s.
Proof.
  cbv zeta. revert s. induction es as [|e es IH]; intros s Hlt Hk; [split; [exact Hk|reflexivity]|].
  destruct (step_unheld e s k Hlt Hk) as (Hlt1 & Hk1 & Hs1).
  destruct (IH (step call valid_url e s) Hlt1 Hk1) as [Hk2 Hs2].
  split; [exact Hk2|]. unfold run in *. simpl. rewrite Hs2. exact Hs1.
Qed.

Lemma live_preserved (s s' : System) :
  ws (svc s') = ws (svc s) ->
  (forall k sock, sockets (env s) !! k = Some sock -> readyState sock ≠ CLOSED ->
     ∃ sock', sockets (env s') !! k = Some sock' ∧ readyState sock' ≠ CLOSED) ->
  holds_live_socket s -> holds_live_socket s'.
Proof.
  intros Hw Hs H k Hk. rewrite Hw in Hk. destruct (H k Hk) as (sock & Hl & Hr).
  exact (Hs k sock Hl Hr).
Qed.

Lemma live_same_sockets (s s' : System) :
  ws (svc s') = ws (svc s) -> sockets (env s') = sockets (env s) ->
  holds_live_socket s -> holds_live_socket s'.
Proof.
  intros Hw Hs. apply live_preserved; [exact Hw|].
  intros k sock Hk Hr. exists sock. rewrite Hs. split; assumption.
Qed.

Lemma live_no_socket (s : System) : ws (svc s) = None -> holds_live_socket s.
Proof. intros H k Hk. congruence. Qed.

Lemma send_live m (s : System) : holds_live_socket s -> holds_live_socket (send m s).
Proof.
  apply live_preserved; [rewrite send_svc; reflexivity|].
  intros k sock Hk Hr. unfold send.
  destruct (ws (svc s)) as [j|]; [|exists sock; split; assumption].
  destruct (sockets (env s) !! j) as [held|] eqn:Hj; [|exists sock; split; assumption].
  destruct (is_open (readyState held)); [|exists sock; split; assumption].
  simpl. destruct (decide (k = j)) as [->|Hne].
  - exists (push_outbox m held).
    rewrite list_lookup_insert_eq by (apply lookup_lt_Some in Hj; exact Hj).
    split; [reflexivity|]. simpl. congruence.
  - exists sock. rewrite list_lookup_insert_ne by congruence. split; assumption.
Qed.

Lemma connect_live u t (s : System) :
  holds_live_socket s -> holds_live_socket (connect call valid_url u t s).
Proof.
  intros H. unfold connect.
  destruct (isConnecting (svc s) || ws_is_open s); [exact H|].
  destruct (valid_url _).
  - intros k Hk. simpl in Hk. injection Hk as <-. simpl.
    eexists. split; [apply list_lookup_middle; reflexivity|]. simpl. discriminate.
  - revert H. apply live_same_sockets; [rewrite emit_svc|rewrite emit_sockets]; reflexivity.
Qed.

Lemma onopen_live (s : System) : holds_live_socket s -> holds_live_socket (onopen call s).
Proof.
  intros H. unfold onopen. apply send_live. revert H.
  set (s2 := with_svc _ _).
  destruct (clearReconnectTimer_frame s2) as (_ & _ & H3 & _ & _ & H6 & _).
  apply live_same_sockets.
  - rewrite emit_svc, H3. reflexivity.
  - rewrite emit_sockets, H6. reflexivity.
Qed.

Lemma step_live e (s : System) :
  holds_live_socket s -> holds_live_socket (step call valid_url e s).
Proof.
  intros H. destruct e as [u t| |m|ev cb|ev cb|k|k f|k|k code reason|t|ms]; simpl.
  - apply connect_live, H.
  - apply live_no_socket. destruct (disconnect_frame s) as (_ & _ & Hw & _). exact Hw.
  - apply send_live, H.
  - exact H.
  - destruct (off_frame ev cb s) as (He & _). revert H.
    apply live_same_sockets; [|rewrite He; reflexivity].
    unfold off. destruct (listeners (svc s) !! ev) as [hs|]; [|reflexivity].
    destruct (indexOf cb hs); reflexivity.
  - destruct (sockets (env s) !! k) as [sock|] eqn:Hk; [|exact H].
    destruct (readyState sock) eqn:Hr; try exact H.
    apply onopen_live. revert H. apply live_preserved; [reflexivity|].
    intros j a Ha Hra. simpl. destruct (decide (j = k)) as [->|Hne].
    + exists (set_readyState OPEN a). rewrite list_lookup_alter_eq, Ha.
      split; [reflexivity|]. simpl. discriminate.
    + exists a. rewrite list_lookup_alter_ne by congruence. split; assumption.
  - destruct (sockets (env s) !! k) as [sock|]; [|exact H].
    destruct (onmessage_frame call f s) as (Hs & _ & Hk & _).
    destruct (readyState sock); try exact H;
      (revert H; apply live_same_sockets; [rewrite Hs; reflexivity|exact Hk]).
  - destruct (sockets (env s) !! k) as [sock|]; [|exact H].
    destruct (onerror_frame call s) as (_ & _ & Hw & _ & _ & _ & Hk & _).
    revert H. apply live_same_sockets; assumption.
  - destruct (sockets (env s) !! k) as [sock|]; [|exact H].
    destruct (is_closed (readyState sock)); [exact H|].
    apply live_no_socket.
    destruct (onclose_frame call code reason (set_socket_state k CLOSED s))
      as (_ & _ & Hw & _). exact Hw.
  - destruct (list_find _ _) as [[i [t0 due]]|]; [|exact H].
    destruct (due <=? now (env s)); [|exact H].
    unfold reconnect_callback.
    destruct (truthy_number _ && truthy_string _); [|exact H].
    destruct (userId _); [|exact H]. destruct (token _); [|exact H].
    apply connect_live. exact H.
  - exact H.
Qed.

(** X6: in every state the system can reach, the socket field is null or
    names a constructed socket that has not closed; so [isConnected()] and
    the guards of [send] and [connect] never look at a closed socket. *)
Theorem held_socket_is_live (es : list Event) (w : W) :
  holds_live_socket (run call valid_url es (initialSys w)).
Proof.
  assert (H0 : holds_live_socket (initialSys (Callback := Callback) w))
    by (apply live_no_socket; reflexivity).
  revert H0. generalize (initialSys (Callback := Callback) w).
  induction es as [|e es IH]; intros s H; [exact H|].
  apply (IH (step call valid_url e s)), step_live, H.
Qed.

End SocketFacts.

(** ** More on the transport channel: connecting, errors and messages *)

Section ChannelFacts.
Context {W Callback : Type} `{!EqDecision Callback}.
Variable call : Callback -> Payload -> W -> Outcome W.
Variable valid_url : WsUrl -> bool.

Local Abbreviation System := (Sys W Callback).

Lemma alter_last (f : WebSocket -> WebSocket) l x :
  alter f (length l) (l ++ [x]) = l ++ [f x].
Proof. induction l as [|a l IH]; simpl; [reflexivity|]. f_equal. exact IH. Qed.

(** While the connecting flag is set, no call, message or timeout clears
    it or constructs a socket: only the [onopen], [onerror] and [onclose]
    handlers assign false to it. *)
Lemma step_connecting e (s : System) :
  isConnecting (svc s) = true -> is_socket_event e = false ->
  isConnecting (svc (step call valid_url e s)) = true ∧
  length (sockets (env (step call valid_url e s))) = length (sockets (env s)).
Proof.
  intros Hc He.
  destruct e as [u t| |m|ev cb|ev cb|k0|k0 f|k0|k0 code reason|t|ms]; simpl;
    try discriminate He.
  - rewrite connect_guard_noop by (left; exact Hc). split; [exact Hc|reflexivity].
  - destruct (disconnect_frame s) as (_ & _ & _ & _ & D5 & _ & D7 & _).
    split; [rewrite D5; exact Hc|exact D7].
  - rewrite send_svc, send_sockets_length. split; [exact Hc|reflexivity].
  - split; [exact Hc|reflexivity].
  - unfold off. destruct (listeners (svc s) !! ev) as [hs|]; [|split; [exact Hc|reflexivity]].
    destruct (indexOf cb hs); split; first [exact Hc|reflexivity].
  - destruct (sockets (env s) !! k0) as [sock|]; [|split; [exact Hc|reflexivity]].
    destruct (onmessage_frame call f s) as (H1 & _ & H3 & _).
    destruct (readyState sock); try (split; [exact Hc|reflexivity]);
      rewrite H1, H3; (split; [exact Hc|reflexivity]).
  - destruct (list_find _ _) as [[i [t0 due]]|]; [|split; [exact Hc|reflexivity]].
    destruct (due <=? now (env s)); [|split; [exact Hc|reflexivity]].
    unfold reconnect_callback.
    destruct (truthy_number _ && truthy_string _); [|split; [exact Hc|reflexivity]].
    destruct (userId _) as [u|]; [|split; [exact Hc|reflexivity]].
    destruct (token _) as [tok|]; [|split; [exact Hc|reflexivity]].
    rewrite connect_guard_noop by (left; exact Hc). split; [exact Hc|reflexivity].
  - split; [exact Hc|reflexivity].
Qed.

Lemma run_connecting es : forall s : System,
  isConnecting (svc s) = true ->
  forallb (fun e => negb (is_socket_event e)) es = true ->
  isConnecting (svc (run call valid_url es s)) = true ∧
  length (sockets (env (run call valid_url es s))) = length (sockets (env s)).
Proof.
  induction es as [|e es IH]; intros s Hc Hes; [split; [exact Hc|reflexivity]|].
  simpl in Hes. apply andb_true_iff in Hes. destruct Hes as [He Hes].
  apply negb_true_iff in He.
  destruct (step_connecting e s Hc He) as [Hc1 Hl1].
  destruct (IH (step call valid_url e s) Hc1 Hes) as [Hc2 Hl2].
  split; [exact Hc2|]. unfold run in *. simpl. rewrite Hl2. exact Hl1.
Qed.

(** X7: [disconnect()] does not clear the connecting flag.  When it is
    called while a connection attempt is in flight, the flag stays set with
    no identity stored, and for as long as no open, error or close event of
    a socket has been handled, every [connect] is turned away at the guard
    and no call, message or timeout constructs a socket.  When the close
    event of that socket has been handled, the flag is cleared and
    [connect] constructs a socket again. *)
Theorem disconnect_while_connecting_blocks_connect
    (es : list Event) (w : W) (u : Z) (t : string) :
  let s := run call valid_url es (initialSys w) in
  isConnecting (svc s) = false -> ws_is_open s = false ->
  valid_url {| url_user := u; url_token := t |} = true ->
  let k := length (sockets (env s)) in
  let s2 := disconnect (connect call valid_url u t s) in
  isConnecting (svc s2) = true ∧ userId (svc s2) = None ∧ token (svc s2) = None ∧
  (readyState <$> sockets (env s2) !! k) = Some CLOSING ∧
  (forall es', forallb (fun e => negb (is_socket_event e)) es' = true ->
     let s3 := run call valid_url es' s2 in
     isConnecting (svc s3) = true ∧ length (sockets (env s3)) = S k ∧
     forall u' t', connect call valid_url u' t' s3 =
       write_console (ConsoleLog "WebSocket already connected or connecting") s3) ∧
  (forall code reason u' t',
     valid_url {| url_user := u'; url_token := t' |} = true ->
     let s3 := step call valid_url (SocketClose k code reason) s2 in
     isConnecting (svc s3) = false ∧ timers (env s3) = [] ∧
     ws (svc (connect call valid_url u' t' s3)) = Some (S k) ∧
     userId (svc (connect call valid_url u' t' s3)) = Some u').
Proof.
  intros s Hc Ho Hv k s2.
  assert (Htr : timers_tracked s) by apply run_tracked, initialSys_tracked.
  destruct (connect_constructs call valid_url u t s Hc Ho Hv) as (Hk & Hw & Hi & _).
  set (s1 := connect call valid_url u t s) in *.
  destruct (disconnect_frame s1) as (D1 & D2 & D3 & D4 & D5 & _ & D7 & _).
  fold s2 in D1, D2, D3, D4, D5, D7.
  assert (Hsock : sockets (env s2) =
            sockets (env s) ++
              [{| url := {| url_user := u; url_token := t |};
                  readyState := CLOSING; outbox := [] |}]).
  { unfold s2. rewrite disconnect_sockets, Hw, Hk.
    rewrite alter_last. reflexivity. }
  assert (Hlook : sockets (env s2) !! k =
            Some {| url := {| url_user := u; url_token := t |};
                    readyState := CLOSING; outbox := [] |}).
  { rewrite Hsock. apply list_lookup_middle. reflexivity. }
  assert (Hlen : length (sockets (env s2)) = S k).
  { rewrite Hsock, length_app. simpl. unfold k. lia. }
  split; [rewrite D5; exact Hi|]. split; [exact D1|]. split; [exact D2|].
  split; [rewrite Hlook; reflexivity|].
  split.
  { intros es' Hes' s3.
    destruct (run_connecting es' s2 (eq_trans D5 Hi) Hes') as [Hc3 Hl3].
    fold s3 in Hc3, Hl3. split; [exact Hc3|]. split; [rewrite Hl3; exact Hlen|].
    intros u' t'. apply connect_guard_noop. left. exact Hc3. }
  intros code reason u' t' Hv' s3.
  assert (Htr1 : timers_tracked s1).
  { destruct (connect_frame call valid_url u t s) as (H1 & H2 & _).
    revert Htr. apply tracked_frame; assumption. }
  assert (Hq : timers (env s2) = []) by apply disconnect_timers, Htr1.
  set (sc := set_socket_state k CLOSED s2).
  assert (Hs3 : s3 = onclose call code reason sc).
  { unfold s3. simpl. rewrite Hlook. reflexivity. }
  destruct (onclose_frame call code reason sc) as (O1 & O2 & O3 & O4 & O5 & _).
  destruct (onclose_quiet call code reason sc (quiet_will_not_reconnect code sc D1))
    as (O6 & _).
  rewrite <- Hs3 in O1, O2, O3, O4, O5, O6.
  split; [exact O4|]. split; [rewrite O6; exact Hq|].
  assert (Hopen : ws_is_open s3 = false) by (unfold ws_is_open; rewrite O3; reflexivity).
  destruct (connect_constructs call valid_url u' t' s3 O4 Hopen Hv') as (Ck & Cw & _).
  assert (Hid : userId (svc (connect call valid_url u' t' s3)) = Some u').
  { unfold connect. rewrite O4, Hopen, Hv'. reflexivity. }
  split; [|exact Hid]. rewrite Cw, O5. f_equal.
  change (sockets (env sc)) with (alter (set_readyState CLOSED) k (sockets (env s2))).
  rewrite length_alter. exact Hlen.
Qed.

(** X8: an [error] event alone schedules no retry and constructs nothing,
    but it clears the connecting flag while the socket is still
    connecting; a [connect] that follows before the close event is
    therefore let through the guard and constructs a second socket beside
    the first. *)
Theorem error_lets_second_socket_through (s : System) (u u' : Z) (t t' : string) :
  isConnecting (svc s) = false -> ws_is_open s = false ->
  valid_url {| url_user := u; url_token := t |} = true ->
  valid_url {| url_user := u'; url_token := t' |} = true ->
  let k := length (sockets (env s)) in
  let s1 := connect call valid_url u t s in
  let s2 := step call valid_url (SocketError k) s1 in
  let s3 := connect call valid_url u' t' s2 in
  timers (env s2) = timers (env s) ∧ sockets (env s2) = sockets (env s1) ∧
  ws (svc s2) = Some k ∧ isConnecting (svc s2) = false ∧
  sockets (env s3) =
    sockets (env s) ++
      [{| url := {| url_user := u; url_token := t |};
          readyState := CONNECTING; outbox := [] |};
       {| url := {| url_user := u'; url_token := t' |};
          readyState := CONNECTING; outbox := [] |}] ∧
  ws (svc s3) = Some (S k).
Proof.
  intros Hc Ho Hv Hv' k s1 s2 s3.
  destruct (connect_constructs call valid_url u t s Hc Ho Hv) as (Hk & Hw & Hi & _).
  fold s1 in Hk, Hw, Hi.
  assert (Hlook : sockets (env s1) !! k =
            Some {| url := {| url_user := u; url_token := t |};
                    readyState := CONNECTING; outbox := [] |}).
  { rewrite Hk. apply list_lookup_middle. reflexivity. }
  assert (Hs2 : s2 = onerror call s1) by (unfold s2; simpl; rewrite Hlook; reflexivity).
  destruct (onerror_frame call s1) as (_ & _ & E3 & _ & E5 & E6 & E7 & _).
  rewrite <- Hs2 in E3, E5, E6, E7.
  destruct (connect_frame call valid_url u t s) as (T1 & _). fold s1 in T1.
  split; [rewrite E6; exact T1|]. split; [exact E7|].
  split; [rewrite E3; exact Hw|]. split; [exact E5|].
  assert (Hopen : ws_is_open s2 = false).
  { unfold ws_is_open. rewrite E3, Hw. cbv beta iota. fold k.
    rewrite E7, Hlook. reflexivity. }
  destruct (connect_constructs call valid_url u' t' s2 E5 Hopen Hv') as (Ck & Cw & _).
  fold s3 in Ck, Cw. split.
  - rewrite Ck, E7, Hk, <- app_assoc. reflexivity.
  - rewrite Cw, E7, Hk, length_app. simpl. f_equal. unfold k. lia.
Qed.

(** X9: an incoming message never touches the connection: whatever the
    frame and whatever the listeners do (throwing included), the fields of
    the service, the sockets, the timers and the clock are as before; and a
    frame that does not parse, or whose type has no list of listeners or an
    empty one, leaves the listeners' state and the record of calls as they
    are too. *)
Theorem message_leaves_connection_alone (frame : Frame) (s : System) :
  let s' := onmessage call frame s in
  svc s' = svc s ∧ sockets (env s') = sockets (env s) ∧
  timers (env s') = timers (env s) ∧ now (env s') = now (env s) ∧
  ((forall type0 data, frame = Json type0 data ->
      listeners (svc s) !! type0 = None ∨ listeners (svc s) !! type0 = Some []) ->
   world s' = world s ∧ calls s' = calls s).
Proof.
  intros s'. destruct (onmessage_frame call frame s) as (H1 & H2 & H3 & H4).
  split; [exact H1|]. split; [exact H3|]. split; [exact H2|]. split; [exact H4|].
  intros H. unfold s', onmessage. destruct frame as [raw|type0 data]; [split; reflexivity|].
  unfold emit. simpl.
  destruct (H type0 data eq_refl) as [-> | ->]; split; reflexivity.
Qed.

(** Messages, errors, sends, [on] and [off], and the passing of time leave
    a pending reconnect as it is. *)
Lemma step_armed t due u tok socks e (s : System) :
  armed t due u tok socks s -> is_bystander e = true ->
  armed t due u tok socks (step call valid_url e s).
Proof.
  intros Ha He. pose proof Ha as (A1 & A2 & A3 & A4 & A5 & A6 & A7).
  destruct e as [u0 t0| |m|ev cb|ev cb|k0|k0 f|k0|k0 code reason|t0|ms]; simpl;
    try discriminate He.
  - unfold send. rewrite A4. exact Ha.
  - exact Ha.
  - unfold off. destruct (listeners (svc s) !! ev) as [hs|]; [|exact Ha].
    destruct (indexOf cb hs); exact Ha.
  - destruct (sockets (env s) !! k0) as [sock|]; [|exact Ha].
    destruct (onmessage_frame call f s) as (H1 & H2 & H3 & _).
    destruct (readyState sock); try exact Ha;
      unfold armed; rewrite H1, H2, H3; exact Ha.
  - destruct (sockets (env s) !! k0) as [sock|]; [|exact Ha].
    destruct (onerror_frame call s) as (E1 & E2 & E3 & E4 & E5 & E6 & E7 & _).
    unfold armed. rewrite E1, E2, E3, E4, E5, E6, E7. repeat split; assumption.
  - exact Ha.
Qed.

Lemma run_armed t due u tok socks es : forall s : System,
  armed t due u tok socks s -> forallb is_bystander es = true ->
  armed t due u tok socks (run call valid_url es s).
Proof.
  induction es as [|e es IH]; intros s Ha Hes; [exact Ha|].
  simpl in Hes. apply andb_true_iff in Hes. destruct Hes as [He Hes].
  apply (IH (step call valid_url e s)); [|exact Hes].
  apply step_armed; assumption.
Qed.

(** X10: the reconnect attempt passes the guard of [connect] when nothing
    but bystanders came in between.  After a close with a code other than
    1000 under a truthy identity, let messages, error events, calls of
    [send], [on] and [off] and time pass, three seconds or more in all;
    then the timeout constructs a socket for the stored identity and the
    service holds it, connecting, when the constructor accepts the target;
    when the constructor throws, nothing is constructed and no timeout is
    left: the retries end there. *)
Theorem reconnect_constructs_socket
    (es es' : list Event) (w : W) (k : nat) (sock : WebSocket) (code : Z) (reason : string)
    (u : Z) (tok : string) :
  let s := run call valid_url es (initialSys w) in
  sockets (env s) !! k = Some sock -> readyState sock ≠ CLOSED -> code ≠ 1000 ->
  userId (svc s) = Some u -> u ≠ 0 -> token (svc s) = Some tok -> tok ≠ EmptyString ->
  forallb is_bystander es' = true ->
  let s' := step call valid_url (SocketClose k code reason) s in
  let sb := run call valid_url es' s' in
  now (env s) + 3000 <= now (env sb) ->
  let sa := step call valid_url (TimerFires (next_timer (env s))) sb in
  timers (env sa) = [] ∧
  (valid_url {| url_user := u; url_token := tok |} = true ->
   sockets (env sa) =
     alter (set_readyState CLOSED) k (sockets (env s)) ++
       [{| url := {| url_user := u; url_token := tok |};
           readyState := CONNECTING; outbox := [] |}] ∧
   ws (svc sa) = Some (length (sockets (env s))) ∧ isConnecting (svc sa) = true) ∧
  (valid_url {| url_user := u; url_token := tok |} = false ->
   sockets (env sa) = alter (set_readyState CLOSED) k (sockets (env s)) ∧
   ws (svc sa) = None ∧ isConnecting (svc sa) = false).
Proof.
  intros s Hk Hr Hc Hu Hu0 Ht Ht0 Hes s' sb Hdue sa.
  assert (Htr : timers_tracked s) by apply run_tracked, initialSys_tracked.
  set (s1 := set_socket_state k CLOSED s).
  assert (Hs' : s' = onclose call code reason s1).
  { unfold s'. simpl. fold s. rewrite Hk.
    destruct (readyState sock); try reflexivity. contradiction. }
  assert (Hw : will_reconnect code s1 = true).
  { unfold will_reconnect. change (svc s1) with (svc s). rewrite Hu, Ht. simpl.
    destruct (Z.eqb_spec code 1000); [contradiction|].
    destruct (Z.eqb_spec u 0); [contradiction|].
    destruct (String.eqb_spec tok EmptyString); [contradiction|]. reflexivity. }
  destruct (onclose_reconnects call code reason s1
              (set_socket_state_tracked _ _ _ Htr) Hw) as [Htm Hrt].
  destruct (onclose_frame call code reason s1) as (Hid & Htk & Hws & Hic & Hso & _).
  rewrite <- Hs' in Htm, Hrt, Hid, Htk, Hws, Hic, Hso.
  change (svc s1) with (svc s) in Hid, Htk. rewrite Hu in Hid. rewrite Ht in Htk.
  change (now (env s1)) with (now (env s)) in Htm.
  change (next_timer (env s1)) with (next_timer (env s)) in Htm, Hrt.
  change (sockets (env s1)) with (alter (set_readyState CLOSED) k (sockets (env s))) in Hso.
  set (t := next_timer (env s)) in *.
  assert (Ha : armed t (now (env s) + 3000) u tok
                 (alter (set_readyState CLOSED) k (sockets (env s))) sb).
  { apply run_armed; [|exact Hes]. repeat split; assumption. }
  destruct Ha as (B1 & B2 & B3 & B4 & B5 & B6 & B7).
  set (sc := write_console (ConsoleLog "Attempting to reconnect WebSocket...")
               (clearTimeout t sb)).
  assert (Hsa : sa = connect call valid_url u tok sc).
  { unfold sa. rewrite (timer_fires call valid_url t (now (env s) + 3000)) by exact B2.
    destruct (Z.leb_spec (now (env s) + 3000) (now (env sb))); [|lia].
    apply reconnect_callback_truthy; assumption. }
  assert (Htc : timers (env sc) = []).
  { change (timers (env sc))
      with (filter (fun e : positive * Z => e.1 ≠ t) (timers (env sb))).
    rewrite B2. rewrite filter_cons_False; [reflexivity|].
    intros Hx. apply Hx. reflexivity. }
  assert (Hcc : isConnecting (svc sc) = false) by exact B3.
  assert (Hoc : ws_is_open sc = false).
  { unfold ws_is_open. change (ws (svc sc)) with (ws (svc sb)). rewrite B4. reflexivity. }
  split.
  - rewrite Hsa. destruct (connect_frame call valid_url u tok sc) as (-> & _). exact Htc.
  - split; intros Hv.
    + destruct (connect_constructs call valid_url u tok sc Hcc Hoc Hv) as (Ck & Cw & Ci & _).
      rewrite <- Hsa in Ck, Cw, Ci.
      change (sockets (env sc)) with (sockets (env sb)) in Ck, Cw. rewrite B7 in Ck, Cw.
      split; [exact Ck|]. split; [|exact Ci]. rewrite Cw, length_alter. reflexivity.
    + pose proof (connect_throws call valid_url u tok sc Hcc Hoc Hv) as E.
      rewrite <- Hsa in E. rewrite E, emit_sockets, emit_svc. simpl.
      split; [exact B7|]. split; [exact B4|reflexivity].
Qed.

(** X11: [disconnect()] twice is [disconnect()] once. *)
Theorem disconnect_idempotent (s : System) : disconnect (disconnect s) = disconnect s.
Proof.
  destruct s as [[w0 rt ls ui tk ic] [so tm nt nw co] wd cs].
  destruct w0 as [k|], rt as [t|]; reflexivity.
Qed.

End ChannelFacts.

(** ** More on the store: marking, counting and refreshing *)

Lemma unread_in_cons x l :
  unread_in (x :: l) = (if is_read x then 0 else 1) + unread_in l.
Proof.
  unfold unread_in. destruct (is_read x) eqn:E.
  - rewrite filter_cons_False by (rewrite E; discriminate). lia.
  - rewrite filter_cons_True by exact E. simpl length. lia.
Qed.

Lemma unread_in_nonneg l : 0 <= unread_in l.
Proof. unfold unread_in. lia. Qed.

Lemma unread_in_mark_all l : unread_in (map with_is_read l) = 0.
Proof.
  induction l as [|x l IH]; [reflexivity|].
  simpl map. rewrite unread_in_cons, IH. reflexivity.
Qed.

(** Marking the id of an unread entry of a list with unique ids takes one
    off the number of unread entries. *)
Lemma unread_in_mark n l :
  n ∈ l -> is_read n = false -> NoDup (map id l) ->
  unread_in (map (fun notif => if id notif =? id n then with_is_read notif else notif) l)
  = unread_in l - 1.
Proof.
  induction l as [|x l IH]; intros Hn Hr Hd.
  - apply elem_of_nil in Hn. destruct Hn.
  - simpl in Hd. apply NoDup_cons in Hd. destruct Hd as [Hx Hd].
    simpl map. rewrite !unread_in_cons.
    destruct (Z.eqb_spec (id x) (id n)) as [E|E].
    + assert (n = x) as ->.
      { apply elem_of_cons in Hn. destruct Hn as [Hn|Hn]; [exact Hn|].
        exfalso. apply Hx. rewrite E. apply list_elem_of_fmap. exists n. split; [reflexivity|exact Hn]. }
      rewrite mark_map_unchanged.
      * simpl. rewrite Hr. lia.
      * intros m Hm Em. exfalso. apply Hx. rewrite <- Em.
        apply list_elem_of_fmap. exists m. split; [reflexivity|exact Hm].
    + apply elem_of_cons in Hn. destruct Hn as [->|Hn]; [contradiction|].
      rewrite (IH Hn Hr Hd). lia.
Qed.

(** X12: marking never adds, drops or reorders notifications and changes no
    field other than [is_read]: after [markAsRead] and after [markAllAsRead]
    the list has the same ids in the same order, each entry differing from
    the old one at most in [is_read]; [markAsRead(id)] leaves every entry
    with another id, and every entry already read, exactly as it was; and
    marking the same id again changes nothing more in the list. *)
Theorem marking_changes_only_the_read_flag (i : Z) (p : Provider) :
  let l := notifications p in
  let l1 := notifications (markAsRead_update i p) in
  let l2 := notifications (markAllAsRead_update p) in
  Forall2 same_but_read l l1 ∧ Forall2 same_but_read l l2 ∧
  map id l1 = map id l ∧ map id l2 = map id l ∧
  (forall j n, l !! j = Some n -> id n ≠ i ∨ is_read n = true -> l1 !! j = Some n) ∧
  notifications (markAsRead_update i (markAsRead_update i p)) = l1.
Proof.
  intros l l1 l2. unfold l1, l2. rewrite markAsRead_update_notifications.
  change (notifications (markAllAsRead_update p)) with (map with_is_read l).
  fold l. split; [|split; [|split; [|split; [|split]]]].
  - induction l as [|x l' IH]; simpl; constructor; [|exact IH].
    unfold same_but_read. destruct (id x =? i); [destruct x|]; reflexivity.
  - induction l as [|x l' IH]; simpl; constructor; [|exact IH].
    unfold same_but_read. destruct x; reflexivity.
  - induction l as [|x l' IH]; simpl; [reflexivity|]. rewrite IH.
    destruct (id x =? i); reflexivity.
  - induction l as [|x l' IH]; simpl; [reflexivity|]. rewrite IH. reflexivity.
  - intros j n Hj Hn. rewrite list_lookup_fmap, Hj. simpl. f_equal.
    destruct (Z.eqb_spec (id n) i) as [E|E]; [|reflexivity].
    destruct Hn as [Hn|Hn]; [contradiction|]. apply with_is_read_fixed, Hn.
  - rewrite markAsRead_update_notifications, markAsRead_update_notifications.
    fold l. apply mark_map_unchanged. intros n Hn E.
    exact (mark_map_read i l n Hn E).
Qed.

(** X13: how the unread count keeps or loses its agreement with the list.
    After a successful [markAllAsRead] and after the reset the count equals
    the number of unread entries, whatever it was before.  Agreement is
    kept by the arrival of an unread notification, and by [markAsRead] of
    an unread entry when ids are unique.  It is lost when a notification
    arrives that is already read: the count is incremented all the same. *)
Theorem count_agreement (p : Provider) :
  consistent (markAllAsRead_update p) ∧ consistent (resetProvider p) ∧
  (consistent p -> forall d, is_read d = false -> consistent (handleNotification d p)) ∧
  (consistent p -> NoDup (map id (notifications p)) ->
   forall n, n ∈ notifications p -> is_read n = false ->
     consistent (markAsRead_update (id n) p) ∧
     unreadCount (markAsRead_update (id n) p) = unreadCount p - 1) ∧
  (consistent p -> forall d, is_read d = true -> ¬ consistent (handleNotification d p)).
Proof.
  unfold consistent. split; [|split; [|split; [|split]]].
  - simpl. rewrite unread_in_mark_all. reflexivity.
  - reflexivity.
  - intros H d Hd.
    rewrite handleNotification_unreadCount, handleNotification_notifications,
      unread_in_cons, Hd, H. lia.
  - intros H Hnd n Hn Hr.
    rewrite markAsRead_update_unreadCount, markAsRead_update_notifications,
      (unread_in_mark n _ Hn Hr Hnd), H.
    assert (1 <= unread_in (notifications p)).
    { clear H Hnd. induction (notifications p) as [|x l IH].
      - apply elem_of_nil in Hn. destruct Hn.
      - rewrite unread_in_cons. pose proof (unread_in_nonneg l).
        apply elem_of_cons in Hn. destruct Hn as [<-|Hn]; [rewrite Hr; lia|].
        specialize (IH Hn). destruct (is_read x); lia. }
    split; lia.
  - intros H d Hd.
    rewrite handleNotification_unreadCount, handleNotification_notifications,
      unread_in_cons, Hd, H. lia.
Qed.



(** X15: on a mounted provider the order of two frames matters.  An
    [unread_count] followed by a [notification] gives the count of the
    first plus one, with the new item at the head of the list; the same
    two frames the other way round give the reported count, the increment
    being overwritten. *)
Theorem count_and_notification_in_order
    (g : nat) (count : Z) (d : NotificationData) (s : Sys Provider Closure) :
  listeners (svc s) !! "unread_count" = Some [(g, HandleUnreadCount)] ->
  listeners (svc s) !! "notification" = Some [(g, HandleNotification)] ->
  let fc := Json "unread_count" (PUnreadCount count) in
  let fn := Json "notification" (PNotification d) in
  let s1 := onmessage run_handler fn (onmessage run_handler fc s) in
  let s2 := onmessage run_handler fc (onmessage run_handler fn s) in
  notifications (world s1) = d :: notifications (world s) ∧
  unreadCount (world s1) = count + 1 ∧
  notifications (world s2) = d :: notifications (world s) ∧
  unreadCount (world s2) = count.
Proof.
  intros Hc Hn fc fn s1 s2.
  assert (Hw : forall (t : Sys Provider Closure) type0 data hs,
             listeners (svc t) !! type0 = Some hs ->
             world (onmessage run_handler (Json type0 data) t) =
             apply_ops (flat_map (fun c => op_of c data) hs) (world t)).
  { intros t type0 data hs H. unfold onmessage.
    rewrite (emit_world_ops type0 data _ hs); [reflexivity|exact H]. }
  assert (Hl : forall (t : Sys Provider Closure) fr,
             listeners (svc (onmessage run_handler fr t)) = listeners (svc t)).
  { intros t fr. destruct (onmessage_frame run_handler fr t) as (-> & _). reflexivity. }
  unfold s1, s2, fc, fn.
  rewrite (Hw _ "notification" _ [(g, HandleNotification)])
    by (rewrite Hl; exact Hn).
  rewrite (Hw s "unread_count" _ [(g, HandleUnreadCount)]) by exact Hc.
  rewrite (Hw _ "unread_count" _ [(g, HandleUnreadCount)])
    by (rewrite Hl; exact Hc).
  rewrite (Hw s "notification" _ [(g, HandleNotification)]) by exact Hn.
  simpl. unfold apply_ops. simpl.
  rewrite !handleNotification_notifications, !handleNotification_unreadCount.
  repeat split.
Qed.



(** ** More on the provider's effect *)

Section EffectFacts.
Variable valid_url : WsUrl -> bool.

Local Abbreviation App := (Sys Provider Closure).

Lemma handler_for_names name h : handler_for name = Some h -> name ∈ event_names.
Proof.
  unfold handler_for, event_names. intros Hh.
  repeat (case_decide; [subst name; set_solver|]). discriminate Hh.
Qed.

Lemma initial_listeners_known (w : Provider) name :
  name ∈ event_names ->
  listeners (svc (initialSys (Callback := Closure) w)) !! name = Some [].
Proof.
  unfold event_names. intros Hin.
  repeat (apply elem_of_cons in Hin; destruct Hin as [->|Hin]; [vm_compute; reflexivity|]).
  apply elem_of_nil in Hin. destruct Hin.
Qed.

Lemma initial_listeners_unknown (w : Provider) name :
  handler_for name = None ->
  listeners (svc (initialSys (Callback := Closure) w)) !! name = None.
Proof.
  unfold handler_for. intros Hh.
  repeat (case_decide; [discriminate Hh|]).
  unfold initialSys, initialService. cbn [svc listeners].
  repeat (rewrite lookup_insert_ne by congruence). apply lookup_empty.
Qed.

Lemma registerListeners_lookup g (s : App) name :
  listeners (svc (registerListeners g s)) !! name =
  match handler_for name with
  | Some h => Some (default [] (listeners (svc s) !! name) ++ [(g, h)])
  | None => listeners (svc s) !! name
  end.
Proof.
  unfold registerListeners, handler_for. cbv zeta. rewrite !on_lookup.
  repeat (case_decide; [subst name; reflexivity|]). reflexivity.
Qed.

Lemma removeListeners_lookup g (s : App) name :
  listeners (svc (removeListeners g s)) !! name =
  match handler_for name with
  | Some h => remove_first (g, h) <$> listeners (svc s) !! name
  | None => listeners (svc s) !! name
  end.
Proof.
  unfold removeListeners, handler_for. cbv zeta. rewrite !off_lookup.
  repeat (case_decide; [subst name; reflexivity|]). reflexivity.
Qed.

Lemma run_listeners (es : list Event) : forall s : App,
  forallb (fun e => negb (is_registry_call e)) es = true ->
  listeners (svc (run run_handler valid_url es s)) = listeners (svc s).
Proof.
  induction es as [|e es IH]; intros s H; [reflexivity|].
  simpl in H. apply andb_true_iff in H. destruct H as [He Hes].
  apply negb_true_iff in He. unfold run in *. simpl.
  rewrite (IH _ Hes). apply step_listeners, He.
Qed.

Lemma effect_cleanup_listeners g (s : App) :
  listeners (svc (effect_cleanup g s)) = listeners (svc (removeListeners g s)).
Proof.
  unfold effect_cleanup. generalize (removeListeners g s). intros x.
  destruct (disconnect_frame x) as (_ & _ & _ & _ & _ & H & _).
  exact H.
Qed.

Lemma effect_body_listeners g user tok (s : App) :
  listeners (svc (effect_body valid_url g user tok s)) = listeners (svc s) ∨
  listeners (svc (effect_body valid_url g user tok s)) =
    listeners (svc (registerListeners g s)).
Proof.
  assert (Hd : listeners (svc (with_world resetProvider (disconnect s))) =
               listeners (svc s)).
  { destruct (disconnect_frame s) as (_ & _ & _ & _ & _ & H & _). exact H. }
  unfold effect_body. destruct user as [u|]; [|left; exact Hd].
  destruct tok as [t|]; [|left; exact Hd].
  destruct (truthy_string (Some t)); [|left; exact Hd].
  right. apply map_eq. intros name. rewrite !registerListeners_lookup.
  rewrite connect_listeners. reflexivity.
Qed.

(** X17: the cleanup of an effect run removes exactly the listeners its
    body registered.  When the six names are registered and no closure of
    run [g] is among the listeners, then after the body of run [g], any
    calls and events that do not touch the registry themselves, and the
    cleanup of run [g], the registry is what it was before the body,
    whether the body connected or not. *)
Theorem effect_cleanup_restores_registry
    (g : nat) (user : option Z) (tok : option string) (es : list Event) (s : App) :
  (forall name, name ∈ event_names -> is_Some (listeners (svc s) !! name)) ->
  (forall name hs h, listeners (svc s) !! name = Some hs -> (g, h) ∉ hs) ->
  forallb (fun e => negb (is_registry_call e)) es = true ->
  listeners (svc (effect_cleanup g
                    (run run_handler valid_url es (effect_body valid_url g user tok s))))
  = listeners (svc s).
Proof.
  intros Hnames Hfresh Hes. apply map_eq. intros name.
  rewrite effect_cleanup_listeners, removeListeners_lookup, (run_listeners es _ Hes).
  destruct (effect_body_listeners g user tok s) as [-> | ->].
  - destruct (handler_for name) as [h|]; [|reflexivity].
    destruct (listeners (svc s) !! name) as [hs|] eqn:E; [|reflexivity].
    change (Some (remove_first (g, h) hs) = Some hs).
    rewrite remove_first_absent; [reflexivity|]. exact (Hfresh name hs h E).
  - rewrite registerListeners_lookup.
    destruct (handler_for name) as [h|] eqn:Hh; [|reflexivity].
    destruct (Hnames name (handler_for_names name h Hh)) as [hs E].
    assert (Hgoal : forall o : option (list Closure), o = Some hs ->
              remove_first (g, h) <$> Some (default [] o ++ [(g, h)]) = Some hs).
    { intros o ->. change (Some (remove_first (g, h) (hs ++ [(g, h)])) = Some hs).
      f_equal.
      rewrite (remove_first_split (g, h) hs [] (Hfresh name hs h E)). apply app_nil_r. }
    rewrite E. apply Hgoal. exact E.
Qed.

(** *** After the cleanup *)

Lemma emit_deaf event data (s : App) : deaf s -> emit run_handler event data s = s.
Proof.
  intros H. unfold emit. destruct (listeners (svc s) !! event) as [hs|] eqn:E;
    [|reflexivity].
  rewrite (H event hs E). reflexivity.
Qed.

Lemma deaf_frame (s s' : App) : listeners (svc s') = listeners (svc s) -> deaf s -> deaf s'.
Proof. unfold deaf. intros ->. tauto. Qed.

Lemma send_world m (s : App) : world (send m s) = world s.
Proof.
  unfold send. destruct (ws (svc s)) as [k|]; [|reflexivity].
  destruct (sockets (env s) !! k) as [sock|]; [|reflexivity].
  destruct (is_open (readyState sock)); reflexivity.
Qed.

Lemma clearReconnectTimer_world (s : App) : world (clearReconnectTimer s) = world s.
Proof. unfold clearReconnectTimer. destruct (reconnectTimer (svc s)); reflexivity. Qed.

Lemma connect_world_deaf u t (s : App) :
  deaf s -> world (connect run_handler valid_url u t s) = world s.
Proof.
  intros H. unfold connect. destruct (isConnecting (svc s) || ws_is_open s); [reflexivity|].
  destruct (valid_url _); [reflexivity|].
  rewrite emit_deaf; [reflexivity|]. revert H. apply deaf_frame. reflexivity.
Qed.

(** With no listener registered, no turn of the event loop other than a
    call of [on] reaches the store. *)
Lemma step_world_deaf e (s : App) :
  deaf s -> is_registry_call e = false ->
  world (step run_handler valid_url e s) = world s.
Proof.
  intros H He.
  destruct e as [u t| |m|ev cb|ev cb|k|k f|k|k code reason|t|ms]; simpl;
    try discriminate He.
  - apply connect_world_deaf, H.
  - unfold disconnect. cbv zeta.
    destruct (ws (svc _)); simpl; apply clearReconnectTimer_world.
  - apply send_world.
  - destruct (sockets (env s) !! k) as [sock|]; [|reflexivity].
    destruct (readyState sock); try reflexivity.
    unfold onopen. rewrite send_world, emit_deaf.
    + rewrite clearReconnectTimer_world. reflexivity.
    + revert H. apply deaf_frame.
      set (s2 := with_svc _ _).
      destruct (clearReconnectTimer_frame s2) as (_ & _ & _ & _ & -> & _). reflexivity.
  - destruct (sockets (env s) !! k) as [sock|]; [|reflexivity].
    assert (Hm : world (onmessage run_handler f s) = world s).
    { unfold onmessage. destruct f; [reflexivity|].
      rewrite emit_deaf; [reflexivity|]. revert H. apply deaf_frame. reflexivity. }
    destruct (readyState sock); try reflexivity; exact Hm.
  - destruct (sockets (env s) !! k) as [sock|]; [|reflexivity].
    unfold onerror. rewrite emit_deaf; [reflexivity|].
    revert H. apply deaf_frame. reflexivity.
  - destruct (sockets (env s) !! k) as [sock|]; [|reflexivity].
    destruct (is_closed (readyState sock)); [reflexivity|].
    rewrite onclose_unfold. cbv zeta. set (s2 := with_svc _ _).
    rewrite (emit_deaf "disconnect" (PClose code reason) s2)
      by exact (deaf_frame s s2 eq_refl H).
    destruct (will_reconnect _ _); [|reflexivity].
    unfold scheduleReconnect, setTimeout. simpl.
    rewrite clearReconnectTimer_world. reflexivity.
  - destruct (list_find _ _) as [[i [t0 due]]|]; [|reflexivity].
    destruct (due <=? now (env s)); [|reflexivity].
    unfold reconnect_callback.
    destruct (truthy_number _ && truthy_string _); [|reflexivity].
    destruct (userId _); [|reflexivity]. destruct (token _); [|reflexivity].
    rewrite connect_world_deaf; [reflexivity|].
    revert H. apply deaf_frame. reflexivity.
  - reflexivity.
Qed.

Lemma off_rest ev cb (x : App) :
  env (off ev cb x) = env x ∧ world (off ev cb x) = world x ∧
  reconnectTimer (svc (off ev cb x)) = reconnectTimer (svc x).
Proof.
  unfold off. destruct (listeners (svc x) !! ev) as [hs|]; [|repeat split].
  destruct (indexOf cb hs); repeat split.
Qed.

Lemma removeListeners_rest g (x : App) :
  env (removeListeners g x) = env x ∧ world (removeListeners g x) = world x ∧
  reconnectTimer (svc (removeListeners g x)) = reconnectTimer (svc x).
Proof.
  assert (He : forall ev cb (y : App), env (off ev cb y) = env y)
    by (intros; apply off_rest).
  assert (Hw : forall ev cb (y : App), world (off ev cb y) = world y)
    by (intros; apply off_rest).
  assert (Hr : forall ev cb (y : App),
            reconnectTimer (svc (off ev cb y)) = reconnectTimer (svc y))
    by (intros; apply off_rest).
  unfold removeListeners. cbv zeta. rewrite !He, !Hw, !Hr. repeat split.
Qed.

Lemma disconnect_reset (x : App) :
  timers_tracked x ->
  world (with_world resetProvider (disconnect x)) = resetProvider (world x) ∧
  userId (svc (with_world resetProvider (disconnect x))) = None ∧
  token (svc (with_world resetProvider (disconnect x))) = None ∧
  timers (env (with_world resetProvider (disconnect x))) = [] ∧
  listeners (svc (with_world resetProvider (disconnect x))) = listeners (svc x).
Proof.
  intros Htr.
  destruct (disconnect_frame x) as (D1 & D2 & _ & _ & _ & D6 & _).
  split.
  { change (resetProvider (world (disconnect x)) = resetProvider (world x)).
    f_equal. unfold disconnect. cbv zeta.
    destruct (ws (svc _)); simpl; apply clearReconnectTimer_world. }
  split; [exact D1|]. split; [exact D2|].
  split; [exact (disconnect_timers x Htr)|exact D6].
Qed.

(** X18: once the provider of run [g] is cleaned up, the store is empty
    and stays empty.  If the registry held exactly what run [g] registered
    on the fresh service, then after the cleanup the store is reset, the
    service has no identity and no pending timeout, and whatever arrives
    later (frames on the closing socket, its close, errors, timeouts, even
    new calls of [connect]) leaves the store reset, as long as nothing is
    registered anew. *)
Theorem cleanup_silences_the_store
    (g : nat) (es0 es : list Event) (w : Provider) (s : App) :
  s = run run_handler valid_url es0 (initialSys w) ->
  listeners (svc s) = listeners (svc (registerListeners g (initialSys w))) ->
  forallb (fun e => negb (is_registry_call e)) es = true ->
  let s1 := effect_cleanup g s in
  world s1 = resetProvider (world s) ∧
  userId (svc s1) = None ∧ token (svc s1) = None ∧ timers (env s1) = [] ∧
  world (run run_handler valid_url es s1) = resetProvider (world s).
Proof.
  intros Hs Hl Hes. cbv zeta.
  assert (Htr : timers_tracked s)
    by (rewrite Hs; apply run_tracked, initialSys_tracked).
  assert (Hdeaf0 : forall name hs,
            listeners (svc (removeListeners g s)) !! name = Some hs -> hs = []).
  { intros name hs. rewrite removeListeners_lookup, Hl, registerListeners_lookup.
    destruct (handler_for name) as [h|] eqn:Hh.
    - assert (Hgoal : forall o : option (list Closure), o = Some [] ->
                remove_first (g, h) <$> Some (default [] o ++ [(g, h)]) = Some hs ->
                hs = []).
      { intros o ->.
        change (Some (remove_first (g, h) [(g, h)]) = Some hs -> hs = []).
        unfold remove_first. cbn [indexOf]. rewrite decide_True by reflexivity.
        intros [= <-]. reflexivity. }
      apply Hgoal. exact (initial_listeners_known w name (handler_for_names name h Hh)).
    - intros E. discriminate (eq_trans (eq_sym E) (initial_listeners_unknown w name Hh)). }
  destruct (removeListeners_rest g s) as (R1 & R2 & R3).
  assert (Htr0 : timers_tracked (removeListeners g s)).
  { revert Htr. apply tracked_frame; [rewrite R1; reflexivity|exact R3]. }
  rewrite <- R2. clear Hs Hl Htr R1 R2 R3. unfold effect_cleanup.
  revert Hdeaf0 Htr0. generalize (removeListeners g s). intros x Hx Htr0.
  destruct (disconnect_reset x Htr0) as (Hw1 & D1 & D2 & D3 & D4).
  assert (Hdeaf : deaf (with_world resetProvider (disconnect x))).
  { intros name hs. rewrite D4. apply Hx. }
  split; [exact Hw1|]. split; [exact D1|]. split; [exact D2|]. split; [exact D3|].
  rewrite <- Hw1. clear Hw1 D1 D2 D3 D4 Hx Htr0. revert Hdeaf.
  generalize (with_world resetProvider (disconnect x)). clear x.
  induction es as [|e es IH]; intros t Ht; [reflexivity|].
  simpl in Hes. apply andb_true_iff in Hes. destruct Hes as [He Hes].
  apply negb_true_iff in He. unfold run in *. simpl.
  rewrite (IH Hes (step run_handler valid_url e t)).
  - apply step_world_deaf; assumption.
  - revert Ht. apply deaf_frame. apply step_listeners, He.
Qed.

End EffectFacts.

(** ** Authentication *)

Section AuthFacts.
Variable fetch_login : Auth.LoginData -> Fetch Auth.AuthResponse.
Variable fetch_register : Auth.RegisterData -> Fetch Auth.User.
Variable fetch_users : option string -> Fetch (list Auth.User).
Variable decode : string -> Rest Auth.TokenPayload.

Local Abbreviation login := (Auth.login fetch_login fetch_users decode).
Local Abbreviation register :=
  (Auth.register fetch_login fetch_register fetch_users decode).
Local Abbreviation initializeAuth := (Auth.initializeAuth fetch_users decode).
Local Abbreviation users_getAll := (Auth.api_users_getAll fetch_users).

Lemma find_user_spec name allUsers u :
  Auth.find_user name allUsers = Some u -> u ∈ allUsers ∧ name = Some (Auth.username u).
Proof.
  unfold Auth.find_user. destruct name as [name0|]; [|discriminate].
  intros H. apply find_some in H. destruct H as [Hin Heq].
  apply String.eqb_eq in Heq. split; [apply list_elem_of_In; exact Hin|].
  rewrite Heq. reflexivity.
Qed.

Lemma getAuthHeaders_setItem t st :
  Auth.getAuthHeaders (Auth.setItem "access_token" t st) =
  if String.eqb t EmptyString then None else Some ("Bearer " +:+ t).
Proof.
  unfold Auth.getAuthHeaders, Auth.setItem. cbn [Auth.localStorage].
  rewrite lookup_insert_eq. reflexivity.
Qed.

(** X19: when [login] resolves, the server has answered the login request
    with a token, the token decodes, the list of users was fetched with
    that token as bearer, and the user set is one of that list whose name
    is the [sub] of the token; the token is in the state and in the
    storage, loading has ended and nothing was logged. *)
Theorem login_success (data : Auth.LoginData) (st st' : Auth.State) :
  login data st = (Resolved tt, st') ->
  ∃ authResponse tokenPayload allUsers currentUser,
    let t := Auth.access_token authResponse in
    api_call "Login failed: " (fetch_login data) = Resolved authResponse ∧
    decode t = Resolved tokenPayload ∧
    api_call "Failed to fetch users: "
      (fetch_users (if String.eqb t EmptyString then None else Some ("Bearer " +:+ t)))
      = Resolved allUsers ∧
    currentUser ∈ allUsers ∧
    Auth.sub tokenPayload = Some (Auth.username currentUser) ∧
    Auth.user st' = Some currentUser ∧ Auth.token st' = Some t ∧
    Auth.localStorage st' = <["access_token" := t]> (Auth.localStorage st) ∧
    Auth.isLoading st' = false ∧ Auth.console st' = Auth.console st.
Proof.
  unfold Auth.login, Auth.api_login, Auth.login_failed. cbv zeta.
  destruct (api_call "Login failed: " (fetch_login data)) as [a|e] eqn:E1;
    [|discriminate].
  destruct (decode (Auth.access_token a)) as [p|e] eqn:E2; [|discriminate].
  unfold Auth.api_users_getAll.
  change (Auth.getAuthHeaders _) with
    (Auth.getAuthHeaders
       (Auth.setItem "access_token" (Auth.access_token a) (Auth.setIsLoading true st))).
  rewrite getAuthHeaders_setItem.
  destruct (api_call "Failed to fetch users: " _) as [l|e] eqn:E3; [|discriminate].
  destruct (Auth.find_user (Auth.sub p) l) as [u|] eqn:E4; [|discriminate].
  intros [= <-]. destruct (find_user_spec _ _ _ E4) as [Hin Hname].
  exists a, p, l, u. cbv zeta. repeat split; assumption.
Qed.

(** X20: when [login] rejects, the user is the one from before, loading has
    ended and the failure is logged once.  If it was the login request that
    failed, token and storage are untouched; if the failure came later
    (the token does not decode, the list of users is refused, the name is
    not in it), the new token stays in the state and in the storage. *)
Theorem login_failure (data : Auth.LoginData) (st st' : Auth.State) (e : string) :
  login data st = (Rejected e, st') ->
  Auth.user st' = Auth.user st ∧ Auth.isLoading st' = false ∧
  Auth.console st' = Auth.console st ++ [ConsoleError "Login failed:"] ∧
  ((api_call "Login failed: " (fetch_login data) = Rejected e ∧
    Auth.token st' = Auth.token st ∧ Auth.localStorage st' = Auth.localStorage st)
   ∨
   (∃ authResponse,
      api_call "Login failed: " (fetch_login data) = Resolved authResponse ∧
      Auth.token st' = Some (Auth.access_token authResponse) ∧
      Auth.localStorage st' =
        <["access_token" := Auth.access_token authResponse]> (Auth.localStorage st))).
Proof.
  unfold Auth.login, Auth.api_login, Auth.login_failed. cbv zeta.
  destruct (api_call "Login failed: " (fetch_login data)) as [a|e1] eqn:E1.
  - assert (Hlate : forall e0 st0,
              st0 = Auth.setToken (Some (Auth.access_token a))
                      (Auth.setItem "access_token" (Auth.access_token a)
                         (Auth.setIsLoading true st)) ->
              (Rejected (A := unit) e0,
               Auth.setIsLoading false (Auth.console_error "Login failed:" st0))
                = (Rejected e, st') ->
              Auth.user st' = Auth.user st ∧ Auth.isLoading st' = false ∧
              Auth.console st' = Auth.console st ++ [ConsoleError "Login failed:"] ∧
              ((Resolved a = Rejected e ∧
                Auth.token st' = Auth.token st ∧
                Auth.localStorage st' = Auth.localStorage st)
               ∨
               (∃ authResponse,
                  Resolved a = Resolved authResponse ∧
                  Auth.token st' = Some (Auth.access_token authResponse) ∧
                  Auth.localStorage st' =
                    <["access_token" := Auth.access_token authResponse]>
                      (Auth.localStorage st)))).
    { intros e0 st0 -> [= _ <-]. split; [reflexivity|]. split; [reflexivity|].
      split; [reflexivity|]. right. exists a. repeat split. }
    destruct (decode (Auth.access_token a)) as [p|e2]; [|apply Hlate; reflexivity].
    destruct (Auth.api_users_getAll _ _) as [l|e3]; [|apply Hlate; reflexivity].
    destruct (Auth.find_user (Auth.sub p) l) as [u|]; [discriminate|].
    apply Hlate. reflexivity.
  - intros [= <- <-]. split; [reflexivity|]. split; [reflexivity|].
    split; [reflexivity|]. left. repeat split.
Qed.

(** X21: [logout] forgets the user and the token, in the state and in the
    storage, and leaves every other key of the storage alone; a request for
    the list of users made afterwards carries no [Authorization] header;
    and logging out twice is logging out once. *)
Theorem logout_forgets (st : Auth.State) :
  let st' := Auth.logout st in
  Auth.user st' = None ∧ Auth.token st' = None ∧
  Auth.localStorage st' !! "access_token" = None ∧
  (forall key, key ≠ "access_token" ->
     Auth.localStorage st' !! key = Auth.localStorage st !! key) ∧
  users_getAll st' = api_call "Failed to fetch users: " (fetch_users None) ∧
  Auth.logout st' = st'.
Proof.
  cbv zeta. unfold Auth.logout, Auth.api_logout, Auth.removeItem, Auth.setUser,
    Auth.setToken. cbn.
  split; [reflexivity|]. split; [reflexivity|].
  split; [apply lookup_delete_eq|].
  split; [intros key Hk; apply lookup_delete_ne; congruence|].
  split.
  - unfold Auth.api_users_getAll, Auth.getAuthHeaders. cbn.
    rewrite lookup_delete_eq. reflexivity.
  - rewrite delete_delete_eq. reflexivity.
Qed.

Lemma initializeAuth_unfold now st :
  initializeAuth now st =
  match Auth.localStorage st !! "access_token" with
  | Some storedToken =>
      if String.eqb storedToken EmptyString then Auth.setIsLoading false st
      else
        match decode storedToken with
        | Rejected _ =>
            Auth.setIsLoading false
              (Auth.removeItem "access_token"
                 (Auth.console_error "Failed to initialize auth:" st))
        | Resolved tokenPayload =>
            if Auth.expired tokenPayload now then
              Auth.setIsLoading false (Auth.removeItem "access_token" st)
            else
              match users_getAll (Auth.setToken (Some storedToken) st) with
              | Rejected _ =>
                  Auth.setIsLoading false
                    (Auth.removeItem "access_token"
                       (Auth.console_error "Failed to initialize auth:"
                          (Auth.setToken (Some storedToken) st)))
              | Resolved allUsers =>
                  match Auth.find_user (Auth.sub tokenPayload) allUsers with
                  | Some currentUser =>
                      Auth.setIsLoading false
                        (Auth.setUser (Some currentUser)
                           (Auth.setToken (Some storedToken) st))
                  | None =>
                      Auth.setIsLoading false
                        (Auth.removeItem "access_token"
                           (Auth.setToken (Some storedToken) st))
                  end
              end
        end
  | None => Auth.setIsLoading false st
  end.
Proof. reflexivity. Qed.

(** X22: what [initializeAuth] leaves behind.  Loading has ended and no
    key of the storage other than [access_token] has changed.  Either a
    user was found: then the stored token is non-empty, decodes, has not
    expired, carries the user's name, is in the state and is still in the
    storage; or the user is the one from before and no request made
    afterwards carries an [Authorization] header. *)
Theorem initializeAuth_outcomes (now : Z) (st : Auth.State) :
  let st' := initializeAuth now st in
  Auth.isLoading st' = false ∧
  (forall key, key ≠ "access_token" ->
     Auth.localStorage st' !! key = Auth.localStorage st !! key) ∧
  ((Auth.user st' = Auth.user st ∧ Auth.getAuthHeaders st' = None)
   ∨
   (∃ storedToken tokenPayload currentUser,
      Auth.localStorage st !! "access_token" = Some storedToken ∧
      storedToken ≠ EmptyString ∧
      decode storedToken = Resolved tokenPayload ∧
      Auth.expired tokenPayload now = false ∧
      Auth.sub tokenPayload = Some (Auth.username currentUser) ∧
      Auth.user st' = Some currentUser ∧ Auth.token st' = Some storedToken ∧
      Auth.localStorage st' = Auth.localStorage st)).
Proof.
  cbv zeta. rewrite initializeAuth_unfold.
  assert (Hrm : forall st0 : Auth.State,
            Auth.localStorage st0 = Auth.localStorage st -> Auth.user st0 = Auth.user st ->
            let st' := Auth.setIsLoading false (Auth.removeItem "access_token" st0) in
            Auth.isLoading st' = false ∧
            (forall key, key ≠ "access_token" ->
               Auth.localStorage st' !! key = Auth.localStorage st !! key) ∧
            Auth.user st' = Auth.user st ∧ Auth.getAuthHeaders st' = None).
  { intros st0 Hl Hu. cbv zeta. split; [reflexivity|].
    split; [intros key Hk; cbn; rewrite Hl; apply lookup_delete_ne; congruence|].
    split; [exact Hu|].
    unfold Auth.getAuthHeaders. cbn. rewrite lookup_delete_eq. reflexivity. }
  destruct (Auth.localStorage st !! "access_token") as [tok|] eqn:E.
  - destruct (String.eqb tok EmptyString) eqn:Et.
    + split; [reflexivity|]. split; [reflexivity|]. left. split; [reflexivity|].
      unfold Auth.getAuthHeaders. cbn. rewrite E, Et. reflexivity.
    + destruct (decode tok) as [p|e] eqn:Ed.
      * destruct (Auth.expired p now) eqn:Ee.
        { destruct (Hrm st eq_refl eq_refl) as (H1 & H2 & H3 & H4). auto. }
        destruct (users_getAll _) as [l|e].
        { destruct (Auth.find_user (Auth.sub p) l) as [u|] eqn:Ef.
          - split; [reflexivity|]. split; [reflexivity|]. right.
            exists tok, p, u. destruct (find_user_spec _ _ _ Ef) as [_ Hn].
            apply String.eqb_neq in Et. repeat split; assumption.
          - destruct (Hrm (Auth.setToken (Some tok) st) eq_refl eq_refl)
              as (H1 & H2 & H3 & H4). auto. }
        destruct (Hrm (Auth.console_error "Failed to initialize auth:"
                         (Auth.setToken (Some tok) st)) eq_refl eq_refl)
          as (H1 & H2 & H3 & H4). auto.
      * destruct (Hrm (Auth.console_error "Failed to initialize auth:" st)
                    eq_refl eq_refl) as (H1 & H2 & H3 & H4). auto.
  - split; [reflexivity|]. split; [reflexivity|]. left. split; [reflexivity|].
    unfold Auth.getAuthHeaders. cbn. rewrite E. reflexivity.
Qed.

(** X23: a token that is dropped after it was accepted stays in the state.
    When the stored token decodes and has not expired, but the list of
    users is refused or does not hold its name, [initializeAuth] removes
    the token from the storage and sets no user, yet the [token] of the
    context is that token. *)
Theorem initializeAuth_keeps_dropped_token
    (now : Z) (st : Auth.State) (storedToken : string) (tokenPayload : Auth.TokenPayload) :
  Auth.localStorage st !! "access_token" = Some storedToken ->
  storedToken ≠ EmptyString ->
  decode storedToken = Resolved tokenPayload ->
  Auth.expired tokenPayload now = false ->
  (match api_call "Failed to fetch users: " (fetch_users (Some ("Bearer " +:+ storedToken)))
   with
   | Resolved allUsers => Auth.find_user (Auth.sub tokenPayload) allUsers = None
   | Rejected _ => True
   end) ->
  let st' := initializeAuth now st in
  Auth.token st' = Some storedToken ∧
  Auth.localStorage st' !! "access_token" = None ∧
  Auth.user st' = Auth.user st.
Proof.
  intros E Hne Ed Ee Hu. cbv zeta. rewrite initializeAuth_unfold, E.
  apply String.eqb_neq in Hne. rewrite Hne, Ed, Ee.
  unfold Auth.api_users_getAll, Auth.getAuthHeaders. cbn [Auth.localStorage Auth.setToken].
  rewrite E, Hne.
  destruct (api_call "Failed to fetch users: " _) as [l|e].
  - rewrite Hu. split; [reflexivity|]. split; [apply lookup_delete_eq|reflexivity].
  - split; [reflexivity|]. split; [apply lookup_delete_eq|reflexivity].
Qed.

(** X24: [register] logs in only when the account was created.  When the
    registration is refused nothing is stored and the user and token are
    as before; when it is accepted the outcome, the user, the token and the
    storage are those of [login] with the name and password given, and a
    failure of that login is logged a second time as a failed
    registration. *)
Theorem register_outcomes (data : Auth.RegisterData) (st : Auth.State) :
  let ld := {| Auth.login_username := Auth.reg_username data;
               Auth.login_password := Auth.reg_password data |} in
  let r := register data st in
  let l := login ld st in
  Auth.isLoading (snd r) = false ∧
  (forall e, api_call "Registration failed: " (fetch_register data) = Rejected e ->
     fst r = Rejected e ∧ Auth.user (snd r) = Auth.user st ∧
     Auth.token (snd r) = Auth.token st ∧
     Auth.localStorage (snd r) = Auth.localStorage st ∧
     Auth.console (snd r) = Auth.console st ++ [ConsoleError "Registration failed:"]) ∧
  (forall newUser, api_call "Registration failed: " (fetch_register data) = Resolved newUser ->
     fst r = fst l ∧ Auth.user (snd r) = Auth.user (snd l) ∧
     Auth.token (snd r) = Auth.token (snd l) ∧
     Auth.localStorage (snd r) = Auth.localStorage (snd l) ∧
     Auth.console (snd r) =
       Auth.console (snd l) ++
       match fst l with
       | Rejected _ => [ConsoleError "Registration failed:"]
       | Resolved _ => []
       end).
Proof.
  cbv zeta. unfold Auth.register, Auth.api_register. cbv zeta.
  set (ld := {| Auth.login_username := _; Auth.login_password := _ |}).
  change (Auth.login fetch_login fetch_users decode ld (Auth.setIsLoading true st))
    with (login ld st).
  destruct (api_call "Registration failed: " (fetch_register data)) as [u|e].
  - destruct (login ld st) as [[[]|e] st2]; cbn [fst snd].
    + split; [reflexivity|]. split; [intros ? [=]|].
      intros _ _. repeat split. cbn. rewrite app_nil_r. reflexivity.
    + split; [reflexivity|]. split; [intros ? [=]|].
      intros _ _. repeat split.
  - cbn [fst snd]. split; [reflexivity|]. split; [|intros ? [=]].
    intros e0 [= <-]. repeat split.
Qed.

End AuthFacts.

(** ** Sending and the badge *)

Section SendFacts.
Context {W Callback : Type}.

(** X25: [send] hands the message over exactly when [isConnected()] is
    true.  Then the message is put last on the socket the service holds and
    nothing is written to the console; otherwise one warning is written and
    no socket is touched.  In both cases the service, the timers, the clock
    and the listeners' state are as before. *)
Theorem send_delivers_or_warns (m : Message) (s : Sys W Callback) :
  let s' := send m s in
  svc s' = svc s ∧ world s' = world s ∧ calls s' = calls s ∧
  timers (env s') = timers (env s) ∧ now (env s') = now (env s) ∧
  next_timer (env s') = next_timer (env s) ∧
  (ws_is_open s = true ->
   ∃ k sock, ws (svc s) = Some k ∧ sockets (env s) !! k = Some sock ∧
     sockets (env s') = <[k := push_outbox m sock]> (sockets (env s)) ∧
     console (env s') = console (env s)) ∧
  (ws_is_open s = false ->
   sockets (env s') = sockets (env s) ∧
   console (env s') =
     console (env s) ++ [ConsoleWarn "WebSocket not connected, cannot send message:"]).
Proof.
  cbv zeta. unfold send, ws_is_open.
  destruct (ws (svc s)) as [k|]; [|repeat split; discriminate].
  destruct (sockets (env s) !! k) as [sock|] eqn:E; [|repeat split; discriminate].
  destruct (is_open (readyState sock)).
  - do 6 (split; [reflexivity|]). split; [|discriminate].
    intros _. exists k, sock. split; [reflexivity|]. split; [exact E|].
    split; reflexivity.
  - do 6 (split; [reflexivity|]). split; [discriminate|]. intros _. split; reflexivity.
Qed.

End SendFacts.

(** X26: the badge on the bell.  It is shown exactly when the count is
    positive, with the count itself up to 99 and [99+] above.  After
    [markAllAsRead] and after the reset it is gone; after [markAsRead] it is
    gone exactly when the count was 1 or less; and a count below zero, as an
    [unread_count] event may bring, shows no badge. *)
Theorem badge_follows_count (count : Z) (p : Provider) :
  (badge count = None ↔ count <= 0) ∧
  (badge count = Some Badge99Plus ↔ 99 < count) ∧
  (forall n, badge count = Some (BadgeCount n) ↔ n = count ∧ 0 < count <= 99) ∧
  badge (unreadCount (markAllAsRead_update p)) = None ∧
  badge (unreadCount (resetProvider p)) = None ∧
  (forall i, badge (unreadCount (markAsRead_update i p)) = None ↔ unreadCount p <= 1) ∧
  (count <= 0 -> badge (unreadCount (handleUnreadCount count p)) = None).
Proof.
  assert (H0 : forall c, badge c = None ↔ c <= 0).
  { intros c. unfold badge. destruct (0 <? c) eqn:E.
    - apply Z.ltb_lt in E. split; [discriminate|lia].
    - apply Z.ltb_ge in E. split; [intros _; exact E|reflexivity]. }
  split; [apply H0|]. split.
  { unfold badge. destruct (0 <? count) eqn:E; destruct (99 <? count) eqn:E';
      try apply Z.ltb_lt in E; try apply Z.ltb_ge in E;
      try apply Z.ltb_lt in E'; try apply Z.ltb_ge in E';
      split; intros H; try discriminate H; try lia; reflexivity. }
  split.
  { intros n. unfold badge. destruct (0 <? count) eqn:E; destruct (99 <? count) eqn:E';
      try apply Z.ltb_lt in E; try apply Z.ltb_ge in E;
      try apply Z.ltb_lt in E'; try apply Z.ltb_ge in E';
      split; intros H; try discriminate H; try lia.
    - injection H as <-. lia.
    - destruct H as [-> _]. reflexivity. }
  split; [reflexivity|]. split; [reflexivity|]. split.
  - intros i. rewrite H0. unfold markAsRead_update. cbn. lia.
  - intros Hc. apply H0. exact Hc.
Qed.

(** ** Scenarios for the properties above *)

Ltac not_listed :=
  let H := fresh in
  intros H;
  repeat (apply elem_of_cons in H; destruct H as [H|H]; [discriminate H|]);
  apply elem_of_nil in H; exact H.

(** Listener [(2, HandleConnect)] is registered between two registrations
    of [(1, HandleConnect)]; removing it leaves both of those. *)
Lemma off_removes_first_registration_witness :
  let s := app_run [CallOn "connect" (1%nat, HandleConnect);
                    CallOn "connect" (2%nat, HandleConnect);
                    CallOn "connect" (1%nat, HandleConnect)] freshApp in
  listeners (svc (off "connect" (2%nat, HandleConnect) s)) !! "connect" =
    Some [(1%nat, HandleConnect); (1%nat, HandleConnect)].
Proof.
  intros s.
  destruct (off_removes_first_registration (W := Provider) "connect"
              (2%nat, HandleConnect) s [(1%nat, HandleConnect)] [(1%nat, HandleConnect)])
    as (H & _).
  - vm_compute. reflexivity.
  - not_listed.
  - rewrite H. apply lookup_insert_eq.
Defined.

(** Removing a listener under a name nobody registered. *)
Lemma off_absent_is_noop_witness :
  off "pong" (1%nat, HandleConnect) freshApp = freshApp.
Proof.
  apply (off_absent_is_noop (W := Provider) "pong" (1%nat, HandleConnect) freshApp).
  left. vm_compute. reflexivity.
Defined.

Lemma on_off_round_trip_witness :
  listeners (svc (off "connect" (1%nat, HandleConnect)
                    (on "connect" (1%nat, HandleConnect) freshApp))) =
  listeners (svc freshApp).
Proof.
  apply (on_off_round_trip (W := Provider) "connect" (1%nat, HandleConnect) freshApp []).
  - vm_compute. reflexivity.
  - not_listed.
Defined.

(** A session that connects, opens and drops leaves the registry alone. *)
Lemma registry_changes_only_by_on_off_witness :
  listeners (svc (app_run [CallConnect 42 "tok"; SocketOpen 0; SocketClose 0 1006 ""]
                    freshApp)) =
  listeners (svc freshApp).
Proof.
  apply (proj1 (registry_changes_only_by_on_off run_handler browser_valid_url
                  [CallConnect 42 "tok"; SocketOpen 0; SocketClose 0 1006 ""])).
  vm_compute. reflexivity.
Defined.

(** Principal 42 connects, the request goes out on the first socket, and
    [disconnect()] lets it go; a second session that sends two more
    messages leaves the first socket with that one request. *)
Lemma unheld_socket_gets_no_message_witness :
  let s := app_run [CallConnect 42 "tok"; SocketOpen 0; CallDisconnect] freshApp in
  let es := [SocketClose 0 1000 "Manual disconnect"; CallConnect 42 "tok"; SocketOpen 1;
             CallSend mark_all_read] in
  sent_on 0 (app_run es s) = Some [get_notifications] ∧
  sent_on 1 (app_run es s) = Some [get_notifications; mark_all_read].
Proof.
  intros s es. split; [|vm_compute; reflexivity].
  pose proof (unheld_socket_gets_no_message run_handler browser_valid_url es 0%nat s) as H.
  cbv zeta in H. destruct H as [_ H].
  - vm_compute. lia.
  - vm_compute. discriminate.
  - unfold app_run. rewrite H. vm_compute. reflexivity.
Defined.

Lemma held_socket_is_live_witness :
  ∃ sock,
    sockets (env (app_run [CallConnect 42 "tok"; SocketOpen 0] freshApp)) !! 0%nat
      = Some sock ∧
    readyState sock ≠ CLOSED.
Proof.
  apply (held_socket_is_live run_handler browser_valid_url
           [CallConnect 42 "tok"; SocketOpen 0] (initialProvider false) 0%nat).
  vm_compute. reflexivity.
Defined.

(** [connect(42, "tok")] and [disconnect()] in a row on the fresh service:
    the flag stays set; two more calls of [connect], a message and ten
    seconds construct nothing; after the close event [connect] constructs
    the second socket. *)
Lemma disconnect_while_connecting_blocks_connect_witness :
  let s2 := disconnect (connect run_handler browser_valid_url 42 "tok" freshApp) in
  let s3 := app_run [CallConnect 42 "tok"; CallSend get_notifications; Elapse 10000;
                     CallConnect 43 "tok"] s2 in
  isConnecting (svc s2) = true ∧
  isConnecting (svc s3) = true ∧ length (sockets (env s3)) = 1%nat ∧
  ws (svc (connect run_handler browser_valid_url 42 "tok"
             (app_step (SocketClose 0 1000 "Manual disconnect") s2))) = Some 1%nat.
Proof.
  intros s2 s3.
  pose proof (disconnect_while_connecting_blocks_connect run_handler browser_valid_url
                [] (initialProvider false) 42 "tok") as H.
  cbv zeta in H.
  destruct (H eq_refl eq_refl eq_refl) as (H1 & _ & _ & _ & H5 & H6).
  split; [exact H1|].
  destruct (H5 [CallConnect 42 "tok"; CallSend get_notifications; Elapse 10000;
                CallConnect 43 "tok"] eq_refl) as (Hc & Hl & _).
  split; [exact Hc|]. split; [exact Hl|].
  destruct (H6 1000 "Manual disconnect" 42 "tok" eq_refl) as (_ & _ & Hw & _).
  exact Hw.
Defined.

Lemma error_lets_second_socket_through_witness :
  let s1 := connect run_handler browser_valid_url 42 "tok" freshApp in
  let s2 := app_step (SocketError 0) s1 in
  let s3 := connect run_handler browser_valid_url 42 "tok" s2 in
  isConnecting (svc s2) = false ∧ ws (svc s3) = Some 1%nat.
Proof.
  intros s1 s2 s3.
  pose proof (error_lets_second_socket_through run_handler browser_valid_url
                freshApp 42 42 "tok" "tok") as H.
  cbv zeta in H.
  destruct (H eq_refl eq_refl eq_refl eq_refl) as (_ & _ & _ & H4 & _ & H6).
  split; [exact H4|exact H6].
Defined.

(** A frame of a type nobody listens to. *)
Lemma message_leaves_connection_alone_witness :
  let s := registerListeners 1 (initialSys five_three_unread) in
  world (onmessage run_handler (Json "pong" PNull) s) = world s.
Proof.
  intros s.
  pose proof (message_leaves_connection_alone run_handler (Json "pong" PNull) s) as H.
  cbv zeta in H. destruct H as (_ & _ & _ & _ & H).
  destruct H as [Hw _]; [|exact Hw].
  intros type0 data [= <- <-]. left. vm_compute. reflexivity.
Defined.

(** Principal 42 is connected and the socket drops with code 1006; a
    message is tried, a listener is registered and four seconds pass; then
    the timeout constructs the second socket. *)
Lemma reconnect_constructs_socket_witness :
  let s := app_run [CallConnect 42 "tok"; SocketOpen 0; Elapse 500] freshApp in
  let sa := app_run [SocketClose 0 1006 ""; CallSend mark_all_read; Elapse 1000;
                     CallOn "notification" (1%nat, HandleNotification); Elapse 3000;
                     TimerFires 1%positive] s in
  timers (env sa) = [] ∧ ws (svc sa) = Some 1%nat ∧ isConnecting (svc sa) = true.
Proof.
  intros s sa.
  pose proof (reconnect_constructs_socket run_handler browser_valid_url
                [CallConnect 42 "tok"; SocketOpen 0; Elapse 500]
                [CallSend mark_all_read; Elapse 1000;
                 CallOn "notification" (1%nat, HandleNotification); Elapse 3000]
                (initialProvider false)
                0%nat
                {| url := {| url_user := 42; url_token := "tok" |};
                   readyState := OPEN; outbox := [get_notifications] |}
                1006 "" 42 "tok") as H.
  cbv zeta in H.
  destruct H as (H1 & H2 & _).
  - vm_compute. reflexivity.
  - simpl. discriminate.
  - lia.
  - vm_compute. reflexivity.
  - lia.
  - vm_compute. reflexivity.
  - discriminate.
  - vm_compute. reflexivity.
  - vm_compute. discriminate.
  - destruct (H2 eq_refl) as (_ & Hw & Hc).
    split; [exact H1|]. split; [exact Hw|exact Hc].
Defined.

(** Marking notification 5 leaves notification 4, the second of the list,
    as it is. *)
Lemma marking_changes_only_the_read_flag_witness :
  notifications (markAsRead_update 5 five_three_unread) !! 1%nat = Some (sample 4 true).
Proof.
  pose proof (marking_changes_only_the_read_flag 5 five_three_unread) as H.
  cbv zeta in H. destruct H as (_ & _ & _ & _ & H & _).
  apply (H 1%nat (sample 4 true)).
  - vm_compute. reflexivity.
  - left. vm_compute. discriminate.
Defined.

Lemma count_agreement_witness :
  consistent (handleNotification (sample 9 false) five_three_unread).
Proof.
  destruct (count_agreement five_three_unread) as (_ & _ & H & _).
  apply H.
  - vm_compute. reflexivity.
  - vm_compute. reflexivity.
Defined.


Lemma count_and_notification_in_order_witness :
  let s := registerListeners 1 (initialSys five_three_unread) in
  let fc := Json "unread_count" (PUnreadCount 7) in
  let fn := Json "notification" (PNotification (sample 9 false)) in
  unreadCount (world (onmessage run_handler fn (onmessage run_handler fc s))) = 8 ∧
  unreadCount (world (onmessage run_handler fc (onmessage run_handler fn s))) = 7.
Proof.
  intros s fc fn.
  pose proof (count_and_notification_in_order 1 7 (sample 9 false) s) as H.
  cbv zeta in H.
  destruct H as (_ & H2 & _ & H4).
  - vm_compute. reflexivity.
  - vm_compute. reflexivity.
  - split; [exact H2|exact H4].
Defined.


(** The first run of the effect on the fresh service, a session that opens
    and drops, and the cleanup. *)
Lemma effect_cleanup_restores_registry_witness :
  listeners (svc (effect_cleanup 1
                    (app_run [SocketOpen 0; SocketClose 0 1006 ""]
                       (effect_body browser_valid_url 1 (Some 42) (Some "tok") freshApp))))
  = listeners (svc freshApp).
Proof.
  apply (effect_cleanup_restores_registry browser_valid_url 1 (Some 42) (Some "tok")
           [SocketOpen 0; SocketClose 0 1006 ""] freshApp).
  - intros name Hn. unfold freshApp.
    rewrite (initial_listeners_known (initialProvider false) name Hn).
    eexists. reflexivity.
  - intros name hs h E. unfold freshApp in E.
    destruct (handler_for name) as [h0|] eqn:Hh.
    + rewrite (initial_listeners_known (initialProvider false) name
                 (handler_for_names name h0 Hh)) in E.
      injection E as <-. apply not_elem_of_nil.
    + rewrite (initial_listeners_unknown (initialProvider false) name Hh) in E.
      discriminate E.
  - vm_compute. reflexivity.
Defined.

(** The provider of principal 42 has received a notification and is
    cleaned up; the frame and the close event that arrive afterwards, and
    a new [connect], leave the list empty. *)
Lemma cleanup_silences_the_store_witness :
  let s := run run_handler browser_valid_url
             [CallConnect 42 "tok";
              CallOn "connect" (1%nat, HandleConnect);
              CallOn "disconnect" (1%nat, HandleDisconnect);
              CallOn "notification" (1%nat, HandleNotification);
              CallOn "unread_count" (1%nat, HandleUnreadCount);
              CallOn "notifications_list" (1%nat, HandleNotificationsList);
              CallOn "error" (1%nat, HandleError);
              SocketOpen 0;
              SocketMessage 0 (Json "notification" (PNotification (sample 9 false)))]
             (initialSys (initialProvider false)) in
  let es := [SocketMessage 0 (Json "notification" (PNotification (sample 8 false)));
             SocketClose 0 1000 "Manual disconnect"; CallConnect 42 "tok"] in
  notifications (world s) = [sample 9 false] ∧
  notifications (world (run run_handler browser_valid_url es (effect_cleanup 1 s))) = [].
Proof.
  intros s es. split; [vm_compute; reflexivity|].
  assert (Hs : s = s) by reflexivity. unfold s at 2 in Hs.
  assert (Hl : listeners (svc s) =
               listeners (svc (registerListeners 1 (initialSys (initialProvider false)))))
    by (vm_compute; reflexivity).
  assert (Hes : forallb (fun e => negb (is_registry_call (Callback := Closure) e)) es = true)
    by (vm_compute; reflexivity).
  destruct (cleanup_silences_the_store browser_valid_url 1 _ es (initialProvider false) s
              Hs Hl Hes) as (_ & _ & _ & _ & H).
  rewrite H. reflexivity.
Defined.

(** [ada] logs in with her password. *)
Lemma login_success_witness :
  let r := Auth.login one_account_login one_account_users one_account_decode
             {| Auth.login_username := "ada"; Auth.login_password := "secret" |}
             (Auth.initialState ∅) in
  ∃ currentUser, Auth.user (snd r) = Some currentUser ∧
                 Auth.token (snd r) = Some "h.ada.s" ∧ Auth.isLoading (snd r) = false.
Proof.
  intros r.
  destruct (login_success one_account_login one_account_users one_account_decode
              {| Auth.login_username := "ada"; Auth.login_password := "secret" |}
              (Auth.initialState ∅) (snd r))
    as (a & p & l & u & H).
  - vm_compute. reflexivity.
  - cbv zeta in H. destruct H as (Ha & _ & _ & _ & _ & Hu & Ht & _ & Hl & _).
    exists u. split; [exact Hu|]. split; [|exact Hl].
    rewrite Ht. vm_compute in Ha. injection Ha as <-. reflexivity.
Defined.

(** [ada] mistypes her password. *)
Lemma login_failure_witness :
  let r := Auth.login one_account_login one_account_users one_account_decode
             {| Auth.login_username := "ada"; Auth.login_password := "guess" |}
             (Auth.initialState ∅) in
  Auth.user (snd r) = None ∧ Auth.isLoading (snd r) = false ∧
  Auth.console (snd r) = [ConsoleError "Login failed:"].
Proof.
  intros r.
  destruct (login_failure one_account_login one_account_users one_account_decode
              {| Auth.login_username := "ada"; Auth.login_password := "guess" |}
              (Auth.initialState ∅) (snd r) "Login failed: Unauthorized")
    as (Hu & Hl & Hc & _).
  - vm_compute. reflexivity.
  - split; [exact Hu|]. split; [exact Hl|exact Hc].
Defined.

(** Logging out keeps the other keys of the storage. *)
Lemma logout_forgets_witness :
  let st := Auth.initialState (<["theme" := "dark"]> (<["access_token" := "h.ada.s"]> ∅)) in
  Auth.localStorage (Auth.logout st) !! "theme" = Some "dark" ∧
  Auth.localStorage (Auth.logout st) !! "access_token" = None.
Proof.
  intros st.
  pose proof (logout_forgets one_account_users st) as H. cbv zeta in H.
  destruct H as (_ & _ & H3 & H4 & _).
  split; [|exact H3]. rewrite (H4 "theme"); [vm_compute; reflexivity|discriminate].
Defined.

(** A page opened at second 1000 with [ada]'s token in the storage. *)
Lemma initializeAuth_outcomes_witness :
  let st := Auth.initialState (<["theme" := "dark"]> (<["access_token" := "h.ada.s"]> ∅)) in
  let st' := Auth.initializeAuth one_account_users one_account_decode 1000000 st in
  Auth.isLoading st' = false ∧ Auth.localStorage st' !! "theme" = Some "dark".
Proof.
  intros st st'.
  pose proof (initializeAuth_outcomes one_account_users one_account_decode 1000000 st) as H.
  cbv zeta in H. destruct H as (H1 & H2 & _).
  split; [exact H1|].
  unfold st'. rewrite (H2 "theme"); [vm_compute; reflexivity|discriminate].
Defined.

(** The same page opened while the server cannot be reached. *)
Lemma initializeAuth_keeps_dropped_token_witness :
  let st := Auth.initialState (<["access_token" := "h.ada.s"]> ∅) in
  let st' := Auth.initializeAuth (fun _ => FetchFailed "offline") one_account_decode
               1000000 st in
  Auth.token st' = Some "h.ada.s" ∧ Auth.localStorage st' !! "access_token" = None.
Proof.
  intros st st'.
  pose proof (initializeAuth_keeps_dropped_token (fun _ => FetchFailed "offline")
                one_account_decode 1000000 st "h.ada.s"
                {| Auth.sub := Some "ada"; Auth.exp := Some 2000 |}) as H.
  cbv zeta in H.
  destruct H as (H1 & H2 & _).
  - vm_compute. reflexivity.
  - discriminate.
  - vm_compute. reflexivity.
  - vm_compute. reflexivity.
  - exact I.
  - split; [exact H1|exact H2].
Defined.

(** The name [ada] is taken: the registration is refused and nothing is
    stored. *)
Lemma register_outcomes_witness :
  let data := {| Auth.reg_email := "ada@example.org"; Auth.reg_username := "ada";
                 Auth.reg_full_name := "Ada L."; Auth.reg_password := "secret";
                 Auth.reg_role := Auth.artist; Auth.reg_bio := None |} in
  let r := Auth.register one_account_login one_account_register one_account_users
             one_account_decode data (Auth.initialState ∅) in
  fst r = Rejected "Registration failed: Bad Request" ∧
  Auth.localStorage (snd r) = ∅ ∧ Auth.token (snd r) = None.
Proof.
  intros data r.
  pose proof (register_outcomes one_account_login one_account_register one_account_users
                one_account_decode data (Auth.initialState ∅)) as H.
  cbv zeta in H. destruct H as (_ & H & _).
  destruct (H "Registration failed: Bad Request") as (H1 & _ & H3 & H4 & _).
  - vm_compute. reflexivity.
  - split; [exact H1|]. split; [exact H4|exact H3].
Defined.

(** A message sent while the socket is still connecting. *)
Lemma send_delivers_or_warns_witness :
  let s := app_run [CallConnect 42 "tok"] freshApp in
  sockets (env (send mark_all_read s)) = sockets (env s).
Proof.
  intros s.
  pose proof (send_delivers_or_warns mark_all_read s) as H. cbv zeta in H.
  destruct H as (_ & _ & _ & _ & _ & _ & _ & H).
  destruct (H eq_refl) as [Hs _]. exact Hs.
Defined.

Lemma badge_follows_count_witness :
  badge (unreadCount (handleUnreadCount (-2) five_three_unread)) = None.
Proof.
  destruct (badge_follows_count (-2) five_three_unread) as (_ & _ & _ & _ & _ & _ & H).
  apply H. lia.
Defined.
